(** * Zephyr multitouch driver (drivers/input/touchscreen/zephyr.c)

    A shallow embedding of the protocol engine of the driver: the
    checksummed request/response transactions, the two firmware loaders,
    the touch-frame decoder and the one-time bring-up sequence.

    Conventions of the embedding.
    - A C buffer is a map from byte offsets to integers ([bytes]); a byte
      load reduces modulo 256, a byte store truncates.  Offsets past the
      end of an allocation denote whatever memory lies behind it, as they
      do for the C code, which never checks a bound.
    - Multi-byte fields of the overlaid structures are little-endian (the
      driver runs on little-endian ARM).
    - [int] arithmetic that can leave the 32-bit range is wrapped
      explicitly ([s32]); [u32] arithmetic is reduced modulo 2^32.
    - Every function of the driver that talks to the outside world is a
      computation in the monad [M]: it threads the driver structure
      (which owns the SPI device) and produces the list of externally
      visible operations it performed, in order: SPI transfers, delays
      and calls into the input core.  [printk] and [dev_dbg] are not
      recorded. *)

From Stdlib Require Import ZArith List Lia Bool.
Import ListNotations.
Open Scope Z_scope.

(** ** Byte buffers *)

Definition bytes := Z -> Z.

Definition load8 (m : bytes) (a : Z) : Z := m a mod 256.

Definition store8 (m : bytes) (a v : Z) : bytes :=
  fun a' => if a' =? a then v mod 256 else m a'.

(** [u16] field at offset [a], little-endian. *)
Definition load16 (m : bytes) (a : Z) : Z :=
  load8 m a + 256 * load8 m (a + 1).

Definition store16 (m : bytes) (a v : Z) : bytes :=
  store8 (store8 m a v) (a + 1) (v / 256).

(** Reinterpretation of a 16-bit pattern as [s16]. *)
Definition s16 (v : Z) : Z := if v <? 32768 then v else v - 65536.

Definition load16s (m : bytes) (a : Z) : Z := s16 (load16 m a).

(** [u32] field at offset [a], little-endian. *)
Definition load32 (m : bytes) (a : Z) : Z :=
  load16 m a + 65536 * load16 m (a + 2).

Definition u32 (v : Z) : Z := v mod 4294967296.

(** Wrap-around of a C [int]. *)
Definition s32 (v : Z) : Z :=
  let r := v mod 4294967296 in
  if r <? 2147483648 then r else r - 4294967296.

(** [memset(m + off, c, n)]. *)
Definition memset (m : bytes) (off c n : Z) : bytes :=
  fun a => if (off <=? a) && (a <? off + n) then c mod 256 else m a.

(** [memcpy(dst + doff, src + soff, n)]. *)
Definition memcpy (dst : bytes) (doff : Z) (src : bytes) (soff n : Z) : bytes :=
  fun a =>
    if (doff <=? a) && (a <? doff + n) then load8 src (soff + (a - doff))
    else dst a.

(** The first [n] bytes of a buffer, from offset [off]. *)
Definition sub_bytes (m : bytes) (off : Z) (n : Z) : list Z :=
  map (fun k => load8 m (off + Z.of_nat k)) (seq 0 (Z.to_nat n)).

(** A buffer holding the bytes of a list, zero elsewhere. *)
Definition of_list (l : list Z) : bytes :=
  fun a => if a <? 0 then 0 else nth (Z.to_nat a) l 0.

(** The big-endian 16-bit value the driver assembles from two bytes:
    [((hi & 0xFF) << 8) | (lo & 0xFF)]. *)
Definition be16 (hi lo : Z) : Z :=
  Z.lor (Z.shiftl (Z.land hi 255) 8) (Z.land lo 255).

(** ** Layout of the overlaid structures *)

Module MTFrameHeader.
Definition type := 0.
Definition frameNum := 1.
Definition headerLen := 2.
Definition timestamp := 4.
Definition isImage := 14.
Definition numFingers := 16.
Definition fingerDataLen := 17.
End MTFrameHeader.

Module FingerData.
Definition id := 0.
Definition event := 1.
Definition x := 4.
Definition y := 6.
Definition rel_x := 8.
Definition rel_y := 10.
Definition size_major := 12.
Definition size_minor := 14.
Definition orientation := 16.
Definition force_major := 18.
Definition force_minor := 20.
End FingerData.

Definition MAX_FINGER_ORIENTATION := 16384.

Definition MT_INFO_FAMILYID := 209.
Definition MT_INFO_SENSORINFO := 211.
Definition MT_INFO_SENSORREGIONDESC := 208.
Definition MT_INFO_SENSORREGIONPARAM := 161.
Definition MT_INFO_SENSORDIM := 217.

(** ** Externally visible operations *)

Inductive abs_code :=
| ABS_X | ABS_Y
| ABS_MT_TOUCH_MAJOR | ABS_MT_TOUCH_MINOR
| ABS_MT_WIDTH_MAJOR | ABS_MT_WIDTH_MINOR
| ABS_MT_ORIENTATION | ABS_MT_POSITION_X | ABS_MT_POSITION_Y
| ABS_MT_TRACKING_ID.

Record MTSPISetting := { speed : Z; txDelay : Z; rxDelay : Z }.

Definition MTNormalSpeed := {| speed := 83000; txDelay := 5; rxDelay := 10 |}.
Definition MTFastSpeed := {| speed := 4500000; txDelay := 0; rxDelay := 10 |}.
Definition NORMAL_SPEED := MTNormalSpeed.
Definition FAST_SPEED := MTFastSpeed.

Inductive io_event :=
| EvTxRx (setting : MTSPISetting) (out : list Z)   (* mt_txrx: bytes clocked out *)
| EvTx (setting : MTSPISetting) (out : list Z)     (* mt_tx *)
| EvMsleep (ms : Z)
| EvUdelay (us : Z)
| EvGpio (pin value : Z)                           (* iphone_gpio_pin_output *)
| EvAbsParams (code : abs_code) (lo hi : Z)        (* input_set_abs_params *)
| EvAbs (code : abs_code) (value : Z)              (* input_report_abs *)
| EvKeyTouch (value : Z)                           (* input_report_key BTN_TOUCH *)
| EvMtSync                                         (* input_mt_sync *)
| EvSync.                                          (* input_sync *)

(** ** The frame decoder: [newPacket]

    The decoder reads and writes the frame in place through the pointer
    [data] into the input buffer; [F] is [min_pressure] and [H] is
    [SensorHeight]. *)

Section Decoder.
Variables (F H : Z).

(** The positional reports of one finger record. *)
Definition finger_reports (b : bytes) (finger : Z) : list io_event :=
  [ EvAbs ABS_MT_TOUCH_MAJOR (load16 b (finger + FingerData.force_major));
    EvAbs ABS_MT_TOUCH_MINOR (load16 b (finger + FingerData.force_minor));
    EvAbs ABS_MT_WIDTH_MAJOR (load16 b (finger + FingerData.size_major));
    EvAbs ABS_MT_WIDTH_MINOR (load16 b (finger + FingerData.size_minor));
    EvAbs ABS_MT_ORIENTATION
      (MAX_FINGER_ORIENTATION - load16 b (finger + FingerData.orientation));
    EvAbs ABS_MT_TRACKING_ID (load8 b (finger + FingerData.id));
    EvAbs ABS_MT_POSITION_X (load16s b (finger + FingerData.x));
    EvAbs ABS_MT_POSITION_Y (s32 (H - load16s b (finger + FingerData.y))) ].

(** [if (f > min_pressure) f -= min_pressure; else f = 0;] on the
    [u16] field at offset [a]. *)
Definition floor_force (b : bytes) (a : Z) : bytes :=
  if load16 b a >? F then store16 b a (load16 b a - F) else store16 b a 0.

(** The value [floor_force] leaves in a field that held [v]. *)
Definition floored (v : Z) : Z := if v >? F then (v - F) mod 65536 else 0.

(** Body of the per-finger loop, up to and including [input_mt_sync]. *)
Definition finger_body (b : bytes) (finger : Z) : bytes * list io_event :=
  let b1 := floor_force b (finger + FingerData.force_major) in
  let b2 := floor_force b1 (finger + FingerData.force_minor) in
  let reports :=
    if (load16 b2 (finger + FingerData.force_major) >? 0)
       || (load16 b2 (finger + FingerData.force_minor) >? 0)
    then finger_reports b2 finger else [] in
  (b2, reports ++ [EvMtSync]).

(** [for (i = 0; i < header->numFingers; ++i) { ...; finger += header->fingerDataLen; }]
    The header is re-read from memory at every iteration; [fuel] bounds
    the number of iterations (a [u8] count never needs more than 255). *)
Fixpoint finger_loop (fuel : nat) (data i finger : Z) (b : bytes)
  : bytes * list io_event :=
  match fuel with
  | O => (b, [])
  | S fuel' =>
      if i <? load8 b (data + MTFrameHeader.numFingers) then
        let '(b1, ev) := finger_body b finger in
        let '(b2, evs) :=
          finger_loop fuel' data (i + 1)
            (finger + load8 b1 (data + MTFrameHeader.fingerDataLen)) b1 in
        (b2, ev ++ evs)
      else (b, [])
  end.

(** The legacy single-touch report on the first finger record. *)
Definition legacy_report (b : bytes) (data : Z) : list io_event :=
  if load8 b (data + MTFrameHeader.numFingers) >? 0 then
    let finger := data + load8 b (data + MTFrameHeader.headerLen) in
    if load16 b (finger + FingerData.force_minor) >? 0 then
      [ EvAbs ABS_X (load16s b (finger + FingerData.x));
        EvAbs ABS_Y (s32 (H - load16s b (finger + FingerData.y)));
        EvKeyTouch (if load16 b (finger + FingerData.size_minor) >? 0
                    then 1 else 0) ]
    else [EvKeyTouch 0]
  else [].

(** [newPacket] on the buffer [b]; the parameter [len] is unused by the
    C function. *)
Definition newPacket_buf (b : bytes) (data len : Z) : bytes * list io_event :=
  let finger := data + load8 b (data + MTFrameHeader.headerLen) in
  let '(b1, evs) := finger_loop 256 data 0 finger b in
  (b1, evs ++ legacy_report b1 data ++ [EvSync]).

(** The state of the per-finger loop when it reaches the [k]-th record
    of the frame [b0]: the cursor [finger] and the buffer as the earlier
    iterations left it. *)
Fixpoint loop_state (data : Z) (b0 : bytes) (k : nat) : Z * bytes :=
  match k with
  | O => (data + load8 b0 (data + MTFrameHeader.headerLen), b0)
  | S k' =>
      let '(finger, b) := loop_state data b0 k' in
      let b1 := fst (finger_body b finger) in
      (finger + load8 b1 (data + MTFrameHeader.fingerDataLen), b1)
  end.

(** What the decoder emits for the [k]-th record of the frame. *)
Definition finger_group (data : Z) (b0 : bytes) (k : nat) : list io_event :=
  let '(finger, b) := loop_state data b0 k in
  snd (finger_body b finger).
End Decoder.

(** ** The serial transport

    The SPI controller and the sensor behind it are an external
    collaborator.  A transport is a deterministic machine over a state
    [Dev]: a full-duplex transfer clocks the bytes [out] to the device and
    yields the bytes clocked in; a send-only transfer only advances the
    device.  The status [spi_sync] returns is only ever logged by the
    driver and is not modelled. *)

Class Transport (Dev : Type) := {
  spi_txrx : Dev -> MTSPISetting -> list Z -> Dev * bytes;
  spi_tx : Dev -> MTSPISetting -> list Z -> Dev
}.

Section Driver.
Context {Dev : Type} {T : Transport Dev}.

(** [struct zephyr_data].  The lock and the work item are left out;
    [input_dev] records whether an input device is attached. *)
Record zephyr_data := mk_zephyr_data {
  OutputPacket : bytes;
  InputPacket : bytes;
  GetInfoPacket : bytes;
  GetResultPacket : bytes;
  InterfaceVersion : Z;
  MaxPacketSize : Z;
  FamilyID : Z;
  SensorWidth : Z;
  SensorHeight : Z;
  SensorColumns : Z;
  SensorRows : Z;
  BCDVersion : Z;
  Endianness : Z;
  SensorRegionDescriptor : bytes;
  SensorRegionDescriptorLen : Z;
  SensorRegionParam : bytes;
  SensorRegionParamLen : Z;
  min_pressure : Z;
  CurNOP : Z;
  firmware_loaded : bool;
  input_dev : bool;
  irq_count : Z;
  spi_dev : Dev
}.

Definition set_OutputPacket (v : bytes) (z : zephyr_data) : zephyr_data :=
    mk_zephyr_data v (InputPacket z) (GetInfoPacket z) (GetResultPacket z)
    (InterfaceVersion z) (MaxPacketSize z) (FamilyID z) (SensorWidth z)
    (SensorHeight z) (SensorColumns z) (SensorRows z) (BCDVersion z)
    (Endianness z) (SensorRegionDescriptor z) (SensorRegionDescriptorLen z)
    (SensorRegionParam z) (SensorRegionParamLen z) (min_pressure z) (CurNOP
    z) (firmware_loaded z) (input_dev z) (irq_count z) (spi_dev z).

Definition set_InputPacket (v : bytes) (z : zephyr_data) : zephyr_data :=
    mk_zephyr_data (OutputPacket z) v (GetInfoPacket z) (GetResultPacket z)
    (InterfaceVersion z) (MaxPacketSize z) (FamilyID z) (SensorWidth z)
    (SensorHeight z) (SensorColumns z) (SensorRows z) (BCDVersion z)
    (Endianness z) (SensorRegionDescriptor z) (SensorRegionDescriptorLen z)
    (SensorRegionParam z) (SensorRegionParamLen z) (min_pressure z) (CurNOP
    z) (firmware_loaded z) (input_dev z) (irq_count z) (spi_dev z).

Definition set_GetInfoPacket (v : bytes) (z : zephyr_data) : zephyr_data :=
    mk_zephyr_data (OutputPacket z) (InputPacket z) v (GetResultPacket z)
    (InterfaceVersion z) (MaxPacketSize z) (FamilyID z) (SensorWidth z)
    (SensorHeight z) (SensorColumns z) (SensorRows z) (BCDVersion z)
    (Endianness z) (SensorRegionDescriptor z) (SensorRegionDescriptorLen z)
    (SensorRegionParam z) (SensorRegionParamLen z) (min_pressure z) (CurNOP
    z) (firmware_loaded z) (input_dev z) (irq_count z) (spi_dev z).

Definition set_GetResultPacket (v : bytes) (z : zephyr_data) : zephyr_data :=
    mk_zephyr_data (OutputPacket z) (InputPacket z) (GetInfoPacket z) v
    (InterfaceVersion z) (MaxPacketSize z) (FamilyID z) (SensorWidth z)
    (SensorHeight z) (SensorColumns z) (SensorRows z) (BCDVersion z)
    (Endianness z) (SensorRegionDescriptor z) (SensorRegionDescriptorLen z)
    (SensorRegionParam z) (SensorRegionParamLen z) (min_pressure z) (CurNOP
    z) (firmware_loaded z) (input_dev z) (irq_count z) (spi_dev z).

Definition set_InterfaceVersion (v : Z) (z : zephyr_data) : zephyr_data :=
    mk_zephyr_data (OutputPacket z) (InputPacket z) (GetInfoPacket z)
    (GetResultPacket z) v (MaxPacketSize z) (FamilyID z) (SensorWidth z)
    (SensorHeight z) (SensorColumns z) (SensorRows z) (BCDVersion z)
    (Endianness z) (SensorRegionDescriptor z) (SensorRegionDescriptorLen z)
    (SensorRegionParam z) (SensorRegionParamLen z) (min_pressure z) (CurNOP
    z) (firmware_loaded z) (input_dev z) (irq_count z) (spi_dev z).

Definition set_MaxPacketSize (v : Z) (z : zephyr_data) : zephyr_data :=
    mk_zephyr_data (OutputPacket z) (InputPacket z) (GetInfoPacket z)
    (GetResultPacket z) (InterfaceVersion z) v (FamilyID z) (SensorWidth z)
    (SensorHeight z) (SensorColumns z) (SensorRows z) (BCDVersion z)
    (Endianness z) (SensorRegionDescriptor z) (SensorRegionDescriptorLen z)
    (SensorRegionParam z) (SensorRegionParamLen z) (min_pressure z) (CurNOP
    z) (firmware_loaded z) (input_dev z) (irq_count z) (spi_dev z).

Definition set_FamilyID (v : Z) (z : zephyr_data) : zephyr_data :=
    mk_zephyr_data (OutputPacket z) (InputPacket z) (GetInfoPacket z)
    (GetResultPacket z) (InterfaceVersion z) (MaxPacketSize z) v
    (SensorWidth z) (SensorHeight z) (SensorColumns z) (SensorRows z)
    (BCDVersion z) (Endianness z) (SensorRegionDescriptor z)
    (SensorRegionDescriptorLen z) (SensorRegionParam z)
    (SensorRegionParamLen z) (min_pressure z) (CurNOP z) (firmware_loaded z)
    (input_dev z) (irq_count z) (spi_dev z).

Definition set_SensorWidth (v : Z) (z : zephyr_data) : zephyr_data :=
    mk_zephyr_data (OutputPacket z) (InputPacket z) (GetInfoPacket z)
    (GetResultPacket z) (InterfaceVersion z) (MaxPacketSize z) (FamilyID z)
    v (SensorHeight z) (SensorColumns z) (SensorRows z) (BCDVersion z)
    (Endianness z) (SensorRegionDescriptor z) (SensorRegionDescriptorLen z)
    (SensorRegionParam z) (SensorRegionParamLen z) (min_pressure z) (CurNOP
    z) (firmware_loaded z) (input_dev z) (irq_count z) (spi_dev z).

Definition set_SensorHeight (v : Z) (z : zephyr_data) : zephyr_data :=
    mk_zephyr_data (OutputPacket z) (InputPacket z) (GetInfoPacket z)
    (GetResultPacket z) (InterfaceVersion z) (MaxPacketSize z) (FamilyID z)
    (SensorWidth z) v (SensorColumns z) (SensorRows z) (BCDVersion z)
    (Endianness z) (SensorRegionDescriptor z) (SensorRegionDescriptorLen z)
    (SensorRegionParam z) (SensorRegionParamLen z) (min_pressure z) (CurNOP
    z) (firmware_loaded z) (input_dev z) (irq_count z) (spi_dev z).

Definition set_SensorColumns (v : Z) (z : zephyr_data) : zephyr_data :=
    mk_zephyr_data (OutputPacket z) (InputPacket z) (GetInfoPacket z)
    (GetResultPacket z) (InterfaceVersion z) (MaxPacketSize z) (FamilyID z)
    (SensorWidth z) (SensorHeight z) v (SensorRows z) (BCDVersion z)
    (Endianness z) (SensorRegionDescriptor z) (SensorRegionDescriptorLen z)
    (SensorRegionParam z) (SensorRegionParamLen z) (min_pressure z) (CurNOP
    z) (firmware_loaded z) (input_dev z) (irq_count z) (spi_dev z).

Definition set_SensorRows (v : Z) (z : zephyr_data) : zephyr_data :=
    mk_zephyr_data (OutputPacket z) (InputPacket z) (GetInfoPacket z)
    (GetResultPacket z) (InterfaceVersion z) (MaxPacketSize z) (FamilyID z)
    (SensorWidth z) (SensorHeight z) (SensorColumns z) v (BCDVersion z)
    (Endianness z) (SensorRegionDescriptor z) (SensorRegionDescriptorLen z)
    (SensorRegionParam z) (SensorRegionParamLen z) (min_pressure z) (CurNOP
    z) (firmware_loaded z) (input_dev z) (irq_count z) (spi_dev z).

Definition set_BCDVersion (v : Z) (z : zephyr_data) : zephyr_data :=
    mk_zephyr_data (OutputPacket z) (InputPacket z) (GetInfoPacket z)
    (GetResultPacket z) (InterfaceVersion z) (MaxPacketSize z) (FamilyID z)
    (SensorWidth z) (SensorHeight z) (SensorColumns z) (SensorRows z) v
    (Endianness z) (SensorRegionDescriptor z) (SensorRegionDescriptorLen z)
    (SensorRegionParam z) (SensorRegionParamLen z) (min_pressure z) (CurNOP
    z) (firmware_loaded z) (input_dev z) (irq_count z) (spi_dev z).

Definition set_Endianness (v : Z) (z : zephyr_data) : zephyr_data :=
    mk_zephyr_data (OutputPacket z) (InputPacket z) (GetInfoPacket z)
    (GetResultPacket z) (InterfaceVersion z) (MaxPacketSize z) (FamilyID z)
    (SensorWidth z) (SensorHeight z) (SensorColumns z) (SensorRows z)
    (BCDVersion z) v (SensorRegionDescriptor z) (SensorRegionDescriptorLen
    z) (SensorRegionParam z) (SensorRegionParamLen z) (min_pressure z)
    (CurNOP z) (firmware_loaded z) (input_dev z) (irq_count z) (spi_dev z).

Definition set_SensorRegionDescriptor (v : bytes) (z : zephyr_data) :
zephyr_data :=
  mk_zephyr_data (OutputPacket z) (InputPacket z) (GetInfoPacket z)
(GetResultPacket z) (InterfaceVersion z) (MaxPacketSize z) (FamilyID z)
(SensorWidth z) (SensorHeight z) (SensorColumns z) (SensorRows z) (BCDVersion
z) (Endianness z) v (SensorRegionDescriptorLen z) (SensorRegionParam z)
(SensorRegionParamLen z) (min_pressure z) (CurNOP z) (firmware_loaded z)
(input_dev z) (irq_count z) (spi_dev z).

Definition set_SensorRegionDescriptorLen (v : Z) (z : zephyr_data) :
zephyr_data :=
  mk_zephyr_data (OutputPacket z) (InputPacket z) (GetInfoPacket z)
(GetResultPacket z) (InterfaceVersion z) (MaxPacketSize z) (FamilyID z)
(SensorWidth z) (SensorHeight z) (SensorColumns z) (SensorRows z) (BCDVersion
z) (Endianness z) (SensorRegionDescriptor z) v (SensorRegionParam z)
(SensorRegionParamLen z) (min_pressure z) (CurNOP z) (firmware_loaded z)
(input_dev z) (irq_count z) (spi_dev z).

Definition set_SensorRegionParam (v : bytes) (z : zephyr_data) : zephyr_data
:=
  mk_zephyr_data (OutputPacket z) (InputPacket z) (GetInfoPacket z)
(GetResultPacket z) (InterfaceVersion z) (MaxPacketSize z) (FamilyID z)
(SensorWidth z) (SensorHeight z) (SensorColumns z) (SensorRows z) (BCDVersion
z) (Endianness z) (SensorRegionDescriptor z) (SensorRegionDescriptorLen z) v
(SensorRegionParamLen z) (min_pressure z) (CurNOP z) (firmware_loaded z)
(input_dev z) (irq_count z) (spi_dev z).

Definition set_SensorRegionParamLen (v : Z) (z : zephyr_data) : zephyr_data :=
    mk_zephyr_data (OutputPacket z) (InputPacket z) (GetInfoPacket z)
    (GetResultPacket z) (InterfaceVersion z) (MaxPacketSize z) (FamilyID z)
    (SensorWidth z) (SensorHeight z) (SensorColumns z) (SensorRows z)
    (BCDVersion z) (Endianness z) (SensorRegionDescriptor z)
    (SensorRegionDescriptorLen z) (SensorRegionParam z) v (min_pressure z)
    (CurNOP z) (firmware_loaded z) (input_dev z) (irq_count z) (spi_dev z).

Definition set_min_pressure (v : Z) (z : zephyr_data) : zephyr_data :=
    mk_zephyr_data (OutputPacket z) (InputPacket z) (GetInfoPacket z)
    (GetResultPacket z) (InterfaceVersion z) (MaxPacketSize z) (FamilyID z)
    (SensorWidth z) (SensorHeight z) (SensorColumns z) (SensorRows z)
    (BCDVersion z) (Endianness z) (SensorRegionDescriptor z)
    (SensorRegionDescriptorLen z) (SensorRegionParam z)
    (SensorRegionParamLen z) v (CurNOP z) (firmware_loaded z) (input_dev z)
    (irq_count z) (spi_dev z).

Definition set_CurNOP (v : Z) (z : zephyr_data) : zephyr_data :=
    mk_zephyr_data (OutputPacket z) (InputPacket z) (GetInfoPacket z)
    (GetResultPacket z) (InterfaceVersion z) (MaxPacketSize z) (FamilyID z)
    (SensorWidth z) (SensorHeight z) (SensorColumns z) (SensorRows z)
    (BCDVersion z) (Endianness z) (SensorRegionDescriptor z)
    (SensorRegionDescriptorLen z) (SensorRegionParam z)
    (SensorRegionParamLen z) (min_pressure z) v (firmware_loaded z)
    (input_dev z) (irq_count z) (spi_dev z).

Definition set_firmware_loaded (v : bool) (z : zephyr_data) : zephyr_data :=
    mk_zephyr_data (OutputPacket z) (InputPacket z) (GetInfoPacket z)
    (GetResultPacket z) (InterfaceVersion z) (MaxPacketSize z) (FamilyID z)
    (SensorWidth z) (SensorHeight z) (SensorColumns z) (SensorRows z)
    (BCDVersion z) (Endianness z) (SensorRegionDescriptor z)
    (SensorRegionDescriptorLen z) (SensorRegionParam z)
    (SensorRegionParamLen z) (min_pressure z) (CurNOP z) v (input_dev z)
    (irq_count z) (spi_dev z).

Definition set_input_dev (v : bool) (z : zephyr_data) : zephyr_data :=
    mk_zephyr_data (OutputPacket z) (InputPacket z) (GetInfoPacket z)
    (GetResultPacket z) (InterfaceVersion z) (MaxPacketSize z) (FamilyID z)
    (SensorWidth z) (SensorHeight z) (SensorColumns z) (SensorRows z)
    (BCDVersion z) (Endianness z) (SensorRegionDescriptor z)
    (SensorRegionDescriptorLen z) (SensorRegionParam z)
    (SensorRegionParamLen z) (min_pressure z) (CurNOP z) (firmware_loaded z)
    v (irq_count z) (spi_dev z).

Definition set_irq_count (v : Z) (z : zephyr_data) : zephyr_data :=
    mk_zephyr_data (OutputPacket z) (InputPacket z) (GetInfoPacket z)
    (GetResultPacket z) (InterfaceVersion z) (MaxPacketSize z) (FamilyID z)
    (SensorWidth z) (SensorHeight z) (SensorColumns z) (SensorRows z)
    (BCDVersion z) (Endianness z) (SensorRegionDescriptor z)
    (SensorRegionDescriptorLen z) (SensorRegionParam z)
    (SensorRegionParamLen z) (min_pressure z) (CurNOP z) (firmware_loaded z)
    (input_dev z) v (spi_dev z).

Definition set_spi_dev (v : Dev) (z : zephyr_data) : zephyr_data :=
    mk_zephyr_data (OutputPacket z) (InputPacket z) (GetInfoPacket z)
    (GetResultPacket z) (InterfaceVersion z) (MaxPacketSize z) (FamilyID z)
    (SensorWidth z) (SensorHeight z) (SensorColumns z) (SensorRows z)
    (BCDVersion z) (Endianness z) (SensorRegionDescriptor z)
    (SensorRegionDescriptorLen z) (SensorRegionParam z)
    (SensorRegionParamLen z) (min_pressure z) (CurNOP z) (firmware_loaded z)
    (input_dev z) (irq_count z) v.

(** *** The driver monad *)

Definition M (A : Type) : Type := zephyr_data -> A * zephyr_data * list io_event.

Definition ret {A} (a : A) : M A := fun z => (a, z, []).

Definition bind {A B} (m : M A) (f : A -> M B) : M B :=
  fun z =>
    let '(a, z1, o1) := m z in
    let '(b, z2, o2) := f a z1 in
    (b, z2, o1 ++ o2).

Definition get : M zephyr_data := fun z => (z, z, []).
Definition modify (f : zephyr_data -> zephyr_data) : M unit :=
  fun z => (tt, f z, []).
Definition emit (e : io_event) : M unit := fun z => (tt, z, [e]).

Notation "x <- m ;; k" := (bind m (fun x => k))
  (at level 61, m at next level, right associativity).
Notation "m ;;; k" := (bind m (fun _ => k))
  (at level 61, right associativity).

Definition msleep (ms : Z) : M unit := emit (EvMsleep ms).
Definition udelay (us : Z) : M unit := emit (EvUdelay us).

(** Result, final state and operations of a computation. *)
Definition result {A} (r : A * zephyr_data * list io_event) : A := fst (fst r).
Definition final {A} (r : A * zephyr_data * list io_event) : zephyr_data :=
  snd (fst r).
Definition trace {A} (r : A * zephyr_data * list io_event) : list io_event :=
  snd r.

(** *** Transfers *)

(** [mt_txrx]: one full-duplex transfer of [max(outLen, inLen)] bytes;
    the result is the receive buffer after the transfer. *)
Definition mt_txrx (setting : MTSPISetting) (outBuffer : bytes) (outLen : Z)
  (inBuffer : bytes) (inLen : Z) : M bytes :=
  fun z =>
    let sz := if outLen >? inLen then outLen else inLen in
    let out := sub_bytes outBuffer 0 sz in
    let '(d, rx) := spi_txrx (spi_dev z) setting out in
    (memcpy inBuffer 0 rx 0 sz, set_spi_dev d z, [EvTxRx setting out]).

(** [mt_tx]: one send-only transfer. *)
Definition mt_tx (setting : MTSPISetting) (outBuffer : bytes) (outLen : Z)
  : M unit :=
  fun z =>
    let out := sub_bytes outBuffer 0 outLen in
    (tt, set_spi_dev (spi_tx (spi_dev z) setting out) z, [EvTx setting out]).

(** An automatic array before it is written. *)
Definition uninit : bytes := fun _ => 0.

(** [for (i = lo; i < hi; ++i) acc += m[i];] from [acc = 0]. *)
Definition sum_bytes (m : bytes) (lo hi : Z) : Z :=
  fold_left Z.add (sub_bytes m lo (hi - lo)) 0.

(** *** The decoder on the input buffer *)

Definition newPacket (data len : Z) : M unit :=
  fun z =>
    let '(b, evs) :=
      newPacket_buf (min_pressure z) (SensorHeight z) (InputPacket z) data len in
    (tt, set_InputPacket b z, evs).

(** *** Validation of a response

    Inside each retry loop the response is validated by a chain of
    tests whose failing branches are all [msleep(1); continue;].  The
    chain of each loop is written once, as a function of the receive
    buffer; [None] (or [false]) is the [continue]. *)

(** [readFrameLength]: sync byte, header-pair checksum, size limit. *)
Definition readFrameLength_check (maxPacketSize : Z) (rx : bytes) : option Z :=
  if negb (load8 rx 0 =? 170) then None
  else
    let tLen := be16 (load8 rx 4) (load8 rx 5) in
    let tLenCkSum := Z.land (load8 rx 4 + load8 rx 5) 65535 in
    let checksum := be16 (load8 rx 6) (load8 rx 7) in
    if negb (tLenCkSum =? checksum) then None
    else if tLen >? maxPacketSize then None
    else Some tLen.

(** [readResultData]: sync byte and payload checksum over
    [InputPacket[1 .. len-2)]. *)
Definition readResultData_check (len : Z) (ip : bytes) : bool :=
  if negb (load8 ip 0 =? 170) then false
  else
    let checksum := be16 (load8 ip (len - 2)) (load8 ip (len - 1)) in
    let myChecksum := Z.land (sum_bytes ip 1 (len - 2)) 65535 in
    if negb (myChecksum =? checksum) then false else true.

(** [getReportInfo]: sync byte and checksum over the id and two header
    bytes; on success the error nibble and the 12-bit length. *)
Definition getReportInfo_check (id : Z) (rx : bytes) : option (Z * Z) :=
  if negb (load8 rx 0 =? 170) then None
  else
    let checksum := be16 (load8 rx 6) (load8 rx 7) in
    let myChecksum := Z.land (id + load8 rx 4 + load8 rx 5) 65535 in
    if negb (checksum =? myChecksum) then None
    else
      Some (Z.land (Z.shiftr (load8 rx 4) 4) 15,
            Z.lor (Z.shiftl (Z.land (load8 rx 4) 15) 8)
                  (Z.land (load8 rx 5) 255)).

(** [getReport]: sync byte and checksum over the id and the payload
    [InputPacket[4 .. 4+len)]. *)
Definition getReport_check (id len : Z) (ip : bytes) : bool :=
  if negb (load8 ip 0 =? 170) then false
  else
    let checksum := be16 (load8 ip (len + 4)) (load8 ip (len + 5)) in
    let myChecksum := Z.land (id + sum_bytes ip 4 (4 + len)) 65535 in
    if negb (myChecksum =? checksum) then false else true.

(** *** Frame reads *)

Fixpoint readResultData_from (tries : nat) (len : Z) : M bool :=
  match tries with
  | O => ret false
  | S tries' =>
      z <- get ;;
      ip <- mt_txrx NORMAL_SPEED (GetResultPacket z) len (InputPacket z) len ;;
      modify (set_InputPacket ip) ;;;
      if negb (readResultData_check len ip) then
        msleep 1 ;;; readResultData_from tries' len
      else
        newPacket 1 (len - 3) ;;; ret true
  end.

Definition readResultData (len : Z) : M bool := readResultData_from 4 len.

(** The frame-length loop; [Some tLen] stands for [*len = tLen; return true]. *)
Fixpoint readFrameLength_from (tries : nat) (tx : bytes) : M (option Z) :=
  match tries with
  | O => ret None
  | S tries' =>
      rx <- mt_txrx NORMAL_SPEED tx 8 uninit 8 ;;
      z <- get ;;
      match readFrameLength_check (MaxPacketSize z) rx with
      | None => msleep 1 ;;; readFrameLength_from tries' tx
      | Some tLen => ret (Some tLen)
      end
  end.

Definition readFrameLength : M (option Z) :=
  z <- get ;;
  readFrameLength_from 4 (memset uninit 0 (CurNOP z) 8).

(** [readFrame]; a failed length query leaves the local [len] alone and
    goes round the loop again. *)
Fixpoint readFrame_from (tries : nat) : M Z :=
  match tries with
  | O => ret (-1)
  | S tries' =>
      r <- readFrameLength ;;
      match r with
      | None => msleep 1 ;;; readFrame_from tries'
      | Some len =>
          if negb (len =? 0) then
            ok <- readResultData (len + 1) ;;
            if negb ok then msleep 1 ;;; readFrame_from tries'
            else
              z <- get ;;
              (if CurNOP z =? 100 then modify (set_CurNOP 101)
               else modify (set_CurNOP 100)) ;;;
              ret 1
          else ret 0
      end
  end.

Definition readFrame : M Z := readFrame_from 4.

(** [n] successive calls of [readFrame], as the interrupt work issues
    them one after the other; the results in order. *)
Fixpoint read_cycles (n : nat) : M (list Z) :=
  match n with
  | O => ret []
  | S n' =>
      r <- readFrame ;;
      rs <- read_cycles n' ;;
      ret (r :: rs)
  end.

(** *** Report queries *)

(** [getReportInfo]; [Some (err, len)] stands for a [true] return with
    the two out-parameters written. *)
Fixpoint getReportInfo_from (tries : nat) (id : Z) : M (option (Z * Z)) :=
  match tries with
  | O => ret None
  | S tries' =>
      let tx := store8 (memset uninit 0 143 8) 1 id in
      rx <- mt_txrx NORMAL_SPEED tx 8 uninit 8 ;;
      match getReportInfo_check id rx with
      | None => msleep 1 ;;; getReportInfo_from tries' id
      | Some r => ret (Some r)
      end
  end.

Definition getReportInfo (id : Z) : M (option (Z * Z)) := getReportInfo_from 4 id.

(** The transfer loop of [getReport]; [Some (buffer, outLen)] stands for
    a [true] return after the copy into the caller's buffer. *)
Fixpoint getReport_from (tries : nat) (id len : Z) (buffer : bytes)
  : M (option (bytes * Z)) :=
  match tries with
  | O => ret None
  | S tries' =>
      modify (fun z => set_GetInfoPacket (store8 (GetInfoPacket z) 1 id) z) ;;;
      z <- get ;;
      ip <- mt_txrx NORMAL_SPEED (GetInfoPacket z) (len + 6)
              (InputPacket z) (len + 6) ;;
      modify (set_InputPacket ip) ;;;
      if negb (getReport_check id len ip) then
        msleep 1 ;;; getReport_from tries' id len buffer
      else ret (Some (memcpy buffer 0 ip 4 len, len))
  end.

Definition getReport (id : Z) (buffer : bytes) : M (option (bytes * Z)) :=
  r <- getReportInfo id ;;
  match r with
  | None => ret None
  | Some (err, len) =>
      if negb (err =? 0) then ret None
      else getReport_from 4 id len buffer
  end.

(** *** Interface version *)

Fixpoint determineInterfaceVersion_from (tries : nat) : M bool :=
  match tries with
  | O => ret false
  | S tries' =>
      rx <- mt_txrx NORMAL_SPEED (memset uninit 0 208 4) 4 uninit 4 ;;
      if load8 rx 0 =? 170 then
        modify (set_InterfaceVersion (load8 rx 1)) ;;;
        modify (set_MaxPacketSize
                  (Z.lor (Z.shiftl (load8 rx 2) 8) (load8 rx 3))) ;;;
        ret true
      else
        modify (set_InterfaceVersion 0) ;;;
        modify (set_MaxPacketSize 1000) ;;;
        msleep 3 ;;;
        determineInterfaceVersion_from tries'
  end.

Definition determineInterfaceVersion : M bool :=
  determineInterfaceVersion_from 4.

(** *** Firmware upload *)

Definition verifyUpload (checksum : Z) : M bool :=
  rx <- mt_txrx NORMAL_SPEED (of_list [5; 0; 0; 6]) 4 uninit 4 ;;
  if negb (load8 rx 0 =? 208) || negb (load8 rx 1 =? 0) then ret false
  else if negb (load8 rx 2 =? Z.land (Z.shiftr checksum 8) 255) then ret false
  else if negb (load8 rx 3 =? Z.land checksum 255) then ret false
  else ret true.

Definition sendExecutePacket : M unit :=
  rx <- mt_txrx NORMAL_SPEED (of_list [196; 0; 0; 196]) 4 uninit 4 ;;
  ret tt.

Definition sendBlankDataPacket : M unit :=
  rx <- mt_txrx NORMAL_SPEED (of_list [194; 0; 0; 0]) 4 uninit 4 ;;
  ret tt.

(** [makeBootloaderDataPacket(output, destAddress, firmware + data, dataLen, &cksum)]:
    the packet, the checksum and the returned length. *)
Definition makeBootloaderDataPacket (output : bytes) (destAddress : Z)
  (firmware : bytes) (data dataLen : Z) : bytes * Z * Z :=
  let dataLen := if dataLen >? 1016 then 1016 else dataLen in
  let o := store8 output 0 194 in
  let o := store8 o 1 (Z.land (Z.shiftr destAddress 24) 255) in
  let o := store8 o 2 (Z.land (Z.shiftr destAddress 16) 255) in
  let o := store8 o 3 (Z.land (Z.shiftr destAddress 8) 255) in
  let o := store8 o 4 (Z.land destAddress 255) in
  let o := store8 o 5 0 in
  let o := memcpy o 6 firmware data dataLen in
  let checksum := sum_bytes firmware data (data + dataLen) + sum_bytes o 0 6 in
  let o := memset o (dataLen + 6) 0 (1016 - dataLen) in
  let o := store8 o 1022 (Z.land (Z.shiftr checksum 8) 255) in
  let o := store8 o 1023 (Z.land checksum 255) in
  (o, checksum, dataLen).

(** The five (transmit, delay, verify) attempts on one chunk; [true]
    stands for leaving the loop through [break], [false] for [try == 5]. *)
Fixpoint uploadChunk_from (tries : nat) (checksum : Z) : M bool :=
  match tries with
  | O => ret false
  | S tries' =>
      z <- get ;;
      mt_tx NORMAL_SPEED (OutputPacket z) 1024 ;;;
      udelay 300 ;;;
      ok <- verifyUpload checksum ;;
      if ok then ret true else uploadChunk_from tries' checksum
  end.

(** [while (left > 0)] of [loadASpeedFirmware]; every iteration lowers
    [left] by at least one, so [fuel >= left] iterations suffice. *)
Fixpoint loadASpeedFirmware_loop (fuel : nat) (firmware : bytes)
  (address data left : Z) : M bool :=
  if left >? 0 then
    match fuel with
    | O => ret false
    | S fuel' =>
        let toUpload := if left >? 1016 then 1016 else left in
        z <- get ;;
        let '(o, checksum, _) :=
          makeBootloaderDataPacket (OutputPacket z) address firmware data
            toUpload in
        modify (set_OutputPacket o) ;;;
        ok <- uploadChunk_from 5 checksum ;;
        if negb ok then ret false
        else
          loadASpeedFirmware_loop fuel' firmware (u32 (address + toUpload))
            (data + toUpload) (left - toUpload)
    end
  else sendExecutePacket ;;; ret true.

Definition loadASpeedFirmware (firmware : bytes) (len : Z) : M bool :=
  loadASpeedFirmware_loop (Z.to_nat len) firmware 1073741824 0 len.

(** The five attempts of [loadMainFirmware]. *)
Fixpoint uploadMain_from (tries : nat) (firmware : bytes) (len checksum : Z)
  : M bool :=
  match tries with
  | O => ret false
  | S tries' =>
      sendBlankDataPacket ;;;
      mt_tx FAST_SPEED firmware len ;;;
      ok <- verifyUpload checksum ;;
      if ok then ret true else uploadMain_from tries' firmware len checksum
  end.

(** The running sum is kept unbounded: the verification only looks at
    its low 16 bits, on which a wrapped [int] agrees with it. *)
Definition loadMainFirmware (firmware : bytes) (len : Z) : M bool :=
  let checksum := sum_bytes firmware 0 len in
  ok <- uploadMain_from 5 firmware len checksum ;;
  if negb ok then ret false
  else sendExecutePacket ;;; ret true.

(** *** Bring-up: [zephyr_setup] *)

(** What the kernel decides during bring-up: the contents of freshly
    allocated memory and the outcome of the two input-core calls. *)
Record platform := {
  kmalloc : bytes;
  input_allocate_device_ok : bool;
  input_register_device_ret : Z
}.

Definition MT_GPIO_POWER := 1793.

(** [(k - *(u32 * )p) * 84 / 73], evaluated in [unsigned] arithmetic and
    stored into an [int]. *)
Definition sensor_dim (k raw : Z) : Z :=
  s32 (u32 (u32 (k - raw) * 84) / 73).

Definition register_axes : M unit :=
  z <- get ;;
  let w := SensorWidth z in
  let h := SensorHeight z in
  emit (EvAbsParams ABS_X 0 w) ;;;
  emit (EvAbsParams ABS_Y 0 h) ;;;
  emit (EvAbsParams ABS_MT_TOUCH_MAJOR 0 (Z.max h w)) ;;;
  emit (EvAbsParams ABS_MT_TOUCH_MINOR 0 (Z.max h w)) ;;;
  emit (EvAbsParams ABS_MT_WIDTH_MAJOR 0 (Z.max h w)) ;;;
  emit (EvAbsParams ABS_MT_WIDTH_MINOR 0 (Z.max h w)) ;;;
  emit (EvAbsParams ABS_MT_ORIENTATION
          (- MAX_FINGER_ORIENTATION) MAX_FINGER_ORIENTATION) ;;;
  emit (EvAbsParams ABS_MT_POSITION_X 0 w) ;;;
  emit (EvAbsParams ABS_MT_POSITION_Y 0 h) ;;;
  emit (EvAbsParams ABS_MT_TRACKING_ID 0 32).

(** The tail of [zephyr_setup], from the allocation of the input device. *)
Definition setup_input (p : platform) : M Z :=
  modify (set_input_dev (input_allocate_device_ok p)) ;;;
  if negb (input_allocate_device_ok p) then ret (-1)
  else
    register_axes ;;;
    if negb (input_register_device_ret p =? 0) then ret (-1)
    else
      modify (set_CurNOP 100) ;;;
      modify (set_irq_count 0) ;;;
      modify (set_firmware_loaded true) ;;;
      readFrame ;;;
      ret 0.

(** The five report queries of [zephyr_setup]. *)
Definition setup_reports (p : platform) : M Z :=
  let reportBuffer := kmalloc p in
  r <- getReport MT_INFO_FAMILYID reportBuffer ;;
  match r with
  | None => ret (-1)
  | Some (reportBuffer, _) =>
  modify (set_FamilyID (load8 reportBuffer 0)) ;;;
  r <- getReport MT_INFO_SENSORINFO reportBuffer ;;
  match r with
  | None => ret (-1)
  | Some (reportBuffer, _) =>
  modify (set_SensorColumns (load8 reportBuffer 2)) ;;;
  modify (set_SensorRows (load8 reportBuffer 1)) ;;;
  modify (set_BCDVersion (be16 (load8 reportBuffer 3) (load8 reportBuffer 4))) ;;;
  modify (set_Endianness (load8 reportBuffer 0)) ;;;
  r <- getReport MT_INFO_SENSORREGIONDESC reportBuffer ;;
  match r with
  | None => ret (-1)
  | Some (reportBuffer, reportLen) =>
  modify (set_SensorRegionDescriptorLen reportLen) ;;;
  modify (set_SensorRegionDescriptor
            (memcpy (kmalloc p) 0 reportBuffer 0 reportLen)) ;;;
  r <- getReport MT_INFO_SENSORREGIONPARAM reportBuffer ;;
  match r with
  | None => ret (-1)
  | Some (reportBuffer, reportLen) =>
  modify (set_SensorRegionParamLen reportLen) ;;;
  modify (set_SensorRegionParam
            (memcpy (kmalloc p) 0 reportBuffer 0 reportLen)) ;;;
  r <- getReport MT_INFO_SENSORDIM reportBuffer ;;
  match r with
  | None => ret (-1)
  | Some (reportBuffer, _) =>
  modify (set_SensorWidth (sensor_dim 9000 (load32 reportBuffer 0))) ;;;
  modify (set_SensorHeight (sensor_dim 13850 (load32 reportBuffer 4))) ;;;
  setup_input p
  end end end end end.

Definition zephyr_setup (p : platform) (ASpeedFirmware : bytes)
  (ASpeedFirmwareLen : Z) (mainFirmware : bytes) (mainFirmwareLen : Z) : M Z :=
  modify (set_OutputPacket (kmalloc p)) ;;;
  modify (set_InputPacket (kmalloc p)) ;;;
  modify (set_GetInfoPacket (memset (kmalloc p) 0 130 1024)) ;;;
  modify (set_GetResultPacket (memset (kmalloc p) 0 104 1024)) ;;;
  emit (EvGpio MT_GPIO_POWER 0) ;;;
  msleep 200 ;;;
  emit (EvGpio MT_GPIO_POWER 1) ;;;
  msleep 15 ;;;
  ok <- loadASpeedFirmware ASpeedFirmware ASpeedFirmwareLen ;;
  if negb ok then ret (-1)
  else
    msleep 1 ;;;
    ok <- loadMainFirmware mainFirmware mainFirmwareLen ;;
    if negb ok then ret (-1)
    else
      msleep 1 ;;;
      ok <- determineInterfaceVersion ;;
      if negb ok then ret (-1)
      else setup_reports p.

(** Bring-up cut in two at the arrival of the dimension report.
    [dimension_report] is [zephyr_setup] up to and including
    [getReport(_mt, MT_INFO_SENSORDIM, reportBuffer, &reportLen)] and
    yields what that call delivers, [None] when bring-up has failed by
    then; [store_dimensions] is the rest of [zephyr_setup]. *)
Definition dimension_report_query (p : platform) : M (option (bytes * Z)) :=
  let reportBuffer := kmalloc p in
  r <- getReport MT_INFO_FAMILYID reportBuffer ;;
  match r with
  | None => ret None
  | Some (reportBuffer, _) =>
  modify (set_FamilyID (load8 reportBuffer 0)) ;;;
  r <- getReport MT_INFO_SENSORINFO reportBuffer ;;
  match r with
  | None => ret None
  | Some (reportBuffer, _) =>
  modify (set_SensorColumns (load8 reportBuffer 2)) ;;;
  modify (set_SensorRows (load8 reportBuffer 1)) ;;;
  modify (set_BCDVersion (be16 (load8 reportBuffer 3) (load8 reportBuffer 4))) ;;;
  modify (set_Endianness (load8 reportBuffer 0)) ;;;
  r <- getReport MT_INFO_SENSORREGIONDESC reportBuffer ;;
  match r with
  | None => ret None
  | Some (reportBuffer, reportLen) =>
  modify (set_SensorRegionDescriptorLen reportLen) ;;;
  modify (set_SensorRegionDescriptor
            (memcpy (kmalloc p) 0 reportBuffer 0 reportLen)) ;;;
  r <- getReport MT_INFO_SENSORREGIONPARAM reportBuffer ;;
  match r with
  | None => ret None
  | Some (reportBuffer, reportLen) =>
  modify (set_SensorRegionParamLen reportLen) ;;;
  modify (set_SensorRegionParam
            (memcpy (kmalloc p) 0 reportBuffer 0 reportLen)) ;;;
  getReport MT_INFO_SENSORDIM reportBuffer
  end end end end.

Definition dimension_report (p : platform) (ASpeedFirmware : bytes)
  (ASpeedFirmwareLen : Z) (mainFirmware : bytes) (mainFirmwareLen : Z)
  : M (option (bytes * Z)) :=
  modify (set_OutputPacket (kmalloc p)) ;;;
  modify (set_InputPacket (kmalloc p)) ;;;
  modify (set_GetInfoPacket (memset (kmalloc p) 0 130 1024)) ;;;
  modify (set_GetResultPacket (memset (kmalloc p) 0 104 1024)) ;;;
  emit (EvGpio MT_GPIO_POWER 0) ;;;
  msleep 200 ;;;
  emit (EvGpio MT_GPIO_POWER 1) ;;;
  msleep 15 ;;;
  ok <- loadASpeedFirmware ASpeedFirmware ASpeedFirmwareLen ;;
  if negb ok then ret None
  else
    msleep 1 ;;;
    ok <- loadMainFirmware mainFirmware mainFirmwareLen ;;
    if negb ok then ret None
    else
      msleep 1 ;;;
      ok <- determineInterfaceVersion ;;
      if negb ok then ret None
      else dimension_report_query p.

Definition store_dimensions (p : platform) (r : option (bytes * Z)) : M Z :=
  match r with
  | None => ret (-1)
  | Some (reportBuffer, _) =>
      modify (set_SensorWidth (sensor_dim 9000 (load32 reportBuffer 0))) ;;;
      modify (set_SensorHeight (sensor_dim 13850 (load32 reportBuffer 4))) ;;;
      setup_input p
  end.

(** *** The pressure-floor attribute

    [sscanf(_buf, "%u\n", &new_val)] belongs to the kernel library; its
    two results are parameters: the count [scanned] it returns and the
    [unsigned int] it leaves in [new_val]. *)
Definition zephyr_min_pressure_store (scanned new_val : Z) : M Z :=
  if scanned <=? 0 then ret scanned
  else if new_val >=? 255 then ret 0
  else modify (set_min_pressure (new_val mod 256)) ;;; ret scanned.

End Driver.

(** ** Observations on a run *)

(** A field [f] of the driver structure is left alone by a computation. *)
Definition preserves {Dev} {A X : Type} (f : zephyr_data (Dev:=Dev) -> X)
  (m : M A) : Prop :=
  forall z, f (final (m z)) = f z.

(** A run of bring-up that succeeds leaves in [SensorWidth] and
    [SensorHeight] what [sensor_dim] makes of the two [u32] fields of a
    report buffer. *)
Definition geometry_from_report {Dev}
  (r : Z * @zephyr_data Dev * list io_event) : Prop :=
  result r = 0 ->
  exists reportBuffer,
    SensorWidth (final r) = sensor_dim 9000 (load32 reportBuffer 0)
    /\ SensorHeight (final r) = sensor_dim 13850 (load32 reportBuffer 4).

(** Number of full-duplex transfers in a run. *)
Definition count_txrx (t : list io_event) : nat :=
  length (filter (fun e => match e with EvTxRx _ _ => true | _ => false end) t).

(** Number of send-only transfers in a run. *)
Definition count_tx (t : list io_event) : nat :=
  length (filter (fun e => match e with EvTx _ _ => true | _ => false end) t).

(** The calls into the input core in a run. *)
Definition input_events (t : list io_event) : list io_event :=
  filter (fun e => match e with
                   | EvAbs _ _ | EvKeyTouch _ | EvMtSync | EvSync => true
                   | _ => false
                   end) t.

(** ** The chunks of the first-stage loader

    The arguments [(address, data, toUpload)] of the successive calls of
    [makeBootloaderDataPacket] in the [while] loop of
    [loadASpeedFirmware], when no upload is given up. *)
Fixpoint aspeed_chunks (fuel : nat) (address data left : Z)
  : list (Z * Z * Z) :=
  if left >? 0 then
    match fuel with
    | O => []
    | S fuel' =>
        let toUpload := if left >? 1016 then 1016 else left in
        (address, data, toUpload)
        :: aspeed_chunks fuel' (u32 (address + toUpload)) (data + toUpload)
             (left - toUpload)
    end
  else [].

(** The 1024 bytes transmitted for one chunk. *)
Definition chunk_packet (firmware : bytes) (c : Z * Z * Z) : list Z :=
  let '(address, data, toUpload) := c in
  sub_bytes
    (fst (fst (makeBootloaderDataPacket uninit address firmware data toUpload)))
    0 1024.

(** The destination address a packet carries in bytes 1..4, big-endian. *)
Definition packet_address (packet : list Z) : Z :=
  16777216 * nth 1 packet 0 + 65536 * nth 2 packet 0
  + 256 * nth 3 packet 0 + nth 4 packet 0.

(** A transport on which the first byte clocked in is never a sync byte:
    neither the [0xAA] of a query response nor the [0xD0] of a verify
    acknowledgement. *)
Definition bad_sync {Dev} (T : Transport Dev) : Prop :=
  forall d setting out,
    load8 (snd (spi_txrx d setting out)) 0 <> 170
    /\ load8 (snd (spi_txrx d setting out)) 0 <> 208.

(** A bootloader that acknowledges every upload: after a send-only
    transfer of [packet], a full-duplex exchange returns the acknowledgement
    pair [0xD0 0x00] followed by the last two of the 1024 bytes sent. *)
Definition acknowledges {Dev} (T : Transport Dev) : Prop :=
  forall d packet out,
    let rx := snd (spi_txrx (spi_tx d NORMAL_SPEED packet) NORMAL_SPEED out) in
    load8 rx 0 = 208 /\ load8 rx 1 = 0
    /\ load8 rx 2 = nth 1022 packet 0 mod 256
    /\ load8 rx 3 = nth 1023 packet 0 mod 256.

(** ** Sample transports *)

(** A line on which every byte clocked in is zero. *)
Definition dead_line : Transport unit := {|
  spi_txrx := fun d _ _ => (d, uninit);
  spi_tx := fun d _ _ => d
|}.

(** A device that answers the successive full-duplex transfers with the
    responses of a script, and with zeros once the script is exhausted. *)
Definition scripted : Transport (list (list Z)) := {|
  spi_txrx := fun d _ _ =>
    match d with
    | [] => ([], uninit)
    | r :: d' => (d', of_list r)
    end;
  spi_tx := fun d _ _ => d
|}.

(** The device side of the checksummed exchanges: the responses a
    well-behaved controller puts on the wire. *)
Definition be16_bytes (v : Z) : list Z := [(v / 256) mod 256; v mod 256].

Definition le32_bytes (v : Z) : list Z :=
  [v mod 256; (v / 256) mod 256; (v / 65536) mod 256; (v / 16777216) mod 256].

Definition frame_length_response (len : Z) : list Z :=
  [170; 0; 0; 0] ++ be16_bytes len
  ++ be16_bytes ((len / 256) mod 256 + len mod 256).

Definition frame_data_response (payload : list Z) : list Z :=
  [170] ++ payload ++ be16_bytes (fold_left Z.add payload 0 mod 65536).

Definition report_info_response (id len : Z) : list Z :=
  [170; 0; 0; 0; (len / 256) mod 16; len mod 256]
  ++ be16_bytes ((id + (len / 256) mod 16 + len mod 256) mod 65536).

Definition report_response (id : Z) (payload : list Z) : list Z :=
  [170; 0; 0; 0] ++ payload
  ++ be16_bytes ((id + fold_left Z.add payload 0) mod 65536).

(** A frame-length response announcing 16 bytes and a matching 17-byte
    frame-data response carrying 14 payload bytes. *)
Definition length16_response : list Z := frame_length_response 16.
Definition data16_response : list Z :=
  frame_data_response [68; 0; 0; 0; 0; 0; 0; 0; 0; 0; 0; 0; 0; 0].

(** A frame-length response announcing that no frame is pending. *)
Definition length0_response : list Z := frame_length_response 0.

(** The answers of a controller during a bring-up with two empty
    firmware images, reporting the raw dimensions [raw_x] and [raw_y]
    and no pending frame. *)
Definition bringup_script (raw_x raw_y : Z) : list (list Z) :=
  [ [0; 0; 0; 0];
    [0; 0; 0; 0];
    [208; 0; 0; 0];
    [0; 0; 0; 0];
    [170; 1; 3; 232];
    report_info_response MT_INFO_FAMILYID 1;
    report_response MT_INFO_FAMILYID [81];
    report_info_response MT_INFO_SENSORINFO 5;
    report_response MT_INFO_SENSORINFO [1; 15; 10; 2; 0];
    report_info_response MT_INFO_SENSORREGIONDESC 2;
    report_response MT_INFO_SENSORREGIONDESC [7; 8];
    report_info_response MT_INFO_SENSORREGIONPARAM 2;
    report_response MT_INFO_SENSORREGIONPARAM [9; 10];
    report_info_response MT_INFO_SENSORDIM 8;
    report_response MT_INFO_SENSORDIM (le32_bytes raw_x ++ le32_bytes raw_y);
    frame_length_response 0 ].

(** The same bring-up in front of a controller that has a frame of
    length 16 pending when bring-up makes its first read. *)
Definition bringup_script_pending (raw_x raw_y : Z) : list (list Z) :=
  firstn 15 (bringup_script raw_x raw_y)
  ++ [length16_response; data16_response].

(** A kernel that hands out zeroed memory and registers the input
    device without error. *)
Definition willing_kernel : platform := {|
  kmalloc := uninit;
  input_allocate_device_ok := true;
  input_register_device_ret := 0
|}.

(** A bootloader that acknowledges every upload: it remembers the last
    two bytes of what was sent and answers a verify exchange with them. *)
Definition acking_bootloader : Transport (Z * Z) := {|
  spi_txrx := fun d _ _ => (d, of_list [208; 0; fst d; snd d]);
  spi_tx := fun _ _ out => (nth 1022 out 0, nth 1023 out 0)
|}.

(** A driver structure as after [zephyr_probe], a pressure floor of 100
    and no firmware loaded, the fields it does not assign taken as zero. *)
Definition probed {Dev} (d : Dev) : zephyr_data :=
  mk_zephyr_data uninit uninit uninit uninit 0 0 0 0 0 0 0 0 0 uninit 0
    uninit 0 100 0 false false 0 d.

(** A driver structure after bring-up in front of a scripted device: the
    default maximum packet size of 1000 and the poll token at [0x64]. *)
Definition polling (script : list (list Z)) : zephyr_data :=
  set_MaxPacketSize 1000 (set_CurNOP 100 (probed script)).

(** A first-stage image of 1016 * 3 + 10 bytes. *)
Definition image3058 : bytes := fun a => (7 * a + 3) mod 251.

(** ** Sample frames

    Concrete frames on which the statements below are exercised. *)

Definition le16 (v : Z) : list Z := [v mod 256; (v / 256) mod 256].

(** What an earlier, longer frame left in the input buffer behind the
    first 17 bytes: a finger count of 1 and a stride of 28 at bytes 17 and
    18, and the fields of a record that starts at byte 13, with a minor
    force of 150. *)
Definition residue (size_minor : Z) : bytes :=
  of_list (repeat 0 17 ++ [1; 28] ++ le16 700 ++ [0; 0; 0; 0]
           ++ le16 20 ++ le16 size_minor ++ le16 4000 ++ le16 0 ++ le16 150).

(** A 17-byte frame-data response: type [0x44], a header length of 12
    and the first two bytes of a record with id 3. *)
Definition short_frame_response : list Z :=
  frame_data_response [68; 0; 12; 0; 0; 0; 0; 0; 0; 0; 0; 0; 3; 0].

(** The input buffer once [short_frame_response] has been received over
    the residue. *)
Definition short_frame_buffer (size_minor : Z) : bytes :=
  memcpy (residue size_minor) 0 (of_list short_frame_response) 0 17.

(** A driver structure in front of a device that announces a frame of
    length 16 and then delivers [short_frame_response]. *)
Definition touching (size_minor : Z) : zephyr_data :=
  set_InputPacket (residue size_minor)
    (set_GetResultPacket (memset uninit 0 104 1024)
       (set_SensorHeight 11506
          (polling [length16_response; short_frame_response]))).

(** The 24 bytes of a [MTFrameHeader]. *)
Definition mk_header (type headerLen numFingers fingerDataLen : Z) : list Z :=
  [type; 0; headerLen; 0] ++ [0; 0; 0; 0] ++ [0; 0; 0; 0] ++ [0; 0] ++ [0; 0]
  ++ [numFingers; fingerDataLen] ++ [0; 0] ++ [0; 0] ++ [0; 0].

(** The 28 bytes of a [FingerData]. *)
Definition mk_finger (id x y size_major size_minor orientation force_major
  force_minor : Z) : list Z :=
  [id; 0; 0; 0] ++ le16 x ++ le16 y ++ [0; 0] ++ [0; 0]
  ++ le16 size_major ++ le16 size_minor ++ le16 orientation
  ++ le16 force_major ++ le16 force_minor ++ [0; 0] ++ [0; 0] ++ [0; 0].

(** One finger lying exactly on a pressure floor of 100. *)
Definition frame_on_floor : bytes :=
  of_list (mk_header 68 24 1 28 ++ mk_finger 3 500 700 20 10 4000 100 100).

(** One finger whose major force is one above a pressure floor of 100. *)
Definition frame_above_floor : bytes :=
  of_list (mk_header 68 24 1 28 ++ mk_finger 3 500 700 20 10 4000 101 0).

(** Two announced records with a stride of zero: both are the same
    28 bytes. *)
Definition frame_stride0 : bytes :=
  of_list (mk_header 68 24 2 0 ++ mk_finger 3 500 700 20 10 4000 0 150).

(** Two well separated records; the first is below the floor of 100, the
    second is not. *)
Definition frame_two_fingers : bytes :=
  of_list (mk_header 68 24 2 28 ++ mk_finger 3 500 700 20 10 4000 90 80
           ++ mk_finger 4 510 720 22 11 4100 300 250).

(** Two well separated records; the second has a major force one above
    a pressure floor of 100. *)
Definition frame_second_above_floor : bytes :=
  of_list (mk_header 68 24 2 28 ++ mk_finger 3 500 700 20 10 4000 300 250
           ++ mk_finger 4 510 720 22 11 4100 101 0).

(** Two announced records with a stride of zero, both the same 28 bytes,
    with a major force one above a pressure floor of 100. *)
Definition frame_stride0_major : bytes :=
  of_list (mk_header 68 24 2 0 ++ mk_finger 3 500 700 20 10 4000 101 0).


(** ** Further observations *)

(** A call into the input core. *)
Definition is_input (e : io_event) : bool :=
  match e with
  | EvAbs _ _ | EvKeyTouch _ | EvMtSync | EvSync => true
  | _ => false
  end.

(** Number of end-of-contact markers and of sync markers in a run. *)
Definition count_mt_sync (t : list io_event) : nat :=
  length (filter (fun e => match e with EvMtSync => true | _ => false end) t).

Definition count_sync (t : list io_event) : nat :=
  length (filter (fun e => match e with EvSync => true | _ => false end) t).

(** A computation that never calls [input_sync]. *)
Definition quiet {Dev} {A : Type} (m : @M Dev A) : Prop :=
  forall z, count_sync (trace (m z)) = 0%nat.

(** The poll token after a run of bring-up that succeeds: [0x64] when
    the run made no call of [input_sync], [0x65] when it made one. *)
Definition setup_token {Dev} (r : Z * @zephyr_data Dev * list io_event)
  : Prop :=
  result r = 0 ->
  count_sync (trace r) = 0%nat /\ CurNOP (final r) = 100
  \/ count_sync (trace r) = 1%nat /\ CurNOP (final r) = 101.

(** A run that delivers a report buffer delivers the bytes that stand
    from byte 4 on in the receive buffer it leaves behind. *)
Definition report_on_wire {Dev}
  (x : option (bytes * Z) * @zephyr_data Dev * list io_event) : Prop :=
  forall rb len,
    result x = Some (rb, len) ->
    forall a, 0 <= a < len ->
              load8 rb a = load8 (InputPacket (final x)) (4 + a).

(** The address [a] lies in the two force fields of one of the first [n]
    records of a frame whose records start at [first], [stride] apart. *)
Definition in_force_fields (first stride : Z) (n : nat) (a : Z) : bool :=
  existsb (fun k => (first + Z.of_nat k * stride + 18 <=? a)
                    && (a <=? first + Z.of_nat k * stride + 21))
    (seq 0 n).

(** The execute command of the bootloader: a full-duplex transfer of
    [C4 00 00 C4], as [sendExecutePacket] makes it. *)
Definition is_execute (e : io_event) : bool :=
  match e with
  | EvTxRx _ out =>
      if list_eq_dec Z.eq_dec out [196; 0; 0; 196] then true else false
  | _ => false
  end.

Definition count_execute (t : list io_event) : nat :=
  length (filter is_execute t).

(** What tells a driver that is ready from one that is not, and the
    tunable: the fields no query and no upload writes. *)
Definition status {Dev} (z : @zephyr_data Dev) : bool * Z * Z * Z :=
  (firmware_loaded z, irq_count z, CurNOP z, min_pressure z).

(** The two ways a run of bring-up from [z] can end: ready, or failed
    with the fields of [status] as they were; the tunable is kept in
    both. *)
Definition setup_outcome {Dev} (z : @zephyr_data Dev)
  (r : Z * @zephyr_data Dev * list io_event) : Prop :=
  min_pressure (final r) = min_pressure z
  /\ (result r = 0
      /\ firmware_loaded (final r) = true
      /\ irq_count (final r) = 0
      /\ input_dev (final r) = true
      /\ (CurNOP (final r) = 100 \/ CurNOP (final r) = 101)
      \/ result r = -1
         /\ firmware_loaded (final r) = firmware_loaded z
         /\ irq_count (final r) = irq_count z
         /\ CurNOP (final r) = CurNOP z).

(** * Properties *)

(** ** Byte buffers *)

Lemma load8_range (m : bytes) (a : Z) : 0 <= load8 m a < 256.
Proof. unfold load8. apply Z.mod_pos_bound. lia. Qed.

Lemma load16_range (m : bytes) (a : Z) : 0 <= load16 m a < 65536.
Proof.
  unfold load16.
  pose proof (load8_range m a). pose proof (load8_range m (a + 1)). lia.
Qed.

Lemma load8_store8_same (m : bytes) (a v : Z) :
  load8 (store8 m a v) a = v mod 256.
Proof.
  unfold load8, store8. rewrite Z.eqb_refl. apply Z.mod_mod. lia.
Qed.

Lemma load8_store8_other (m : bytes) (a v a' : Z) :
  a' <> a -> load8 (store8 m a v) a' = load8 m a'.
Proof.
  intros Hne. unfold load8, store8.
  destruct (a' =? a) eqn:E; [apply Z.eqb_eq in E; contradiction | reflexivity].
Qed.

Lemma load8_store16_other (m : bytes) (a v a' : Z) :
  a' <> a -> a' <> a + 1 -> load8 (store16 m a v) a' = load8 m a'.
Proof.
  intros H1 H2. unfold store16.
  rewrite !load8_store8_other by assumption. reflexivity.
Qed.

Lemma load16_store16_same (m : bytes) (a v : Z) :
  load16 (store16 m a v) a = v mod 65536.
Proof.
  unfold load16, store16.
  rewrite load8_store8_same.
  rewrite load8_store8_other by lia.
  rewrite load8_store8_same.
  pose proof (Z.div_mod v 256 ltac:(lia)) as Hv.
  pose proof (Z.mod_pos_bound v 256 ltac:(lia)) as Hr.
  pose proof (Z.mod_pos_bound (v / 256) 256 ltac:(lia)) as Hq.
  pose proof (Z.div_mod (v / 256) 256 ltac:(lia)) as Hvq.
  apply Z.mod_unique with (q := v / 256 / 256); lia.
Qed.

Lemma load16_store16_other (m : bytes) (a v a' : Z) :
  a' + 1 < a \/ a + 1 < a' -> load16 (store16 m a v) a' = load16 m a'.
Proof.
  intros Hd. unfold load16.
  rewrite !load8_store16_other by lia. reflexivity.
Qed.

(** ** The frame decoder *)

Section DecoderFacts.
Variables (F H : Z).

Lemma floor_force_same (b : bytes) (a : Z) :
  load16 (floor_force F b a) a = floored F (load16 b a).
Proof.
  unfold floor_force, floored.
  destruct (load16 b a >? F); rewrite load16_store16_same; reflexivity.
Qed.

Lemma floor_force_other8 (b : bytes) (a a' : Z) :
  a' <> a -> a' <> a + 1 -> load8 (floor_force F b a) a' = load8 b a'.
Proof.
  intros. unfold floor_force.
  destruct (load16 b a >? F); apply load8_store16_other; assumption.
Qed.

Lemma floor_force_other16 (b : bytes) (a a' : Z) :
  a' + 1 < a \/ a + 1 < a' -> load16 (floor_force F b a) a' = load16 b a'.
Proof.
  intros. unfold load16. rewrite !floor_force_other8 by lia. reflexivity.
Qed.

(** The loop body rewrites the two force fields and nothing else. *)
Lemma finger_body_major (b : bytes) (finger : Z) :
  load16 (fst (finger_body F H b finger)) (finger + FingerData.force_major)
  = floored F (load16 b (finger + FingerData.force_major)).
Proof.
  unfold finger_body, FingerData.force_major, FingerData.force_minor. simpl.
  rewrite floor_force_other16 by lia. apply floor_force_same.
Qed.

Lemma finger_body_minor (b : bytes) (finger : Z) :
  load16 (fst (finger_body F H b finger)) (finger + FingerData.force_minor)
  = floored F (load16 b (finger + FingerData.force_minor)).
Proof.
  unfold finger_body, FingerData.force_major, FingerData.force_minor. simpl.
  rewrite floor_force_same. rewrite floor_force_other16 by lia. reflexivity.
Qed.

Lemma finger_body_other8 (b : bytes) (finger a : Z) :
  a < finger + 18 \/ finger + 21 < a ->
  load8 (fst (finger_body F H b finger)) a = load8 b a.
Proof.
  intros Ha.
  unfold finger_body, FingerData.force_major, FingerData.force_minor. simpl.
  rewrite !floor_force_other8 by lia. reflexivity.
Qed.

Lemma finger_body_other16 (b : bytes) (finger a : Z) :
  a + 1 < finger + 18 \/ finger + 21 < a ->
  load16 (fst (finger_body F H b finger)) a = load16 b a.
Proof.
  intros Ha. unfold load16. rewrite !finger_body_other8 by lia. reflexivity.
Qed.

(** What the body emits is decided by the two floored forces. *)
Lemma finger_body_events (b : bytes) (finger : Z) :
  let b2 := fst (finger_body F H b finger) in
  snd (finger_body F H b finger)
  = (if (floored F (load16 b (finger + FingerData.force_major)) >? 0)
        || (floored F (load16 b (finger + FingerData.force_minor)) >? 0)
     then finger_reports H b2 finger else []) ++ [EvMtSync].
Proof.
  intros b2. rewrite <- finger_body_major, <- finger_body_minor.
  reflexivity.
Qed.

Lemma loop_state_succ (data : Z) (b0 : bytes) (k : nat) :
  snd (loop_state F H data b0 (S k))
  = fst (finger_body F H (snd (loop_state F H data b0 k))
           (fst (loop_state F H data b0 k))).
Proof.
  cbn [loop_state]. destruct (loop_state F H data b0 k). reflexivity.
Qed.

Lemma finger_group_eq (data : Z) (b0 : bytes) (k : nat) :
  finger_group F H data b0 k
  = snd (finger_body F H (snd (loop_state F H data b0 k))
           (fst (loop_state F H data b0 k))).
Proof.
  unfold finger_group. destruct (loop_state F H data b0 k). reflexivity.
Qed.

(** The cursor never moves back, and the decoder never writes below it:
    in particular the header fields it keeps re-reading are those of the
    frame as received. *)
Lemma loop_state_inv (data : Z) (b0 : bytes) (k : nat) :
  data <= fst (loop_state F H data b0 k) /\
  forall a, a < data + 18 ->
            load8 (snd (loop_state F H data b0 k)) a = load8 b0 a.
Proof.
  induction k as [|k [IHc IHb]]; cbn [loop_state].
  - pose proof (load8_range b0 (data + MTFrameHeader.headerLen)).
    cbn [fst snd]. split; [lia | reflexivity].
  - destruct (loop_state F H data b0 k) as [finger b]; cbn [fst snd] in *.
    pose proof (load8_range (fst (finger_body F H b finger))
                  (data + MTFrameHeader.fingerDataLen)).
    split; [lia|].
    intros a Ha. rewrite finger_body_other8 by lia. apply IHb; assumption.
Qed.

Lemma loop_state_cursor (data : Z) (b0 : bytes) (k : nat) :
  fst (loop_state F H data b0 (S k))
  = fst (loop_state F H data b0 k)
    + load8 b0 (data + MTFrameHeader.fingerDataLen).
Proof.
  cbn [loop_state]. pose proof (loop_state_inv data b0 k) as [Hc Hb].
  destruct (loop_state F H data b0 k) as [finger b]; cbn [fst snd] in *.
  rewrite finger_body_other8
    by (unfold MTFrameHeader.fingerDataLen; lia).
  rewrite Hb by (unfold MTFrameHeader.fingerDataLen; lia). reflexivity.
Qed.


Lemma loop_state_cursor_closed (data : Z) (b0 : bytes) (k : nat) :
  fst (loop_state F H data b0 k)
  = data + load8 b0 (data + MTFrameHeader.headerLen)
    + Z.of_nat k * load8 b0 (data + MTFrameHeader.fingerDataLen).
Proof.
  induction k as [|k IH]; [cbn [loop_state fst]; lia|].
  rewrite loop_state_cursor, IH. lia.
Qed.

(** In a frame whose stride is at least 4, the width of the two force
    fields, no iteration writes into the force fields of a later record
    or behind them. *)
Lemma loop_state_ahead (data : Z) (b0 : bytes) (k : nat) (a : Z) :
  4 <= load8 b0 (data + MTFrameHeader.fingerDataLen) ->
  fst (loop_state F H data b0 k) + 18 <= a ->
  load8 (snd (loop_state F H data b0 k)) a = load8 b0 a.
Proof.
  intros Hstride. revert a.
  induction k as [|k IH]; intros a Ha; [reflexivity|].
  rewrite loop_state_cursor in Ha. rewrite loop_state_succ.
  rewrite finger_body_other8 by lia. apply IH. lia.
Qed.

(** The loop emits the groups of the records [k], [k+1], ... in order and
    stops after the last record the header announces. *)
Lemma finger_loop_groups (data : Z) (b0 : bytes) (fuel k : nat) :
  let n := Z.to_nat (load8 b0 (data + MTFrameHeader.numFingers)) in
  (k <= n <= k + fuel)%nat ->
  finger_loop F H fuel data (Z.of_nat k)
    (fst (loop_state F H data b0 k)) (snd (loop_state F H data b0 k))
  = (snd (loop_state F H data b0 n),
     concat (map (finger_group F H data b0) (seq k (n - k)))).
Proof.
  intros n. revert k.
  assert (Hn : Z.of_nat n = load8 b0 (data + MTFrameHeader.numFingers)).
  { unfold n. apply Z2Nat.id.
    apply (load8_range b0 (data + MTFrameHeader.numFingers)). }
  induction fuel as [|fuel IH]; intros k Hk.
  - replace k with n by lia. rewrite Nat.sub_diag. reflexivity.
  - cbn [finger_loop].
    destruct (loop_state_inv data b0 k) as [_ Hb].
    rewrite Hb by (unfold MTFrameHeader.numFingers; lia).
    rewrite <- Hn.
    destruct (Z.of_nat k <? Z.of_nat n) eqn:E.
    + apply Z.ltb_lt in E.
      specialize (IH (S k) ltac:(lia)).
      replace (n - k)%nat with (S (n - S k)) by lia.
      cbn [seq map concat].
      unfold finger_group at 1.
      cbn [loop_state] in IH.
      destruct (loop_state F H data b0 k) as [finger b]; cbn [fst snd] in *.
      destruct (finger_body F H b finger) as [b1 ev]; cbn [fst snd] in *.
      replace (Z.of_nat k + 1) with (Z.of_nat (S k)) by lia.
      rewrite IH. reflexivity.
    + apply Z.ltb_ge in E. replace k with n by lia.
      rewrite Nat.sub_diag. reflexivity.
Qed.

(** A decoded frame: one group per announced record, the legacy report
    computed on the buffer the loop left, and the closing sync. *)
Lemma newPacket_buf_groups (b0 : bytes) (data len : Z) :
  let n := Z.to_nat (load8 b0 (data + MTFrameHeader.numFingers)) in
  let bn := snd (loop_state F H data b0 n) in
  newPacket_buf F H b0 data len
  = (bn, concat (map (finger_group F H data b0) (seq 0 n))
         ++ legacy_report H bn data ++ [EvSync]).
Proof.
  intros n bn. unfold newPacket_buf.
  pose proof (finger_loop_groups data b0 256 0) as Hl.
  cbn [loop_state fst snd Z.of_nat] in Hl. rewrite Hl.
  - rewrite Nat.sub_0_r. reflexivity.
  - pose proof (load8_range b0 (data + MTFrameHeader.numFingers)). lia.
Qed.

End DecoderFacts.

(** A record that no earlier record reaches into is found by the loop as
    it was received: its force fields when it is the first record or the
    stride is at least 4, all of it when the stride is at least 22. *)
Lemma loop_state_forces (F H data : Z) (b0 : bytes) (k : nat) (a : Z) :
  k = 0%nat \/ 4 <= load8 b0 (data + MTFrameHeader.fingerDataLen) ->
  fst (loop_state F H data b0 k) + 18 <= a ->
  load8 (snd (loop_state F H data b0 k)) a = load8 b0 a.
Proof.
  intros [->|Hstride] Ha; [reflexivity|].
  apply loop_state_ahead; assumption.
Qed.


(** C1 (as amended).  For every frame and every finger record [k] the
    header announces whose force fields no earlier record overlaps (the
    first record, or any record when the stride of the header is at least
    4): if the record arrives with [force_major = F] and
    [force_minor = F] (the pressure floor), the decoder emits nothing but
    the end-of-contact marker for it, leaves both forces at zero and moves
    the cursor on by the stride; if it arrives with [force_major = F + 1],
    the first report of the record is a major force of 1.  The forces are
    those of the frame as received, [finger] is the place of the record
    in it.  The groups of the records, in order, are what [newPacket]
    emits before the legacy report (first conjunct). *)
Theorem pressure_floor_clamps (F H data len : Z) (b0 : bytes) (k : nat) :
  let n := Z.to_nat (load8 b0 (data + MTFrameHeader.numFingers)) in
  let stride := load8 b0 (data + MTFrameHeader.fingerDataLen) in
  let finger :=
    data + load8 b0 (data + MTFrameHeader.headerLen) + Z.of_nat k * stride in
  let b' := snd (loop_state F H data b0 (S k)) in
  (k < n)%nat ->
  k = 0%nat \/ 4 <= stride ->
  snd (newPacket_buf F H b0 data len)
  = concat (map (finger_group F H data b0) (seq 0 k))
    ++ finger_group F H data b0 k
    ++ concat (map (finger_group F H data b0) (seq (S k) (n - S k)))
    ++ legacy_report H (snd (loop_state F H data b0 n)) data ++ [EvSync]
  /\ (load16 b0 (finger + FingerData.force_major) = F ->
      load16 b0 (finger + FingerData.force_minor) = F ->
      finger_group F H data b0 k = [EvMtSync]
      /\ load16 b' (finger + FingerData.force_major) = 0
      /\ load16 b' (finger + FingerData.force_minor) = 0
      /\ fst (loop_state F H data b0 (S k)) = finger + stride)
  /\ (load16 b0 (finger + FingerData.force_major) = F + 1 ->
      exists rest,
        finger_group F H data b0 k = EvAbs ABS_MT_TOUCH_MAJOR 1 :: rest).
Proof.
  intros n stride finger b' Hk Hsep.
  assert (Hcur : fst (loop_state F H data b0 k) = finger)
    by apply loop_state_cursor_closed.
  assert (Hmaj : load16 (snd (loop_state F H data b0 k))
                   (finger + FingerData.force_major)
                 = load16 b0 (finger + FingerData.force_major)).
  { unfold load16, FingerData.force_major.
    rewrite !(loop_state_forces F H data b0 k) by (try exact Hsep; lia).
    reflexivity. }
  assert (Hmin : load16 (snd (loop_state F H data b0 k))
                   (finger + FingerData.force_minor)
                 = load16 b0 (finger + FingerData.force_minor)).
  { unfold load16, FingerData.force_minor.
    rewrite !(loop_state_forces F H data b0 k) by (try exact Hsep; lia).
    reflexivity. }
  split; [|split].
  - rewrite newPacket_buf_groups. cbn [snd]. fold n.
    replace (seq 0 n) with (seq 0 k ++ k :: seq (S k) (n - S k)).
    + rewrite map_app, concat_app. cbn [map concat].
      rewrite <- !app_assoc. reflexivity.
    + replace (seq 0 n) with (seq 0 (k + S (n - S k)))
        by (f_equal; lia).
      rewrite seq_app. reflexivity.
  - intros HM Hm.
    assert (Hfl : floored F F = 0).
    { unfold floored.
      destruct (F >? F) eqn:E; [apply Z.gtb_lt in E; lia | reflexivity]. }
    subst b'. rewrite loop_state_succ, loop_state_cursor, Hcur.
    rewrite finger_body_major, finger_body_minor, finger_group_eq.
    rewrite finger_body_events, Hcur. rewrite Hmaj, Hmin, HM, Hm, Hfl.
    repeat split; reflexivity.
  - intros HM.
    assert (Hfl : floored F (F + 1) = 1).
    { unfold floored. replace (F + 1 - F) with 1 by lia.
      destruct (F + 1 >? F) eqn:E; [reflexivity|].
      rewrite Z.gtb_ltb in E. apply Z.ltb_ge in E. lia. }
    rewrite finger_group_eq, finger_body_events, Hcur.
    rewrite Hmaj, HM, Hfl. cbn [Z.gtb Z.compare orb]. unfold finger_reports.
    rewrite finger_body_major, Hmaj, HM, Hfl. cbn [app]. eexists. reflexivity.
Qed.

Lemma pressure_floor_clamps_witness :
  finger_group 100 1000 0 frame_on_floor 0 = [EvMtSync]
  /\ exists rest,
       finger_group 100 1000 0 frame_second_above_floor 1
       = EvAbs ABS_MT_TOUCH_MAJOR 1 :: rest.
Proof.
  split.
  - destruct (pressure_floor_clamps 100 1000 0 52 frame_on_floor 0)
      as [_ [Hq _]].
    + vm_compute. lia.
    + left. reflexivity.
    + apply Hq; vm_compute; reflexivity.
  - destruct (pressure_floor_clamps 100 1000 0 80 frame_second_above_floor 1)
      as [_ [_ Hl]].
    + vm_compute. lia.
    + right. vm_compute. discriminate.
    + apply Hl. vm_compute. reflexivity.
Defined.

(** C1 as stated fails when records overlap: with two announced records
    and a stride of zero the second record is the same bytes as the
    first, so it arrives with a major force of 101, one above the floor
    of 100, but the loop has floored that field once already and finds 1,
    which it floors to 0: the record gets the end-of-contact marker and
    no report of a major force of 1. *)
Lemma pressure_floor_overlap_counterexample :
  (1 < Z.to_nat (load8 frame_stride0_major (0 + MTFrameHeader.numFingers)))%nat
  /\ load16 frame_stride0_major
       (0 + load8 frame_stride0_major (0 + MTFrameHeader.headerLen)
        + Z.of_nat 1
          * load8 frame_stride0_major (0 + MTFrameHeader.fingerDataLen)
        + FingerData.force_major) = 100 + 1
  /\ finger_group 100 1000 0 frame_stride0_major 1 = [EvMtSync]
  /\ forall rest,
       finger_group 100 1000 0 frame_stride0_major 1
       <> EvAbs ABS_MT_TOUCH_MAJOR 1 :: rest.
Proof.
  split; [vm_compute; lia|].
  split; [vm_compute; reflexivity|].
  assert (Hg : finger_group 100 1000 0 frame_stride0_major 1 = [EvMtSync])
    by (vm_compute; reflexivity).
  split; [exact Hg|].
  intros rest. rewrite Hg. discriminate.
Qed.

(** The subtraction [SensorHeight - finger->y] stays inside [int] for
    every height in this range, whatever the [s16] coordinate. *)
Lemma s32_small (v : Z) : -2147483648 <= v <= 2147483647 -> s32 v = v.
Proof.
  intros Hv. unfold s32.
  destruct (Z_lt_le_dec v 0) as [Hneg|Hpos].
  - replace (v mod 4294967296) with (v + 4294967296).
    + destruct (v + 4294967296 <? 2147483648) eqn:E.
      * apply Z.ltb_lt in E. lia.
      * lia.
    + apply Z.mod_unique with (q := -1); lia.
  - rewrite Z.mod_small by lia.
    destruct (v <? 2147483648) eqn:E; [reflexivity|].
    apply Z.ltb_ge in E. lia.
Qed.



(** The reports of a live record, in terms of the record as the loop
    finds it. *)
Lemma finger_group_live (F H data : Z) (b0 : bytes) (k : nat) :
  let finger := fst (loop_state F H data b0 k) in
  let b := snd (loop_state F H data b0 k) in
  finger_group F H data b0 k <> [EvMtSync] ->
  finger_group F H data b0 k
  = [ EvAbs ABS_MT_TOUCH_MAJOR
        (floored F (load16 b (finger + FingerData.force_major)));
      EvAbs ABS_MT_TOUCH_MINOR
        (floored F (load16 b (finger + FingerData.force_minor)));
      EvAbs ABS_MT_WIDTH_MAJOR (load16 b (finger + FingerData.size_major));
      EvAbs ABS_MT_WIDTH_MINOR (load16 b (finger + FingerData.size_minor));
      EvAbs ABS_MT_ORIENTATION
        (16384 - load16 b (finger + FingerData.orientation));
      EvAbs ABS_MT_TRACKING_ID (load8 b (finger + FingerData.id));
      EvAbs ABS_MT_POSITION_X (load16s b (finger + FingerData.x));
      EvAbs ABS_MT_POSITION_Y (s32 (H - load16s b (finger + FingerData.y)));
      EvMtSync ].
Proof.
  intros finger b Hlive.
  rewrite finger_group_eq in *. fold finger b in Hlive |- *.
  rewrite finger_body_events in *.
  destruct ((floored F (load16 b (finger + FingerData.force_major)) >? 0)
            || (floored F (load16 b (finger + FingerData.force_minor)) >? 0)).
  2: { exfalso. apply Hlive. reflexivity. }
  unfold finger_reports, load16s.
  rewrite finger_body_major, finger_body_minor.
  unfold FingerData.size_major, FingerData.size_minor, FingerData.orientation,
    FingerData.id, FingerData.x, FingerData.y, MAX_FINGER_ORIENTATION.
  rewrite !finger_body_other16 by lia.
  rewrite finger_body_other8 by lia.
  reflexivity.
Qed.




(** ** The legacy report reads the frame the loop rewrote *)

Section LegacyFacts.
Variables (F H : Z).

Lemma loop_state_monotone (data : Z) (b0 : bytes) (j k : nat) :
  (j <= k)%nat ->
  fst (loop_state F H data b0 j) <= fst (loop_state F H data b0 k).
Proof.
  induction 1 as [|k Hle IH]; [lia|].
  rewrite loop_state_cursor.
  pose proof (load8_range b0 (data + MTFrameHeader.fingerDataLen)). lia.
Qed.

(** Once the loop has passed the record [j], everything below the force
    fields of that record stays as it is. *)
Lemma loop_state_below (data : Z) (b0 : bytes) (j k : nat) (a : Z) :
  (j <= k)%nat ->
  a < fst (loop_state F H data b0 j) + 18 ->
  load8 (snd (loop_state F H data b0 k)) a
  = load8 (snd (loop_state F H data b0 j)) a.
Proof.
  induction 1 as [|k Hle IH]; intros Ha; [reflexivity|].
  rewrite loop_state_succ.
  pose proof (loop_state_monotone data b0 j k Hle).
  rewrite finger_body_other8 by lia. apply IH. assumption.
Qed.

Lemma floored_positive (v : Z) :
  0 <= F -> 0 <= v < 65536 -> (floored F v >? 0) = (v >? F).
Proof.
  intros HF Hv. unfold floored.
  destruct (v >? F) eqn:E.
  - rewrite Z.gtb_ltb in E. apply Z.ltb_lt in E.
    rewrite Z.mod_small by lia.
    rewrite Z.gtb_ltb. apply Z.ltb_lt. lia.
  - reflexivity.
Qed.

(** The minor force of the first record after the loop, when no later
    record reaches back into it. *)
Lemma first_minor_after_loop (data : Z) (b0 : bytes) :
  let n := load8 b0 (data + MTFrameHeader.numFingers) in
  let stride := load8 b0 (data + MTFrameHeader.fingerDataLen) in
  let first := data + load8 b0 (data + MTFrameHeader.headerLen) in
  0 < n -> n = 1 \/ 4 <= stride ->
  load16 (snd (loop_state F H data b0 (Z.to_nat n)))
    (first + FingerData.force_minor)
  = floored F (load16 b0 (first + FingerData.force_minor)).
Proof.
  intros n stride first Hn Hsep.
  assert (H1 : load16 (snd (loop_state F H data b0 1))
                 (first + FingerData.force_minor)
               = floored F (load16 b0 (first + FingerData.force_minor))).
  { rewrite loop_state_succ. cbn [loop_state fst snd].
    apply finger_body_minor. }
  destruct Hsep as [Hone|Hstride].
  - rewrite Hone. exact H1.
  - rewrite <- H1. unfold load16.
    pose proof (loop_state_cursor F H data b0 0) as Hc.
    cbn [loop_state fst] in Hc. fold first stride in Hc.
    rewrite !(loop_state_below data b0 1 (Z.to_nat n)); try reflexivity;
      try lia; cbn [loop_state fst snd]; fold first;
      unfold FingerData.force_minor.
    all: cbn [loop_state fst snd] in Hc; fold first in Hc; try lia.
Qed.

End LegacyFacts.

(** What [newPacket] emits for a frame in which no later record reaches
    back into the first one. *)
Lemma newPacket_buf_separated (F H data len : Z) (b0 : bytes) :
  let n := load8 b0 (data + MTFrameHeader.numFingers) in
  let stride := load8 b0 (data + MTFrameHeader.fingerDataLen) in
  let first := data + load8 b0 (data + MTFrameHeader.headerLen) in
  0 <= F -> 0 < n -> n = 1 \/ 4 <= stride ->
  snd (newPacket_buf F H b0 data len)
  = concat (map (finger_group F H data b0) (seq 0 (Z.to_nat n)))
    ++ (if load16 b0 (first + FingerData.force_minor) >? F then
          [ EvAbs ABS_X (load16s b0 (first + FingerData.x));
            EvAbs ABS_Y (s32 (H - load16s b0 (first + FingerData.y)));
            EvKeyTouch (if load16 b0 (first + FingerData.size_minor) >? 0
                        then 1 else 0) ]
        else [EvKeyTouch 0])
    ++ [EvSync].
Proof.
  intros n stride first HF Hn Hsep.
  rewrite newPacket_buf_groups. cbn [snd]. fold n.
  f_equal. f_equal.
  unfold legacy_report.
  destruct (loop_state_inv F H data b0 (Z.to_nat n)) as [_ Hhdr].
  rewrite !Hhdr by (unfold MTFrameHeader.numFingers, MTFrameHeader.headerLen; lia).
  fold n first.
  replace (n >? 0) with true by (symmetry; apply Z.gtb_lt; lia).
  pose proof (first_minor_after_loop F H data b0 Hn Hsep) as Hfm.
  cbv zeta in Hfm. fold n first in Hfm. rewrite Hfm.
  rewrite floored_positive by (auto using load16_range).
  assert (Hlow : forall a, a < first + 18 ->
            load8 (snd (loop_state F H data b0 (Z.to_nat n))) a = load8 b0 a).
  { intros a Ha.
    rewrite (loop_state_below F H data b0 0 (Z.to_nat n)); [reflexivity|lia|].
    cbn [loop_state fst]. fold first. lia. }
  unfold load16s, load16, FingerData.x, FingerData.y, FingerData.size_minor.
  rewrite !Hlow by lia. reflexivity.
Qed.

(** C10 (as amended).  For every decoded frame with at least one finger
    in which no later record reaches back into the first one (a single
    finger, or a stride of at least 4 bytes), and a pressure floor
    [0 <= F]: the legacy decision is taken on the floored minor force of
    the first record, so the legacy position report is emitted exactly
    when the raw [force_minor] of the first record exceeds the floor, and
    contact-active = false is emitted otherwise, whatever the groups of
    the other records are. *)
Theorem legacy_report_on_floored_minor (F H data len : Z) (b0 : bytes) :
  let n := load8 b0 (data + MTFrameHeader.numFingers) in
  let stride := load8 b0 (data + MTFrameHeader.fingerDataLen) in
  let first := data + load8 b0 (data + MTFrameHeader.headerLen) in
  0 <= F -> 0 < n -> n = 1 \/ 4 <= stride ->
  snd (newPacket_buf F H b0 data len)
  = concat (map (finger_group F H data b0) (seq 0 (Z.to_nat n)))
    ++ (if load16 b0 (first + FingerData.force_minor) >? F then
          [ EvAbs ABS_X (load16s b0 (first + FingerData.x));
            EvAbs ABS_Y (s32 (H - load16s b0 (first + FingerData.y)));
            EvKeyTouch (if load16 b0 (first + FingerData.size_minor) >? 0
                        then 1 else 0) ]
        else [EvKeyTouch 0])
    ++ [EvSync].
Proof.
  intros n stride first. apply newPacket_buf_separated.
Qed.

Lemma legacy_report_on_floored_minor_witness :
  snd (newPacket_buf 100 1000 frame_two_fingers 0 80)
  = [ EvMtSync;
      EvAbs ABS_MT_TOUCH_MAJOR 200; EvAbs ABS_MT_TOUCH_MINOR 150;
      EvAbs ABS_MT_WIDTH_MAJOR 22; EvAbs ABS_MT_WIDTH_MINOR 11;
      EvAbs ABS_MT_ORIENTATION 12284; EvAbs ABS_MT_TRACKING_ID 4;
      EvAbs ABS_MT_POSITION_X 510; EvAbs ABS_MT_POSITION_Y 280; EvMtSync;
      EvKeyTouch 0; EvSync ].
Proof.
  rewrite (legacy_report_on_floored_minor 100 1000 0 80 frame_two_fingers).
  - vm_compute. reflexivity.
  - lia.
  - vm_compute. reflexivity.
  - right. vm_compute. discriminate.
Defined.

(** C10 as stated fails when records overlap: with two announced
    records and a stride of zero the loop floors the same minor force
    twice, so a raw [force_minor] of 150 above a floor of 100 still ends
    in contact-active = false and no legacy position report. *)
Lemma legacy_report_overlap_counterexample :
  0 < load8 frame_stride0 (0 + MTFrameHeader.numFingers)
  /\ load16 frame_stride0
       (0 + load8 frame_stride0 (0 + MTFrameHeader.headerLen)
        + FingerData.force_minor) = 150
  /\ 150 > 100
  /\ snd (newPacket_buf 100 1000 frame_stride0 0 52)
     = [ EvAbs ABS_MT_TOUCH_MAJOR 0; EvAbs ABS_MT_TOUCH_MINOR 50;
         EvAbs ABS_MT_WIDTH_MAJOR 20; EvAbs ABS_MT_WIDTH_MINOR 10;
         EvAbs ABS_MT_ORIENTATION 12384; EvAbs ABS_MT_TRACKING_ID 3;
         EvAbs ABS_MT_POSITION_X 500; EvAbs ABS_MT_POSITION_Y 300; EvMtSync;
         EvMtSync; EvKeyTouch 0; EvSync ].
Proof.
  repeat split; vm_compute; reflexivity.
Qed.

(** ** Runs of monadic code *)

Section MonadFacts.
Context {Dev : Type} {T : Transport Dev}.

Lemma bind_run {A B} (m : @M Dev A) (f : A -> M B) (z : @zephyr_data Dev) :
  bind m f z
  = (result (f (result (m z)) (final (m z))),
     final (f (result (m z)) (final (m z))),
     trace (m z) ++ trace (f (result (m z)) (final (m z)))).
Proof.
  unfold bind, result, final, trace.
  destruct (m z) as [[a z1] o1]; cbn [fst snd].
  destruct (f a z1) as [[b z2] o2]; reflexivity.
Qed.

Lemma bind_result {A B} (m : @M Dev A) (f : A -> M B) (z : @zephyr_data Dev) :
  result (bind m f z) = result (f (result (m z)) (final (m z))).
Proof. rewrite bind_run. reflexivity. Qed.

Lemma bind_final {A B} (m : @M Dev A) (f : A -> M B) (z : @zephyr_data Dev) :
  final (bind m f z) = final (f (result (m z)) (final (m z))).
Proof. rewrite bind_run. reflexivity. Qed.

Lemma bind_trace {A B} (m : @M Dev A) (f : A -> M B) (z : @zephyr_data Dev) :
  trace (bind m f z)
  = trace (m z) ++ trace (f (result (m z)) (final (m z))).
Proof. rewrite bind_run. reflexivity. Qed.

Lemma preserves_ret {A X} (f : @zephyr_data Dev -> X) (a : A) :
  preserves f (ret a).
Proof. intros z. reflexivity. Qed.

Lemma preserves_bind {A B X} (f : @zephyr_data Dev -> X) (m : @M Dev A) (k : A -> M B) :
  preserves f m -> (forall a, preserves f (k a)) -> preserves f (bind m k).
Proof.
  intros Hm Hk z. rewrite bind_final, Hk, Hm. reflexivity.
Qed.

Lemma preserves_get {X} (f : @zephyr_data Dev -> X) : preserves f get.
Proof. intros z. reflexivity. Qed.

Lemma preserves_emit {X} (f : @zephyr_data Dev -> X) (e : io_event) :
  preserves f (emit e).
Proof. intros z. reflexivity. Qed.

Lemma preserves_modify {X} (f : @zephyr_data Dev -> X) (g : zephyr_data -> zephyr_data) :
  (forall z, f (g z) = f z) -> preserves f (modify g).
Proof. intros Hg z. apply Hg. Qed.

Lemma preserves_mt_txrx {X} (f : @zephyr_data Dev -> X) s o ol i il :
  (forall d z, f (set_spi_dev d z) = f z) ->
  preserves f (mt_txrx s o ol i il).
Proof.
  intros Hf z. unfold mt_txrx, final.
  destruct (spi_txrx (spi_dev z) s _) as [d rx]. apply Hf.
Qed.

Lemma preserves_mt_tx {X} (f : @zephyr_data Dev -> X) s o ol :
  (forall d z, f (set_spi_dev d z) = f z) ->
  preserves f (mt_tx s o ol).
Proof. intros Hf z. apply Hf. Qed.

Lemma preserves_newPacket {X} (f : @zephyr_data Dev -> X) data len :
  (forall b z, f (set_InputPacket b z) = f z) ->
  preserves f (newPacket data len).
Proof.
  intros Hf z. unfold newPacket, final.
  destruct (newPacket_buf _ _ _ _ _) as [b evs]. apply Hf.
Qed.

End MonadFacts.

(** ** The poll token *)

Section TokenFacts.
Context {Dev : Type} {T : Transport Dev}.

Section Untouched.
Context {X : Type} (f : @zephyr_data Dev -> X).
Hypothesis f_spi : forall d z, f (set_spi_dev d z) = f z.
Hypothesis f_input : forall b z, f (set_InputPacket b z) = f z.

Lemma readFrameLength_from_preserves (tries : nat) (tx : bytes) :
  preserves f (readFrameLength_from tries tx).
Proof.
  induction tries as [|tries IH]; cbn [readFrameLength_from].
  - apply preserves_ret.
  - apply preserves_bind; [apply preserves_mt_txrx; exact f_spi | intros rx].
    apply preserves_bind; [apply preserves_get | intros z].
    destruct (readFrameLength_check _ _).
    + apply preserves_ret.
    + apply preserves_bind; [apply preserves_emit | intros _; exact IH].
Qed.

Lemma readFrameLength_preserves : preserves f readFrameLength.
Proof.
  apply preserves_bind; [apply preserves_get | intros z].
  apply readFrameLength_from_preserves.
Qed.

Lemma readResultData_from_preserves (tries : nat) (len : Z) :
  preserves f (readResultData_from tries len).
Proof.
  induction tries as [|tries IH]; cbn [readResultData_from].
  - apply preserves_ret.
  - apply preserves_bind; [apply preserves_get | intros z].
    apply preserves_bind; [apply preserves_mt_txrx; exact f_spi | intros ip].
    apply preserves_bind; [apply preserves_modify; apply f_input | intros _].
    destruct (negb _).
    + apply preserves_bind; [apply preserves_emit | intros _; exact IH].
    + apply preserves_bind;
        [apply preserves_newPacket; exact f_input | intros _].
      apply preserves_ret.
Qed.

End Untouched.

(** One call of [readFrame] flips the token when it delivers a frame
    (returns 1) and leaves it alone otherwise. *)
Lemma readFrame_from_token (tries : nat) (z : @zephyr_data Dev) :
  CurNOP (final (readFrame_from tries z))
  = if result (readFrame_from tries z) =? 1
    then (if CurNOP z =? 100 then 101 else 100)
    else CurNOP z.
Proof.
  revert z. induction tries as [|tries IH]; intros z; [reflexivity|].
  cbn [readFrame_from]. rewrite bind_final, bind_result.
  pose proof (readFrameLength_preserves CurNOP
                ltac:(reflexivity) z) as H1.
  set (z1 := final (readFrameLength z)) in *.
  destruct (result (readFrameLength z)) as [len|].
  - destruct (len =? 0); cbn [negb]; [rewrite <- H1; reflexivity|].
    rewrite bind_final, bind_result.
    pose proof (readResultData_from_preserves CurNOP
                  ltac:(reflexivity) ltac:(reflexivity) 4 (len + 1) z1) as H2.
    fold (readResultData (len + 1)) in H2.
    set (z2 := final (readResultData (len + 1) z1)) in *.
    destruct (result (readResultData (len + 1) z1)); cbn [negb].
    + rewrite <- H1, <- H2.
      unfold bind, get, modify, ret, result, final.
      destruct (CurNOP z2 =? 100); reflexivity.
    + rewrite bind_final, bind_result.
      change (final (msleep 1 z2)) with z2.
      rewrite IH, H2, H1. reflexivity.
  - rewrite bind_final, bind_result.
    change (final (msleep 1 z1)) with z1.
    rewrite IH, H1. reflexivity.
Qed.

Lemma read_cycles_S (n : nat) (z : @zephyr_data Dev) :
  result (read_cycles (S n) z)
  = result (readFrame z) :: result (read_cycles n (final (readFrame z)))
  /\ final (read_cycles (S n) z) = final (read_cycles n (final (readFrame z))).
Proof.
  cbn [read_cycles].
  rewrite bind_result, bind_final, bind_result, bind_final.
  split; reflexivity.
Qed.

End TokenFacts.

Section TokenTheorem.
Context {Dev : Type} {T : Transport Dev}.

Lemma token_stays_sentinel (z : @zephyr_data Dev) :
  CurNOP z = 100 \/ CurNOP z = 101 ->
  CurNOP (final (readFrame z)) = 100 \/ CurNOP (final (readFrame z)) = 101.
Proof.
  intros Hz. unfold readFrame. rewrite readFrame_from_token.
  destruct (result (readFrame_from 4 z) =? 1); [|exact Hz].
  destruct (CurNOP z =? 100); [right|left]; reflexivity.
Qed.

End TokenTheorem.

(** ** The pressure-floor attribute *)

(** C9. A write to the pressure-floor attribute that parses to a value
    in 0..254 stores that value as the new floor and changes nothing
    else; a value of 255 or more is rejected with a return of 0 and the
    driver structure is left as it was, as it is when nothing parses. *)
Theorem min_pressure_store_range {Dev : Type} (scanned new_val : Z)
  (z : @zephyr_data Dev) :
  let r := zephyr_min_pressure_store scanned new_val z in
  (0 < scanned -> 0 <= new_val <= 254 ->
   result r = scanned /\ min_pressure (final r) = new_val
   /\ final r = set_min_pressure new_val z)
  /\ (0 < scanned -> 255 <= new_val -> result r = 0 /\ final r = z)
  /\ (scanned <= 0 -> result r = scanned /\ final r = z).
Proof.
  intros r. subst r. unfold zephyr_min_pressure_store.
  split; [|split].
  - intros Hs Hv.
    destruct (scanned <=? 0) eqn:E1; [apply Z.leb_le in E1; lia|].
    destruct (new_val >=? 255) eqn:E2;
      [rewrite Z.geb_leb in E2; apply Z.leb_le in E2; lia|].
    rewrite bind_result, bind_final. cbn.
    rewrite Z.mod_small by lia. repeat split.
  - intros Hs Hv.
    destruct (scanned <=? 0) eqn:E1; [apply Z.leb_le in E1; lia|].
    destruct (new_val >=? 255) eqn:E2; [split; reflexivity|].
    rewrite Z.geb_leb in E2. apply Z.leb_gt in E2. lia.
  - intros Hs.
    destruct (scanned <=? 0) eqn:E1; [split; reflexivity|].
    apply Z.leb_gt in E1. lia.
Qed.

Lemma min_pressure_store_range_witness :
  min_pressure (final (zephyr_min_pressure_store 1 42 (probed tt))) = 42
  /\ final (zephyr_min_pressure_store 1 255 (probed tt)) = probed tt
  /\ final (zephyr_min_pressure_store 0 7 (probed tt)) = probed tt.
Proof.
  split; [|split].
  - destruct (min_pressure_store_range 1 42 (probed tt)) as [Hs _].
    destruct Hs as [_ [Hm _]]; [lia | lia | exact Hm].
  - destruct (min_pressure_store_range 1 255 (probed tt)) as [_ [Hr _]].
    destruct Hr as [_ Hz]; [lia | lia | exact Hz].
  - destruct (min_pressure_store_range 0 7 (probed tt)) as [_ [_ Hn]].
    destruct Hn as [_ Hz]; [lia | exact Hz].
Defined.

(** ** Sensor geometry *)

Lemma sensor_dim_exact (k raw : Z) :
  0 <= raw <= k -> k <= 25565281 ->
  sensor_dim k raw = Z.quot ((k - raw) * 84) 73.
Proof.
  intros Hraw Hk. unfold sensor_dim, u32.
  rewrite (Z.mod_small (k - raw)) by lia.
  rewrite (Z.mod_small ((k - raw) * 84)) by lia.
  rewrite Z.quot_div_nonneg by lia.
  apply s32_small.
  assert (0 <= (k - raw) * 84 / 73) by (apply Z.div_pos; lia).
  assert ((k - raw) * 84 / 73 <= (k - raw) * 84)
    by (apply Z.div_le_upper_bound; lia).
  lia.
Qed.

(** Whatever the raw field, the computed dimension is a non-negative
    [int] no larger than [(2^32 - 1) / 73]. *)
Lemma sensor_dim_range (k raw : Z) : 0 <= sensor_dim k raw <= 58835168.
Proof.
  unfold sensor_dim, u32.
  pose proof (Z.mod_pos_bound ((k - raw) mod 4294967296 * 84) 4294967296
                ltac:(lia)) as Hm.
  set (m := ((k - raw) mod 4294967296 * 84) mod 4294967296) in *.
  assert (0 <= m / 73) by (apply Z.div_pos; lia).
  assert (m / 73 < 58835169) by (apply Z.div_lt_upper_bound; lia).
  rewrite s32_small; lia.
Qed.

Section GeometryFacts.
Context {Dev : Type} {T : Transport Dev}.

Section SetupUntouched.
Context {X : Type} (f : @zephyr_data Dev -> X).
Hypothesis f_spi : forall d z, f (set_spi_dev d z) = f z.
Hypothesis f_input : forall b z, f (set_InputPacket b z) = f z.
Hypothesis f_nop : forall v z, f (set_CurNOP v z) = f z.
Hypothesis f_dev : forall v z, f (set_input_dev v z) = f z.
Hypothesis f_irq : forall v z, f (set_irq_count v z) = f z.
Hypothesis f_fw : forall v z, f (set_firmware_loaded v z) = f z.

Lemma readFrame_from_preserves (tries : nat) :
  preserves f (readFrame_from tries).
Proof.
  induction tries as [|tries IH]; cbn [readFrame_from].
  - apply preserves_ret.
  - apply preserves_bind;
      [apply readFrameLength_preserves; assumption | intros [len|]].
    + destruct (negb (len =? 0)); [|apply preserves_ret].
      apply preserves_bind;
        [apply readResultData_from_preserves; assumption | intros ok].
      destruct (negb ok).
      * apply preserves_bind; [apply preserves_emit | intros _; exact IH].
      * apply preserves_bind; [apply preserves_get | intros z].
        apply preserves_bind; [|intros _; apply preserves_ret].
        destruct (CurNOP z =? 100); apply preserves_modify, f_nop.
    + apply preserves_bind; [apply preserves_emit | intros _; exact IH].
Qed.

Lemma register_axes_preserves : preserves f register_axes.
Proof.
  unfold register_axes.
  repeat first [ apply preserves_emit | apply preserves_get
               | apply preserves_bind; [|intros ?] ].
Qed.

Lemma setup_input_preserves (p : platform) : preserves f (setup_input p).
Proof.
  unfold setup_input.
  apply preserves_bind; [apply preserves_modify, f_dev | intros _].
  destruct (negb (input_allocate_device_ok p)); [apply preserves_ret|].
  apply preserves_bind; [apply register_axes_preserves | intros _].
  destruct (negb (input_register_device_ret p =? 0)); [apply preserves_ret|].
  apply preserves_bind; [apply preserves_modify, f_nop | intros _].
  apply preserves_bind; [apply preserves_modify, f_irq | intros _].
  apply preserves_bind; [apply preserves_modify, f_fw | intros _].
  apply preserves_bind; [apply readFrame_from_preserves | intros _].
  apply preserves_ret.
Qed.

End SetupUntouched.

Lemma geometry_from_report_bind {A} (m : @M Dev A) (k : A -> M Z) :
  (forall a z, geometry_from_report (k a z)) ->
  forall z, geometry_from_report (bind m k z).
Proof.
  intros Hk z. unfold geometry_from_report.
  rewrite bind_result, bind_final. apply Hk.
Qed.

Lemma geometry_from_report_fail (z : @zephyr_data Dev) :
  geometry_from_report (ret (-1) z).
Proof. intros Hr. discriminate Hr. Qed.

Lemma geometry_tail (p : platform) (rb : bytes) (z : @zephyr_data Dev) :
  geometry_from_report
    (bind (modify (set_SensorWidth (sensor_dim 9000 (load32 rb 0))))
       (fun _ =>
          bind (modify (set_SensorHeight (sensor_dim 13850 (load32 rb 4))))
            (fun _ => setup_input p)) z).
Proof.
  intros _. exists rb.
  rewrite !bind_final.
  rewrite (setup_input_preserves SensorWidth) by reflexivity.
  rewrite (setup_input_preserves SensorHeight) by reflexivity.
  split; reflexivity.
Qed.

Lemma setup_reports_geometry (p : platform) (z : @zephyr_data Dev) :
  geometry_from_report (setup_reports p z).
Proof.
  revert z. unfold setup_reports.
  repeat first
    [ apply geometry_tail
    | apply geometry_from_report_fail
    | apply geometry_from_report_bind; intros ? ?
    | match goal with
      | |- geometry_from_report (match ?r with Some _ => _ | None => _ end _) =>
          destruct r as [[? ?]|]
      | z : zephyr_data |- _ => revert z
      end ].
Qed.

Lemma zephyr_setup_geometry (p : platform) (fwA : bytes) (lenA : Z)
  (fwM : bytes) (lenM : Z) (z : @zephyr_data Dev) :
  geometry_from_report (zephyr_setup p fwA lenA fwM lenM z).
Proof.
  revert z. unfold zephyr_setup.
  repeat first
    [ apply setup_reports_geometry
    | apply geometry_from_report_bind; intros ? ?;
      match goal with
      | z : zephyr_data |- geometry_from_report ((if negb ?b then _ else _) _) =>
          destruct b; cbn [negb];
          [revert z | apply geometry_from_report_fail]
      | z : zephyr_data |- _ => revert z
      end ].
Qed.

End GeometryFacts.

(** C6 as stated fails for a raw field above the constant: the
    subtraction is unsigned and wraps, so a raw width of 9001 gives
    58835167 where exact integer arithmetic gives -1. *)
Lemma sensor_geometry_counterexample :
  sensor_dim 9000 9001 = 58835167
  /\ Z.quot ((9000 - 9001) * 84) 73 = -1
  /\ sensor_dim 9000 9001 <> Z.quot ((9000 - 9001) * 84) 73.
Proof.
  repeat split; vm_compute; discriminate.
Qed.

(** ** Checksums *)

Lemma be16_eq (hi lo : Z) : be16 hi lo = 256 * (hi mod 256) + lo mod 256.
Proof.
  unfold be16. change 255 with (Z.ones 8). rewrite !Z.land_ones by lia.
  change (2 ^ 8) with 256.
  pose proof (Z.mod_pos_bound hi 256 ltac:(lia)) as Ha.
  pose proof (Z.mod_pos_bound lo 256 ltac:(lia)) as Hb.
  set (a := hi mod 256) in *. set (b := lo mod 256) in *.
  assert (Hl : Z.land (Z.shiftl a 8) b = 0).
  { replace b with (Z.land b (Z.ones 8))
      by (rewrite Z.land_ones by lia; apply Z.mod_small; exact Hb).
    rewrite (Z.land_comm b), Z.land_assoc, Z.land_ones by lia.
    rewrite Z.shiftl_mul_pow2 by lia. rewrite Z.mod_mul by lia.
    apply Z.land_0_l. }
  pose proof (Z.add_lor_land (Z.shiftl a 8) b) as Hadd.
  rewrite Hl, Z.shiftl_mul_pow2 in Hadd by lia.
  rewrite Z.shiftl_mul_pow2 by lia. change (2 ^ 8) with 256 in *. lia.
Qed.

Lemma land_65535 (x : Z) : Z.land x 65535 = x mod 65536.
Proof. change 65535 with (Z.ones 16). rewrite Z.land_ones by lia. reflexivity. Qed.

Lemma be16_load8 (m : bytes) (a b : Z) :
  be16 (load8 m a) (load8 m b) = 256 * load8 m a + load8 m b.
Proof.
  rewrite be16_eq.
  rewrite !Z.mod_small by apply load8_range. reflexivity.
Qed.

(** Two integers less than [m] apart with the same residue are equal. *)
Lemma mod_eq_close (x y m : Z) :
  0 < m -> x mod m = y mod m -> - m < x - y < m -> x = y.
Proof.
  intros Hm Heq Hclose.
  pose proof (Z.div_mod x m ltac:(lia)) as Hx.
  pose proof (Z.div_mod y m ltac:(lia)) as Hy.
  assert (Hq : x / m = y / m) by nia.
  rewrite Hq, Heq in Hx. lia.
Qed.

(** A byte written over a buffer, seen through [load8]. *)
Lemma load8_store8 (m : bytes) (i v a : Z) :
  load8 (store8 m i v) a = if a =? i then v mod 256 else load8 m a.
Proof.
  destruct (a =? i) eqn:E.
  - apply Z.eqb_eq in E. subst. apply load8_store8_same.
  - apply Z.eqb_neq in E. apply load8_store8_other. exact E.
Qed.

Lemma fold_add_acc (l : list Z) (a : Z) :
  fold_left Z.add l a = a + fold_left Z.add l 0.
Proof.
  revert a. induction l as [|x l IH]; intros a; cbn [fold_left]; [lia|].
  rewrite (IH (a + x)), (IH (0 + x)). lia.
Qed.

(** The effect of one overwritten byte on a running byte sum. *)
Lemma sum_range_store8 (m : bytes) (i v off : Z) (n s : nat) :
  fold_left Z.add
    (map (fun k => load8 (store8 m i v) (off + Z.of_nat k)) (seq s n)) 0
  = fold_left Z.add (map (fun k => load8 m (off + Z.of_nat k)) (seq s n)) 0
    + (if (off + Z.of_nat s <=? i) && (i <? off + Z.of_nat s + Z.of_nat n)
       then v mod 256 - load8 m i else 0).
Proof.
  revert s. induction n as [|n IH]; intros s.
  - cbn [seq map fold_left].
    destruct (off + Z.of_nat s <=? i) eqn:E1; cbn [andb]; [|lia].
    destruct (i <? off + Z.of_nat s + Z.of_nat 0) eqn:E2; [|lia].
    apply Z.leb_le in E1. apply Z.ltb_lt in E2. lia.
  - cbn [seq map fold_left].
    rewrite (fold_add_acc _ (0 + _)), (fold_add_acc _ (0 + load8 m _)).
    rewrite IH, load8_store8.
    destruct (off + Z.of_nat s =? i) eqn:E0.
    + apply Z.eqb_eq in E0.
      replace (off + Z.of_nat (S s) <=? i) with false
        by (symmetry; apply Z.leb_gt; lia).
      replace (off + Z.of_nat s <=? i) with true
        by (symmetry; apply Z.leb_le; lia).
      replace (i <? off + Z.of_nat s + Z.of_nat (S n)) with true
        by (symmetry; apply Z.ltb_lt; lia).
      cbn [andb]. rewrite E0. lia.
    + apply Z.eqb_neq in E0.
      replace (off + Z.of_nat (S s) <=? i) with (off + Z.of_nat s <=? i).
      2: { destruct (off + Z.of_nat s <=? i) eqn:E1.
           - apply Z.leb_le in E1. symmetry. apply Z.leb_le. lia.
           - apply Z.leb_gt in E1. symmetry. apply Z.leb_gt. lia. }
      replace (off + Z.of_nat (S s) + Z.of_nat n)
        with (off + Z.of_nat s + Z.of_nat (S n)) by lia.
      lia.
Qed.

Lemma sum_bytes_store8 (m : bytes) (i v lo hi : Z) :
  sum_bytes (store8 m i v) lo hi
  = sum_bytes m lo hi
    + (if (lo <=? i) && (i <? hi) then v mod 256 - load8 m i else 0).
Proof.
  unfold sum_bytes, sub_bytes. rewrite sum_range_store8.
  f_equal. rewrite Z.add_0_r.
  destruct (lo <=? i) eqn:E1; cbn [andb]; [|reflexivity].
  apply Z.leb_le in E1.
  destruct (i <? hi) eqn:E2.
  - apply Z.ltb_lt in E2.
    replace (i <? lo + Z.of_nat (Z.to_nat (hi - lo))) with true;
      [reflexivity|]. symmetry. apply Z.ltb_lt. lia.
  - apply Z.ltb_ge in E2.
    replace (i <? lo + Z.of_nat (Z.to_nat (hi - lo))) with false;
      [reflexivity|]. symmetry. apply Z.ltb_ge. lia.
Qed.

(** The validation chains as propositions. *)
Lemma readFrameLength_check_Some (max : Z) (rx : bytes) (l : Z) :
  readFrameLength_check max rx = Some l ->
  load8 rx 0 = 170
  /\ (load8 rx 4 + load8 rx 5) mod 65536 = 256 * load8 rx 6 + load8 rx 7.
Proof.
  unfold readFrameLength_check. rewrite !be16_load8, land_65535.
  destruct (Z.eqb_spec (load8 rx 0) 170); cbn [negb]; [|discriminate].
  destruct (Z.eqb_spec ((load8 rx 4 + load8 rx 5) mod 65536)
              (256 * load8 rx 6 + load8 rx 7)); cbn [negb]; [|discriminate].
  intros _. split; assumption.
Qed.

Lemma readFrameLength_check_None (max : Z) (rx : bytes) :
  load8 rx 0 <> 170
  \/ (load8 rx 4 + load8 rx 5) mod 65536 <> 256 * load8 rx 6 + load8 rx 7 ->
  readFrameLength_check max rx = None.
Proof.
  unfold readFrameLength_check. rewrite !be16_load8, land_65535.
  destruct (Z.eqb_spec (load8 rx 0) 170); cbn [negb]; [|reflexivity].
  destruct (Z.eqb_spec ((load8 rx 4 + load8 rx 5) mod 65536)
              (256 * load8 rx 6 + load8 rx 7)); cbn [negb]; [|reflexivity].
  intros [Hs|Hc]; contradiction.
Qed.

Lemma getReportInfo_check_Some (id : Z) (rx : bytes) (r : Z * Z) :
  getReportInfo_check id rx = Some r ->
  load8 rx 0 = 170
  /\ (id + load8 rx 4 + load8 rx 5) mod 65536
     = 256 * load8 rx 6 + load8 rx 7.
Proof.
  unfold getReportInfo_check. rewrite !be16_load8, land_65535.
  destruct (Z.eqb_spec (load8 rx 0) 170); cbn [negb]; [|discriminate].
  destruct (Z.eqb_spec (256 * load8 rx 6 + load8 rx 7)
              ((id + load8 rx 4 + load8 rx 5) mod 65536)); cbn [negb];
    [|discriminate].
  intros _. split; [assumption | symmetry; assumption].
Qed.

Lemma getReportInfo_check_None (id : Z) (rx : bytes) :
  load8 rx 0 <> 170
  \/ (id + load8 rx 4 + load8 rx 5) mod 65536
     <> 256 * load8 rx 6 + load8 rx 7 ->
  getReportInfo_check id rx = None.
Proof.
  unfold getReportInfo_check. rewrite !be16_load8, land_65535.
  destruct (Z.eqb_spec (load8 rx 0) 170); cbn [negb]; [|reflexivity].
  destruct (Z.eqb_spec (256 * load8 rx 6 + load8 rx 7)
              ((id + load8 rx 4 + load8 rx 5) mod 65536)); cbn [negb];
    [|reflexivity].
  intros [Hs|Hc]; [contradiction | symmetry in e0; contradiction].
Qed.

Lemma getReport_check_true (id len : Z) (ip : bytes) :
  getReport_check id len ip = true <->
  load8 ip 0 = 170
  /\ (id + sum_bytes ip 4 (4 + len)) mod 65536
     = 256 * load8 ip (len + 4) + load8 ip (len + 5).
Proof.
  unfold getReport_check. rewrite !be16_load8, land_65535.
  destruct (Z.eqb_spec (load8 ip 0) 170); cbn [negb];
    [|split; [discriminate | intros [? _]; contradiction]].
  destruct (Z.eqb_spec ((id + sum_bytes ip 4 (4 + len)) mod 65536)
              (256 * load8 ip (len + 4) + load8 ip (len + 5))); cbn [negb].
  - split; [intros _; split; assumption | reflexivity].
  - split; [discriminate | intros [_ ?]; contradiction].
Qed.

Lemma readResultData_check_true (len : Z) (ip : bytes) :
  readResultData_check len ip = true <->
  load8 ip 0 = 170
  /\ sum_bytes ip 1 (len - 2) mod 65536
     = 256 * load8 ip (len - 2) + load8 ip (len - 1).
Proof.
  unfold readResultData_check. rewrite !be16_load8, land_65535.
  destruct (Z.eqb_spec (load8 ip 0) 170); cbn [negb];
    [|split; [discriminate | intros [? _]; contradiction]].
  destruct (Z.eqb_spec (sum_bytes ip 1 (len - 2) mod 65536)
              (256 * load8 ip (len - 2) + load8 ip (len - 1))); cbn [negb].
  - split; [intros _; split; assumption | reflexivity].
  - split; [discriminate | intros [_ ?]; contradiction].
Qed.

Ltac byte_ranges m :=
  repeat match goal with
         | |- context [load8 m ?a] =>
             lazymatch goal with
             | _ : 0 <= load8 m a < 256 |- _ => fail
             | _ => pose proof (load8_range m a)
             end
         | H : context [load8 m ?a] |- _ =>
             lazymatch goal with
             | _ : 0 <= load8 m a < 256 |- _ => fail
             | _ => pose proof (load8_range m a)
             end
         end.

Lemma frame_length_corruption (max : Z) (rx : bytes) (l i v : Z) :
  readFrameLength_check max rx = Some l ->
  In i [0; 4; 5; 6; 7] ->
  v mod 256 <> load8 rx i ->
  readFrameLength_check max (store8 rx i v) = None.
Proof.
  intros Hok Hi Hv. apply readFrameLength_check_Some in Hok as [Hs Hc].
  pose proof (Z.mod_pos_bound v 256 ltac:(lia)) as Hvr.
  byte_ranges rx. rewrite Z.mod_small in Hc by lia.
  apply readFrameLength_check_None. rewrite !load8_store8.
  cbn [In] in Hi.
  destruct Hi as [<-|[<-|[<-|[<-|[<-|[]]]]]]; cbn [Z.eqb Pos.eqb];
    [left; lia | right; rewrite Z.mod_small by lia; lia ..].
Qed.

Lemma report_info_corruption (id : Z) (rx : bytes) (r : Z * Z) (i v : Z) :
  getReportInfo_check id rx = Some r ->
  In i [0; 4; 5; 6; 7] ->
  v mod 256 <> load8 rx i ->
  getReportInfo_check id (store8 rx i v) = None.
Proof.
  intros Hok Hi Hv. apply getReportInfo_check_Some in Hok as [Hs Hc].
  pose proof (Z.mod_pos_bound v 256 ltac:(lia)) as Hvr.
  byte_ranges rx.
  apply getReportInfo_check_None. rewrite !load8_store8.
  cbn [In] in Hi.
  destruct Hi as [<-|[<-|[<-|[<-|[<-|[]]]]]]; cbn [Z.eqb Pos.eqb].
  - left; lia.
  - right. rewrite <- Hc. intros Heq.
    apply mod_eq_close in Heq; lia.
  - right. rewrite <- Hc. intros Heq.
    apply mod_eq_close in Heq; lia.
  - right. rewrite Hc. lia.
  - right. rewrite Hc. lia.
Qed.

Lemma report_data_corruption (id len : Z) (ip : bytes) (i v : Z) :
  0 <= len ->
  getReport_check id len ip = true ->
  i = 0 \/ 4 <= i < len + 6 ->
  v mod 256 <> load8 ip i ->
  getReport_check id len (store8 ip i v) = false.
Proof.
  intros Hlen Hok Hi Hv. apply getReport_check_true in Hok as [Hs Hc].
  pose proof (Z.mod_pos_bound v 256 ltac:(lia)) as Hvr.
  destruct (getReport_check id len (store8 ip i v)) eqn:E; [|reflexivity].
  exfalso. apply getReport_check_true in E as [Hs' Hc'].
  rewrite sum_bytes_store8 in Hc'.
  rewrite load8_store8 in Hs'. repeat rewrite load8_store8 in Hc'.
  byte_ranges ip.
  destruct (Z.eqb_spec 0 i) as [<-|Hne0]; [lia|].
  destruct Hi as [->|Hi]; [lia|].
  destruct (Z.eqb_spec (len + 4) i) as [E4|E4];
    destruct (Z.eqb_spec (len + 5) i) as [E5|E5]; try lia.
  - replace ((4 <=? i) && (i <? 4 + len)) with false in Hc'
      by (symmetry; apply andb_false_iff; right; apply Z.ltb_ge; lia).
    rewrite Z.add_0_r, Hc in Hc'. subst i. lia.
  - replace ((4 <=? i) && (i <? 4 + len)) with false in Hc'
      by (symmetry; apply andb_false_iff; right; apply Z.ltb_ge; lia).
    rewrite Z.add_0_r, Hc in Hc'. subst i. lia.
  - replace ((4 <=? i) && (i <? 4 + len)) with true in Hc'
      by (symmetry; apply andb_true_iff; split;
          [apply Z.leb_le | apply Z.ltb_lt]; lia).
    rewrite <- Hc in Hc'. apply mod_eq_close in Hc'; lia.
Qed.

Lemma frame_data_corruption (len : Z) (ip : bytes) (i v : Z) :
  2 <= len ->
  readResultData_check len ip = true ->
  0 <= i < len ->
  v mod 256 <> load8 ip i ->
  readResultData_check len (store8 ip i v) = false.
Proof.
  intros Hlen Hok Hi Hv. apply readResultData_check_true in Hok as [Hs Hc].
  pose proof (Z.mod_pos_bound v 256 ltac:(lia)) as Hvr.
  destruct (readResultData_check len (store8 ip i v)) eqn:E; [|reflexivity].
  exfalso. apply readResultData_check_true in E as [Hs' Hc'].
  rewrite sum_bytes_store8 in Hc'.
  rewrite load8_store8 in Hs'. repeat rewrite load8_store8 in Hc'.
  byte_ranges ip.
  destruct (Z.eqb_spec 0 i) as [<-|Hne0]; [lia|].
  destruct (Z.eqb_spec (len - 2) i) as [E4|E4];
    destruct (Z.eqb_spec (len - 1) i) as [E5|E5]; try lia.
  - replace ((1 <=? i) && (i <? len - 2)) with false in Hc'
      by (symmetry; apply andb_false_iff; right; apply Z.ltb_ge; lia).
    rewrite Z.add_0_r, Hc in Hc'. subst i. lia.
  - replace ((1 <=? i) && (i <? len - 2)) with false in Hc'
      by (symmetry; apply andb_false_iff; right; apply Z.ltb_ge; lia).
    rewrite Z.add_0_r, Hc in Hc'. subst i. lia.
  - replace ((1 <=? i) && (i <? len - 2)) with true in Hc'
      by (symmetry; apply andb_true_iff; split;
          [apply Z.leb_le | apply Z.ltb_lt]; lia).
    rewrite <- Hc in Hc'. apply mod_eq_close in Hc'; lia.
Qed.

(** C5 (as amended).  For a response that the validation accepts,
    overwriting one byte that the validation covers with a different
    value makes the validation fail, which in each loop is the
    [msleep(1); continue;] branch.  Covered are: bytes 0, 4, 5, 6, 7 of a
    frame-length or report-info response; byte 0 and bytes 4 to [len + 5]
    of a report-data response; every byte of a frame-data response. *)
Theorem covered_bytes_detect_corruption :
  (forall max rx l i v,
      readFrameLength_check max rx = Some l ->
      In i [0; 4; 5; 6; 7] -> v mod 256 <> load8 rx i ->
      readFrameLength_check max (store8 rx i v) = None)
  /\ (forall id rx r i v,
        getReportInfo_check id rx = Some r ->
        In i [0; 4; 5; 6; 7] -> v mod 256 <> load8 rx i ->
        getReportInfo_check id (store8 rx i v) = None)
  /\ (forall id len ip i v,
        0 <= len -> getReport_check id len ip = true ->
        i = 0 \/ 4 <= i < len + 6 -> v mod 256 <> load8 ip i ->
        getReport_check id len (store8 ip i v) = false)
  /\ (forall len ip i v,
        2 <= len -> readResultData_check len ip = true ->
        0 <= i < len -> v mod 256 <> load8 ip i ->
        readResultData_check len (store8 ip i v) = false).
Proof.
  split; [exact frame_length_corruption|].
  split; [exact report_info_corruption|].
  split; [exact report_data_corruption | exact frame_data_corruption].
Qed.

Lemma covered_bytes_detect_corruption_witness :
  readFrameLength_check 1000 (store8 (of_list (frame_length_response 16)) 5 17)
  = None
  /\ getReportInfo_check 217
       (store8 (of_list (report_info_response 217 8)) 7 0) = None
  /\ getReport_check 209 1 (store8 (of_list (report_response 209 [81])) 4 80)
     = false
  /\ readResultData_check 17 (store8 (of_list data16_response) 9 1) = false.
Proof.
  destruct covered_bytes_detect_corruption as [Hl [Hi [Hd Hf]]].
  split; [|split; [|split]].
  - apply (Hl 1000 (of_list (frame_length_response 16)) 16 5 17).
    + vm_compute. reflexivity.
    + cbn [In]. lia.
    + vm_compute. discriminate.
  - apply (Hi 217 (of_list (report_info_response 217 8)) (0, 8) 7 0).
    + vm_compute. reflexivity.
    + cbn [In]. lia.
    + vm_compute. discriminate.
  - apply (Hd 209 1 (of_list (report_response 209 [81])) 4 80).
    + lia.
    + vm_compute. reflexivity.
    + lia.
    + vm_compute. discriminate.
  - apply (Hf 17 (of_list data16_response) 9 1).
    + lia.
    + vm_compute. reflexivity.
    + lia.
    + vm_compute. discriminate.
Defined.

(** C5 as stated fails on the bytes no check reads: a frame-length
    response and a report-info response are still accepted, with the
    same result, after byte 1 is overwritten. *)
Lemma uncovered_byte_counterexample :
  readFrameLength_check 1000 (of_list (frame_length_response 16)) = Some 16
  /\ 255 mod 256 <> load8 (of_list (frame_length_response 16)) 1
  /\ readFrameLength_check 1000
       (store8 (of_list (frame_length_response 16)) 1 255) = Some 16
  /\ getReportInfo_check 217 (of_list (report_info_response 217 8))
     = Some (0, 8)
  /\ getReportInfo_check 217
       (store8 (of_list (report_info_response 217 8)) 1 255) = Some (0, 8).
Proof.
  repeat split; vm_compute; discriminate.
Qed.

(** ** Retry bounds *)

Section RetryFacts.
Context {Dev : Type} {T : Transport Dev}.
Hypothesis Hbad : bad_sync T.

Lemma mt_txrx_trace s o ol i il (z : @zephyr_data Dev) :
  trace (mt_txrx s o ol i il z)
  = [EvTxRx s (sub_bytes o 0 (if ol >? il then ol else il))].
Proof.
  unfold mt_txrx, trace. destruct (spi_txrx _ _ _). reflexivity.
Qed.

Lemma mt_txrx_bad s o ol i il (z : @zephyr_data Dev) :
  0 < (if ol >? il then ol else il) ->
  load8 (result (mt_txrx s o ol i il z)) 0 <> 170
  /\ load8 (result (mt_txrx s o ol i il z)) 0 <> 208.
Proof.
  intros Hsz. unfold mt_txrx, result.
  pose proof (Hbad (spi_dev z) s
                (sub_bytes o 0 (if ol >? il then ol else il))) as Hb.
  destruct (spi_txrx _ _ _) as [d rx]; cbn [fst snd] in *.
  unfold memcpy, load8 at 1 3.
  replace ((0 <=? 0) && (0 <? 0 + (if ol >? il then ol else il))) with true
    by (symmetry; apply andb_true_iff; split;
        [reflexivity | apply Z.ltb_lt; lia]).
  replace (0 + (0 - 0)) with 0 by lia.
  rewrite !Z.mod_small by apply load8_range. exact Hb.
Qed.

Lemma concat_repeat_S {A} (l : list A) (n : nat) :
  concat (repeat l (S n)) = l ++ concat (repeat l n).
Proof. reflexivity. Qed.

Lemma readFrameLength_from_bad (tries : nat) (tx : bytes) (z : @zephyr_data Dev) :
  result (readFrameLength_from tries tx z) = None
  /\ trace (readFrameLength_from tries tx z)
     = concat (repeat [EvTxRx NORMAL_SPEED (sub_bytes tx 0 8); EvMsleep 1]
                 tries).
Proof.
  revert z. induction tries as [|tries IH]; intros z; [split; reflexivity|].
  cbn [readFrameLength_from].
  rewrite !bind_result, !bind_trace, mt_txrx_trace.
  destruct (mt_txrx_bad NORMAL_SPEED tx 8 uninit 8 z ltac:(reflexivity))
    as [Hsync _].
  rewrite readFrameLength_check_None by (left; exact Hsync).
  rewrite bind_result, bind_trace.
  change (result (get ?z)) with z. cbn [get trace snd app].
  match goal with
  | |- context [readFrameLength_from tries tx ?z'] =>
      destruct (IH z') as [Hr Ht]
  end.
  split; [exact Hr|]. rewrite Ht. reflexivity.
Qed.

Lemma getReportInfo_from_bad (tries : nat) (id : Z) (z : @zephyr_data Dev) :
  result (getReportInfo_from tries id z) = None
  /\ trace (getReportInfo_from tries id z)
     = concat (repeat [EvTxRx NORMAL_SPEED
                         (sub_bytes (store8 (memset uninit 0 143 8) 1 id) 0 8);
                       EvMsleep 1] tries).
Proof.
  revert z. induction tries as [|tries IH]; intros z; [split; reflexivity|].
  cbn [getReportInfo_from].
  rewrite !bind_result, !bind_trace, mt_txrx_trace.
  destruct (mt_txrx_bad NORMAL_SPEED (store8 (memset uninit 0 143 8) 1 id) 8
              uninit 8 z ltac:(reflexivity)) as [Hsync _].
  rewrite getReportInfo_check_None by (left; exact Hsync).
  rewrite bind_result, bind_trace.
  match goal with
  | |- context [getReportInfo_from tries id ?z'] =>
      destruct (IH z') as [Hr Ht]
  end.
  split; [exact Hr|]. rewrite Ht. reflexivity.
Qed.

Lemma getReport_bad (id : Z) (buffer : bytes) (z : @zephyr_data Dev) :
  result (getReport id buffer z) = None
  /\ trace (getReport id buffer z)
     = concat (repeat [EvTxRx NORMAL_SPEED
                         (sub_bytes (store8 (memset uninit 0 143 8) 1 id) 0 8);
                       EvMsleep 1] 4).
Proof.
  unfold getReport, getReportInfo.
  rewrite bind_result, bind_trace.
  destruct (getReportInfo_from_bad 4 id z) as [Hr Ht].
  rewrite Hr, Ht. split; [reflexivity | apply app_nil_r].
Qed.

Lemma determineInterfaceVersion_from_bad (tries : nat) (z : @zephyr_data Dev) :
  result (determineInterfaceVersion_from tries z) = false
  /\ trace (determineInterfaceVersion_from tries z)
     = concat (repeat [EvTxRx NORMAL_SPEED (sub_bytes (memset uninit 0 208 4) 0 4);
                       EvMsleep 3] tries).
Proof.
  revert z. induction tries as [|tries IH]; intros z; [split; reflexivity|].
  cbn [determineInterfaceVersion_from].
  rewrite !bind_result, !bind_trace, mt_txrx_trace.
  destruct (mt_txrx_bad NORMAL_SPEED (memset uninit 0 208 4) 4
              uninit 4 z ltac:(reflexivity)) as [Hsync _].
  destruct (Z.eqb_spec
              (load8 (result (mt_txrx NORMAL_SPEED (memset uninit 0 208 4) 4
                                uninit 4 z)) 0) 170) as [E|_];
    [contradiction|].
  rewrite !bind_result, !bind_trace.
  match goal with
  | |- context [determineInterfaceVersion_from tries ?z'] =>
      destruct (IH z') as [Hr Ht]
  end.
  split; [exact Hr|]. rewrite Ht. reflexivity.
Qed.

Lemma readResultData_from_bad (tries : nat) (len : Z) (g : bytes)
  (z : @zephyr_data Dev) :
  0 < len -> GetResultPacket z = g ->
  result (readResultData_from tries len z) = false
  /\ trace (readResultData_from tries len z)
     = concat (repeat [EvTxRx NORMAL_SPEED (sub_bytes g 0 len); EvMsleep 1]
                 tries).
Proof.
  intros Hlen. revert z.
  induction tries as [|tries IH]; intros z Hg; [split; reflexivity|].
  cbn [readResultData_from].
  rewrite !bind_result, !bind_trace.
  change (result (get z)) with z. change (final (get z)) with z.
  change (trace (get z)) with (@nil io_event).
  rewrite mt_txrx_trace, Hg.
  replace (if len >? len then len else len) with len
    by (destruct (len >? len); reflexivity).
  destruct (mt_txrx_bad NORMAL_SPEED g len (InputPacket z) len z) as [Hsync _].
  { destruct (len >? len); exact Hlen. }
  destruct (readResultData_check len
              (result (mt_txrx NORMAL_SPEED g len (InputPacket z) len z)))
    eqn:E.
  { apply readResultData_check_true in E as [E _]. contradiction. }
  cbn [negb]. rewrite !bind_result, !bind_trace.
  match goal with
  | |- context [readResultData_from tries len ?z'] =>
      destruct (IH z') as [Hr Ht]
  end.
  { rewrite <- Hg. unfold mt_txrx, final.
    destruct (spi_txrx _ _ _). reflexivity. }
  split; [exact Hr|]. rewrite Ht. reflexivity.
Qed.

Lemma verifyUpload_bad (checksum : Z) (z : @zephyr_data Dev) :
  result (verifyUpload checksum z) = false
  /\ trace (verifyUpload checksum z)
     = [EvTxRx NORMAL_SPEED (sub_bytes (of_list [5; 0; 0; 6]) 0 4)].
Proof.
  unfold verifyUpload. rewrite bind_result, bind_trace, mt_txrx_trace.
  destruct (mt_txrx_bad NORMAL_SPEED (of_list [5; 0; 0; 6]) 4 uninit 4 z
              ltac:(reflexivity)) as [_ Hack].
  destruct (Z.eqb_spec
              (load8 (result (mt_txrx NORMAL_SPEED (of_list [5; 0; 0; 6]) 4
                                uninit 4 z)) 0) 208) as [E|_];
    [contradiction|].
  cbn [negb orb]. split; [reflexivity | apply app_nil_r].
Qed.

Lemma uploadChunk_from_bad (tries : nat) (checksum : Z) (o : bytes)
  (z : @zephyr_data Dev) :
  OutputPacket z = o ->
  result (uploadChunk_from tries checksum z) = false
  /\ trace (uploadChunk_from tries checksum z)
     = concat (repeat [EvTx NORMAL_SPEED (sub_bytes o 0 1024);
                       EvUdelay 300;
                       EvTxRx NORMAL_SPEED (sub_bytes (of_list [5; 0; 0; 6]) 0 4)]
                 tries).
Proof.
  revert z. induction tries as [|tries IH]; intros z Ho; [split; reflexivity|].
  cbn [uploadChunk_from].
  rewrite !bind_result, !bind_trace.
  change (result (get z)) with z. change (final (get z)) with z.
  change (trace (get z)) with (@nil io_event). rewrite Ho.
  set (z1 := final (udelay 300 (final (mt_tx NORMAL_SPEED o 1024 z)))).
  destruct (verifyUpload_bad checksum z1) as [Hr Ht].
  rewrite Hr, Ht.
  destruct (IH (final (verifyUpload checksum z1))) as [Hr' Ht'].
  { rewrite <- Ho. unfold verifyUpload. rewrite bind_final.
    unfold mt_txrx, final. destruct (spi_txrx _ _ _).
    destruct (_ || _); [reflexivity|].
    destruct (negb _); [reflexivity|]. destruct (negb _); reflexivity. }
  split; [exact Hr'|]. rewrite Ht'. reflexivity.
Qed.

Lemma loadASpeedFirmware_bad (firmware : bytes) (len : Z) (z : @zephyr_data Dev) :
  0 < len ->
  result (loadASpeedFirmware firmware len z) = false
  /\ exists packet,
       length packet = 1024%nat
       /\ trace (loadASpeedFirmware firmware len z)
          = concat (repeat [EvTx NORMAL_SPEED packet;
                            EvUdelay 300;
                            EvTxRx NORMAL_SPEED
                              (sub_bytes (of_list [5; 0; 0; 6]) 0 4)] 5).
Proof.
  intros Hlen. unfold loadASpeedFirmware.
  destruct (Z.to_nat len) as [|fuel] eqn:Efuel; [lia|].
  cbn [loadASpeedFirmware_loop].
  replace (len >? 0) with true by (symmetry; apply Z.gtb_lt; lia).
  rewrite !bind_result, !bind_trace.
  change (result (get z)) with z. change (final (get z)) with z.
  change (trace (get z)) with (@nil io_event).
  destruct (makeBootloaderDataPacket (OutputPacket z) 1073741824 firmware 0
              (if len >? 1016 then 1016 else len)) as [[o checksum] n].
  rewrite !bind_result, !bind_trace.
  destruct (uploadChunk_from_bad 5 checksum o
              (final (modify (set_OutputPacket o) z)) eq_refl) as [Hr Ht].
  rewrite Hr, Ht. cbn [negb].
  split; [reflexivity|].
  exists (sub_bytes o 0 1024). split.
  - unfold sub_bytes. rewrite length_map, length_seq. reflexivity.
  - cbn [modify trace snd app ret]. rewrite app_nil_r. reflexivity.
Qed.

Lemma uploadMain_from_bad (tries : nat) (firmware : bytes) (len checksum : Z)
  (z : @zephyr_data Dev) :
  result (uploadMain_from tries firmware len checksum z) = false
  /\ trace (uploadMain_from tries firmware len checksum z)
     = concat (repeat [EvTxRx NORMAL_SPEED (sub_bytes (of_list [194; 0; 0; 0]) 0 4);
                       EvTx FAST_SPEED (sub_bytes firmware 0 len);
                       EvTxRx NORMAL_SPEED (sub_bytes (of_list [5; 0; 0; 6]) 0 4)]
                 tries).
Proof.
  revert z. induction tries as [|tries IH]; intros z; [split; reflexivity|].
  cbn [uploadMain_from].
  rewrite !bind_result, !bind_trace.
  unfold sendBlankDataPacket at 3. rewrite bind_trace, mt_txrx_trace.
  match goal with
  | |- context [verifyUpload checksum ?z'] =>
      destruct (verifyUpload_bad checksum z') as [Hr Ht];
      set (z1 := z') in *
  end.
  rewrite Hr, Ht.
  destruct (IH (final (verifyUpload checksum z1))) as [Hr' Ht'].
  split; [exact Hr'|]. rewrite Ht'. reflexivity.
Qed.

Lemma loadMainFirmware_bad (firmware : bytes) (len : Z) (z : @zephyr_data Dev) :
  result (loadMainFirmware firmware len z) = false
  /\ trace (loadMainFirmware firmware len z)
     = concat (repeat [EvTxRx NORMAL_SPEED (sub_bytes (of_list [194; 0; 0; 0]) 0 4);
                       EvTx FAST_SPEED (sub_bytes firmware 0 len);
                       EvTxRx NORMAL_SPEED (sub_bytes (of_list [5; 0; 0; 6]) 0 4)]
                 5).
Proof.
  unfold loadMainFirmware. rewrite bind_result, bind_trace.
  destruct (uploadMain_from_bad 5 firmware len (sum_bytes firmware 0 len) z)
    as [Hr Ht].
  rewrite Hr, Ht. cbn [negb]. split; [reflexivity | apply app_nil_r].
Qed.

End RetryFacts.

(** C4. On a transport that never returns a sync byte, each query of the
    transaction engine makes exactly four transfers, each followed by its
    delay, and then reports failure (the report-data query fails in its
    report-info phase); the first-stage loader makes exactly five
    (transmit, delay, verify) attempts on its first chunk and the main
    loader exactly five (blank, transmit, verify) attempts, and both then
    report failure. *)
Theorem retry_bounds {Dev : Type} (T : Transport Dev) (z : @zephyr_data Dev) :
  bad_sync T ->
  let query out pause := concat (repeat [EvTxRx NORMAL_SPEED out; EvMsleep pause] 4) in
  let verify := EvTxRx NORMAL_SPEED (sub_bytes (of_list [5; 0; 0; 6]) 0 4) in
  (result (determineInterfaceVersion z) = false
   /\ trace (determineInterfaceVersion z)
      = query (sub_bytes (memset uninit 0 208 4) 0 4) 3)
  /\ (forall id,
        result (getReportInfo id z) = None
        /\ trace (getReportInfo id z)
           = query (sub_bytes (store8 (memset uninit 0 143 8) 1 id) 0 8) 1)
  /\ (forall id buffer,
        result (getReport id buffer z) = None
        /\ trace (getReport id buffer z)
           = query (sub_bytes (store8 (memset uninit 0 143 8) 1 id) 0 8) 1)
  /\ (result (readFrameLength z) = None
      /\ trace (readFrameLength z)
         = query (sub_bytes (memset uninit 0 (CurNOP z) 8) 0 8) 1)
  /\ (forall len,
        0 < len ->
        result (readResultData len z) = false
        /\ trace (readResultData len z)
           = query (sub_bytes (GetResultPacket z) 0 len) 1)
  /\ (forall firmware len,
        0 < len ->
        result (loadASpeedFirmware firmware len z) = false
        /\ exists packet,
             length packet = 1024%nat
             /\ trace (loadASpeedFirmware firmware len z)
                = concat (repeat [EvTx NORMAL_SPEED packet; EvUdelay 300;
                                  verify] 5))
  /\ (forall firmware len,
        result (loadMainFirmware firmware len z) = false
        /\ trace (loadMainFirmware firmware len z)
           = concat (repeat [EvTxRx NORMAL_SPEED
                               (sub_bytes (of_list [194; 0; 0; 0]) 0 4);
                             EvTx FAST_SPEED (sub_bytes firmware 0 len);
                             verify] 5)).
Proof.
  intros Hbad query verify. subst query verify. cbv beta.
  split; [apply determineInterfaceVersion_from_bad; exact Hbad|].
  split; [intros; apply getReportInfo_from_bad; exact Hbad|].
  split; [intros; apply getReport_bad; exact Hbad|].
  split.
  { unfold readFrameLength. rewrite bind_result, bind_trace.
    apply readFrameLength_from_bad. exact Hbad. }
  split; [intros; apply readResultData_from_bad; auto|].
  split; [intros; apply loadASpeedFirmware_bad; assumption|].
  intros. apply loadMainFirmware_bad. exact Hbad.
Qed.

Lemma retry_bounds_witness :
  result (readFrameLength (T:=dead_line) (probed tt)) = None
  /\ count_txrx (trace (readFrameLength (T:=dead_line) (probed tt))) = 4%nat
  /\ result (readResultData (T:=dead_line) 17 (probed tt)) = false
  /\ count_txrx (trace (readResultData (T:=dead_line) 17 (probed tt))) = 4%nat
  /\ result (loadASpeedFirmware (T:=dead_line) uninit 3058 (probed tt)) = false
  /\ count_tx (trace (loadASpeedFirmware (T:=dead_line) uninit 3058 (probed tt)))
     = 5%nat.
Proof.
  assert (Hdead : bad_sync dead_line).
  { intros d s out. vm_compute. split; discriminate. }
  destruct (retry_bounds dead_line (probed tt) Hdead)
    as [_ [_ [_ [[Hl Hlt] [Hd [Ha _]]]]]].
  destruct (Hd 17 ltac:(lia)) as [Hdr Hdt].
  destruct (Ha uninit 3058 ltac:(lia)) as [Har [packet [_ Hat]]].
  rewrite Hlt, Hdt, Hat.
  repeat split; assumption.
Defined.

(** ** The first-stage loader *)

Lemma load8_idem (m : bytes) (a : Z) : load8 m a mod 256 = load8 m a.
Proof. apply Z.mod_small, load8_range. Qed.

Lemma load8_memset (m : bytes) (off c n a : Z) :
  load8 (memset m off c n) a
  = if (off <=? a) && (a <? off + n) then c mod 256 else load8 m a.
Proof.
  unfold memset, load8 at 1.
  destruct ((off <=? a) && (a <? off + n)); [|reflexivity].
  apply Z.mod_mod. lia.
Qed.

Lemma load8_memcpy (dst : bytes) (doff : Z) (src : bytes) (soff n a : Z) :
  load8 (memcpy dst doff src soff n) a
  = if (doff <=? a) && (a <? doff + n) then load8 src (soff + (a - doff))
    else load8 dst a.
Proof.
  unfold memcpy, load8 at 1.
  destruct ((doff <=? a) && (a <? doff + n)); [|reflexivity].
  apply load8_idem.
Qed.

Lemma sum_bytes_ext (m m' : bytes) (lo hi : Z) :
  (forall a, lo <= a < hi -> load8 m a = load8 m' a) ->
  sum_bytes m lo hi = sum_bytes m' lo hi.
Proof.
  intros Hext. unfold sum_bytes, sub_bytes. f_equal.
  apply map_ext_in. intros k Hk. apply in_seq in Hk. apply Hext. lia.
Qed.

Lemma sub_bytes_ext (m m' : bytes) (off n : Z) :
  (forall a, off <= a < off + n -> load8 m a = load8 m' a) ->
  sub_bytes m off n = sub_bytes m' off n.
Proof.
  intros Hext. unfold sub_bytes.
  apply map_ext_in. intros k Hk. apply in_seq in Hk. apply Hext. lia.
Qed.

Lemma nth_sub_bytes (m : bytes) (n : Z) (k : nat) :
  Z.of_nat k < n -> nth k (sub_bytes m 0 n) 0 = load8 m (Z.of_nat k).
Proof.
  intros Hk. unfold sub_bytes.
  erewrite nth_indep
    by (rewrite length_map, length_seq; lia).
  rewrite (map_nth (fun j => load8 m (0 + Z.of_nat j)) _ 0%nat).
  rewrite seq_nth by lia. reflexivity.
Qed.

(** Every one of the 1024 bytes of a packet is written by
    [makeBootloaderDataPacket]: what the output buffer held before does
    not show. *)
Lemma packet_bytes_fresh (o o' : bytes) (address : Z) (firmware : bytes)
  (data n : Z) :
  0 <= n <= 1016 ->
  fst (makeBootloaderDataPacket o address firmware data n)
  = (fst (fst (makeBootloaderDataPacket o address firmware data n)),
     snd (fst (makeBootloaderDataPacket o' address firmware data n)))
  /\ sub_bytes (fst (fst (makeBootloaderDataPacket o address firmware data n)))
       0 1024
     = sub_bytes
         (fst (fst (makeBootloaderDataPacket o' address firmware data n)))
         0 1024.
Proof.
  intros Hn. unfold makeBootloaderDataPacket.
  replace (n >? 1016) with false
    by (symmetry; rewrite Z.gtb_ltb; apply Z.ltb_ge; lia).
  cbn [fst snd].
  match goal with
  | |- context [sum_bytes firmware data (data + n) + sum_bytes ?h 0 6] =>
      set (hdr := h)
  end.
  match goal with
  | |- context [sum_bytes firmware data (data + n) + sum_bytes ?h 0 6] =>
      lazymatch h with
      | hdr => fail
      | _ => set (hdr' := h)
      end
  end.
  assert (Hhdr : forall a, 0 <= a < 1022 - 0 -> a < 6 \/ a < 6 + n ->
                           load8 hdr a = load8 hdr' a).
  { intros a Ha Hlow. unfold hdr, hdr'.
    rewrite !load8_memcpy, !load8_store8.
    destruct ((6 <=? a) && (a <? 6 + n)) eqn:E; [reflexivity|].
    apply andb_false_iff in E.
    destruct (Z.eqb_spec a 5); [reflexivity|].
    destruct (Z.eqb_spec a 4); [reflexivity|].
    destruct (Z.eqb_spec a 3); [reflexivity|].
    destruct (Z.eqb_spec a 2); [reflexivity|].
    destruct (Z.eqb_spec a 1); [reflexivity|].
    destruct (Z.eqb_spec a 0); [reflexivity|].
    exfalso. destruct E as [E|E];
      [apply Z.leb_gt in E | apply Z.ltb_ge in E]; lia. }
  assert (Hsum : sum_bytes hdr 0 6 = sum_bytes hdr' 0 6).
  { apply sum_bytes_ext. intros a Ha. apply Hhdr; lia. }
  rewrite Hsum. split; [reflexivity|].
  apply sub_bytes_ext. intros a Ha.
  rewrite !load8_store8, !load8_memset.
  destruct (Z.eqb_spec a 1023); [reflexivity|].
  destruct (Z.eqb_spec a 1022); [reflexivity|].
  destruct ((n + 6 <=? a) && (a <? n + 6 + (1016 - n))) eqn:E; [reflexivity|].
  apply andb_false_iff in E.
  apply Hhdr; [lia|].
  destruct E as [E|E]; [apply Z.leb_gt in E | apply Z.ltb_ge in E]; lia.
Qed.

Lemma land_255 (x : Z) : Z.land x 255 = x mod 256.
Proof. change 255 with (Z.ones 8). rewrite Z.land_ones by lia. reflexivity. Qed.

Lemma packet_checksum_bytes (o : bytes) (address : Z) (firmware : bytes)
  (data n : Z) :
  let p := makeBootloaderDataPacket o address firmware data n in
  load8 (fst (fst p)) 1022 = Z.land (Z.shiftr (snd (fst p)) 8) 255
  /\ load8 (fst (fst p)) 1023 = Z.land (snd (fst p)) 255.
Proof.
  unfold makeBootloaderDataPacket. cbn [fst snd].
  rewrite !load8_store8. cbn [Z.eqb Pos.eqb].
  rewrite !land_255. split; apply Z.mod_mod; lia.
Qed.

Section ChunkFacts.
Context {Dev : Type} {T : Transport Dev}.
Hypothesis Hack : acknowledges T.

Lemma uploadChunk_ack (tries : nat) (checksum : Z) (z : @zephyr_data Dev) :
  load8 (OutputPacket z) 1022 = Z.land (Z.shiftr checksum 8) 255 ->
  load8 (OutputPacket z) 1023 = Z.land checksum 255 ->
  result (uploadChunk_from (S tries) checksum z) = true
  /\ trace (uploadChunk_from (S tries) checksum z)
     = [EvTx NORMAL_SPEED (sub_bytes (OutputPacket z) 0 1024);
        EvUdelay 300;
        EvTxRx NORMAL_SPEED (sub_bytes (of_list [5; 0; 0; 6]) 0 4)].
Proof.
  intros Hhi Hlo. cbn [uploadChunk_from].
  rewrite !bind_result, !bind_trace.
  change (result (get z)) with z. change (final (get z)) with z.
  change (trace (get z)) with (@nil io_event).
  set (packet := sub_bytes (OutputPacket z) 0 1024).
  set (z1 := final (udelay 300 (final (mt_tx NORMAL_SPEED (OutputPacket z) 1024 z)))).
  assert (Hdev : spi_dev z1 = spi_tx (spi_dev z) NORMAL_SPEED packet)
    by reflexivity.
  assert (Hv : result (verifyUpload checksum z1) = true
               /\ trace (verifyUpload checksum z1)
                  = [EvTxRx NORMAL_SPEED (sub_bytes (of_list [5; 0; 0; 6]) 0 4)]).
  { unfold verifyUpload. rewrite bind_result, bind_trace, mt_txrx_trace.
    unfold mt_txrx, result. rewrite Hdev.
    pose proof (Hack (spi_dev z) packet (sub_bytes (of_list [5; 0; 0; 6]) 0 4))
      as Ha. cbv zeta in Ha.
    change (if 4 >? 4 then 4 else 4) with 4.
    destruct (spi_txrx _ _ _) as [d rx]; cbn [fst snd] in *.
    destruct Ha as [H0 [H1 [H2 H3]]].
    rewrite !load8_memcpy. cbn [Z.leb Z.ltb Z.compare Pos.compare
      Pos.compare_cont andb Z.add Z.sub Z.opp Pos.add Z.pos_sub].
    rewrite H0, H1, H2, H3.
    unfold packet.
    rewrite (nth_sub_bytes (OutputPacket z) 1024 1022) by (cbn; lia).
    rewrite (nth_sub_bytes (OutputPacket z) 1024 1023) by (cbn; lia).
    change (Z.of_nat 1022) with 1022. change (Z.of_nat 1023) with 1023.
    rewrite !load8_idem, Hhi, Hlo, !Z.eqb_refl. cbn [negb orb].
    split; [reflexivity | apply app_nil_r]. }
  destruct Hv as [Hr Ht]. rewrite Hr, Ht.
  split; reflexivity.
Qed.

Lemma sendExecutePacket_run (z : @zephyr_data Dev) :
  trace (sendExecutePacket z)
  = [EvTxRx NORMAL_SPEED (sub_bytes (of_list [196; 0; 0; 196]) 0 4)].
Proof.
  unfold sendExecutePacket. rewrite bind_trace, mt_txrx_trace.
  apply app_nil_r.
Qed.

(** With every upload acknowledged the loader sends each chunk of the
    plan once, in order, and then the execute command. *)
Lemma loadASpeedFirmware_loop_ack (fuel : nat) (firmware : bytes)
  (address data left : Z) (z : @zephyr_data Dev) :
  (Z.to_nat left <= fuel)%nat ->
  result (loadASpeedFirmware_loop fuel firmware address data left z) = true
  /\ trace (loadASpeedFirmware_loop fuel firmware address data left z)
     = flat_map
         (fun c => [EvTx NORMAL_SPEED (chunk_packet firmware c);
                    EvUdelay 300;
                    EvTxRx NORMAL_SPEED (sub_bytes (of_list [5; 0; 0; 6]) 0 4)])
         (aspeed_chunks fuel address data left)
       ++ [EvTxRx NORMAL_SPEED (sub_bytes (of_list [196; 0; 0; 196]) 0 4)].
Proof.
  revert address data left z.
  induction fuel as [|fuel IH]; intros address data left z Hfuel.
  - cbn [loadASpeedFirmware_loop aspeed_chunks].
    replace (left >? 0) with false
      by (symmetry; rewrite Z.gtb_ltb; apply Z.ltb_ge; lia).
    rewrite bind_result, bind_trace, sendExecutePacket_run.
    split; reflexivity.
  - cbn [loadASpeedFirmware_loop aspeed_chunks].
    destruct (left >? 0) eqn:Eleft.
    2: { rewrite bind_result, bind_trace, sendExecutePacket_run.
         split; reflexivity. }
    rewrite Z.gtb_ltb in Eleft. apply Z.ltb_lt in Eleft.
    set (toUpload := if left >? 1016 then 1016 else left).
    assert (Hup : 0 < toUpload <= 1016 /\ toUpload <= left).
    { unfold toUpload. destruct (left >? 1016) eqn:E; [lia|].
      rewrite Z.gtb_ltb in E. apply Z.ltb_ge in E. lia. }
    rewrite !bind_result, !bind_trace.
    change (result (get z)) with z. change (final (get z)) with z.
    change (trace (get z)) with (@nil io_event).
    pose proof (packet_checksum_bytes (OutputPacket z) address firmware data
                  toUpload) as Hck. cbv zeta in Hck.
    pose proof (packet_bytes_fresh (OutputPacket z) uninit address firmware
                  data toUpload ltac:(lia)) as [_ Hfresh].
    destruct (makeBootloaderDataPacket (OutputPacket z) address firmware data
                toUpload) as [[o checksum] n'].
    cbn [fst snd] in Hck, Hfresh. destruct Hck as [Hhi Hlo].
    rewrite !bind_result, !bind_trace.
    set (z1 := final (modify (set_OutputPacket o) z)).
    destruct (uploadChunk_ack 4 checksum z1 Hhi Hlo) as [Hr Ht].
    rewrite Hr, Ht. cbn [negb].
    match goal with
    | |- context [loadASpeedFirmware_loop fuel firmware ?a ?d ?l ?z'] =>
        destruct (IH a d l z' ltac:(lia)) as [Hr' Ht']
    end.
    split; [exact Hr'|]. rewrite Ht'.
    cbn [flat_map chunk_packet]. change (OutputPacket z1) with o.
    rewrite Hfresh. reflexivity.
Qed.

End ChunkFacts.

Lemma cons_inv {A} (x y : A) (l l' : list A) :
  x :: l = y :: l' -> x = y /\ l = l'.
Proof. intros E. split; congruence. Qed.

Lemma aspeed_chunks_head (fuel : nat) (address data left : Z) a d n post :
  aspeed_chunks fuel address data left = (a, d, n) :: post ->
  a = address /\ d = data.
Proof.
  destruct fuel; cbn [aspeed_chunks]; destruct (left >? 0);
    try discriminate.
  intros E. apply cons_inv in E as [E _].
  apply pair_equal_spec in E as [E _].
  apply pair_equal_spec in E as [Ea Ed]. split; congruence.
Qed.

(** The fuel of the upload loop never runs out: from [Z.to_nat left]
    on, more fuel changes nothing. *)
Lemma loadASpeedFirmware_loop_fuel {Dev : Type} {T : Transport Dev}
  (fuel1 fuel2 : nat) (firmware : bytes) (address data left : Z)
  (z : @zephyr_data Dev) :
  (Z.to_nat left <= fuel1)%nat -> (Z.to_nat left <= fuel2)%nat ->
  loadASpeedFirmware_loop fuel1 firmware address data left z
  = loadASpeedFirmware_loop fuel2 firmware address data left z.
Proof.
  revert fuel2 address data left z.
  induction fuel1 as [|fuel1 IH]; intros fuel2 address data left z H1 H2.
  - destruct fuel2; cbn [loadASpeedFirmware_loop];
      replace (left >? 0) with false
        by (symmetry; rewrite Z.gtb_ltb; apply Z.ltb_ge; lia);
      reflexivity.
  - destruct fuel2 as [|fuel2]; cbn [loadASpeedFirmware_loop];
      destruct (left >? 0) eqn:Eleft; try reflexivity.
    + rewrite Z.gtb_ltb in Eleft. apply Z.ltb_lt in Eleft. lia.
    + rewrite Z.gtb_ltb in Eleft. apply Z.ltb_lt in Eleft.
      set (toUpload := if left >? 1016 then 1016 else left).
      assert (Hup : 0 < toUpload).
      { unfold toUpload. destruct (left >? 1016); lia. }
      assert (Ha : (Z.to_nat (left - toUpload) <= fuel1)%nat) by lia.
      assert (Hb : (Z.to_nat (left - toUpload) <= fuel2)%nat) by lia.
      rewrite (bind_run get), (bind_run get).
      change (result (get z)) with z. change (final (get z)) with z.
      destruct (makeBootloaderDataPacket (OutputPacket z) address firmware
                  data toUpload) as [[o checksum] n].
      rewrite !bind_run.
      destruct (result (uploadChunk_from 5 checksum _)); cbn [negb];
        [|reflexivity].
      rewrite !(IH fuel2 _ _ _ _ Ha Hb). reflexivity.
Qed.

(** The chunk plan. *)
Lemma aspeed_chunks_shape (fuel : nat) (data left : Z) :
  0 <= data -> data + left <= 2147483647 ->
  Forall (fun '(a, d, n) =>
            a = 1073741824 + d /\ 0 < n <= 1016
            /\ data <= d /\ d + n <= data + left)
    (aspeed_chunks fuel (1073741824 + data) data left)
  /\ forall pre a d n a' d' n' post,
       aspeed_chunks fuel (1073741824 + data) data left
       = pre ++ (a, d, n) :: (a', d', n') :: post ->
       a' = a + n /\ d' = d + n.
Proof.
  revert data left.
  induction fuel as [|fuel IH]; intros data left Hd Hbound;
    cbn [aspeed_chunks].
  - destruct (left >? 0);
      (split; [constructor | intros [|? ?] * E; discriminate E]).
  - destruct (left >? 0) eqn:Eleft.
    2: { split; [constructor|]. intros [|? ?] * E; discriminate E. }
    rewrite Z.gtb_ltb in Eleft. apply Z.ltb_lt in Eleft.
    set (toUpload := if left >? 1016 then 1016 else left).
    assert (Hup : 0 < toUpload <= 1016 /\ toUpload <= left).
    { unfold toUpload. destruct (left >? 1016) eqn:E; [lia|].
      rewrite Z.gtb_ltb in E. apply Z.ltb_ge in E. lia. }
    replace (u32 (1073741824 + data + toUpload))
      with (1073741824 + (data + toUpload))
      by (unfold u32; rewrite Z.mod_small; lia).
    destruct (IH (data + toUpload) (left - toUpload) ltac:(lia) ltac:(lia))
      as [IHall IHnext].
    split.
    + constructor; [lia|].
      eapply Forall_impl; [|exact IHall].
      intros [[a d] n]. lia.
    + intros pre a d n a' d' n' post E.
      destruct pre as [|c pre]; cbn [app] in E.
      * apply cons_inv in E as [Ehd E].
        apply pair_equal_spec in Ehd as [Ehd En].
        apply pair_equal_spec in Ehd as [Ea Ed].
        apply aspeed_chunks_head in E as [Ea' Ed']. lia.
      * apply cons_inv in E as [_ E]. eapply IHnext. exact E.
Qed.

Lemma be32_split (a : Z) :
  0 <= a < 4294967296 ->
  16777216 * (Z.land (Z.shiftr a 24) 255) + 65536 * (Z.land (Z.shiftr a 16) 255)
  + 256 * (Z.land (Z.shiftr a 8) 255) + Z.land a 255 = a.
Proof.
  intros Ha. rewrite !land_255, !Z.shiftr_div_pow2 by lia.
  change (2 ^ 24) with (256 * 256 * 256).
  change (2 ^ 16) with (256 * 256). change (2 ^ 8) with 256.
  rewrite <- !Z.div_div by lia.
  pose proof (Z.div_mod a 256 ltac:(lia)).
  pose proof (Z.div_mod (a / 256) 256 ltac:(lia)).
  pose proof (Z.div_mod (a / 256 / 256) 256 ltac:(lia)).
  assert (0 <= a / 256 / 256 / 256 < 256).
  { split; [repeat apply Z.div_pos; lia|].
    repeat (apply Z.div_lt_upper_bound; [lia|]). lia. }
  rewrite (Z.mod_small (a / 256 / 256 / 256)) by lia. lia.
Qed.

(** The packet of a chunk carries its destination address in bytes 1..4
    and the bytes of its slice of the image from byte 6 on. *)
Lemma chunk_packet_contents (firmware : bytes) (a d n : Z) :
  0 <= a < 4294967296 -> 0 <= n <= 1016 ->
  length (chunk_packet firmware (a, d, n)) = 1024%nat
  /\ packet_address (chunk_packet firmware (a, d, n)) = a
  /\ forall k : nat,
       Z.of_nat k < n ->
       nth (6 + k) (chunk_packet firmware (a, d, n)) 0
       = load8 firmware (d + Z.of_nat k).
Proof.
  intros Ha Hn. unfold chunk_packet, packet_address.
  split; [unfold sub_bytes; rewrite length_map, length_seq; reflexivity|].
  split.
  - rewrite !nth_sub_bytes by (cbn; lia).
    unfold makeBootloaderDataPacket. cbn [fst snd].
    replace (n >? 1016) with false
      by (symmetry; rewrite Z.gtb_ltb; apply Z.ltb_ge; lia).
    rewrite !load8_store8, !load8_memset, !load8_memcpy, !load8_store8.
    cbn [Z.of_nat Pos.of_succ_nat Pos.succ Z.eqb Pos.eqb].
    repeat match goal with
           | |- context [(?x <=? ?y) && ?c] =>
               replace ((x <=? y) && c) with false
                 by (symmetry; apply andb_false_iff; left;
                     apply Z.leb_gt; lia)
           end.
    rewrite !land_255, !Z.mod_mod by lia. rewrite <- !land_255.
    apply be32_split. exact Ha.
  - intros k Hk.
    rewrite nth_sub_bytes by lia.
    unfold makeBootloaderDataPacket. cbn [fst snd].
    replace (n >? 1016) with false
      by (symmetry; rewrite Z.gtb_ltb; apply Z.ltb_ge; lia).
    rewrite !load8_store8, !load8_memset, !load8_memcpy.
    destruct (Z.eqb_spec (Z.of_nat (6 + k)) 1023); [lia|].
    destruct (Z.eqb_spec (Z.of_nat (6 + k)) 1022); [lia|].
    replace ((n + 6 <=? Z.of_nat (6 + k))
             && (Z.of_nat (6 + k) <? n + 6 + (1016 - n))) with false
      by (symmetry; apply andb_false_iff; left; apply Z.leb_gt; lia).
    replace ((6 <=? Z.of_nat (6 + k)) && (Z.of_nat (6 + k) <? 6 + n)) with true
      by (symmetry; apply andb_true_iff; split;
          [apply Z.leb_le | apply Z.ltb_lt]; lia).
    f_equal. lia.
Qed.

(** C7. The first-stage loader walks the image in chunks of at most
    1016 bytes: the first goes to the base address [0x40000000] and
    starts at offset 0 of the image, and each following chunk has its
    destination address and its image offset exactly the previous chunk's
    length further on.  Every chunk is sent as one 1024-byte packet that
    carries its address and its slice of the image; with every upload
    acknowledged the loader sends each packet once, in order, then the
    execute command, and succeeds.  An image of 3058 bytes is sent as
    exactly four chunks, the last of 10 bytes. *)
Theorem aspeed_chunking {Dev : Type} (T : Transport Dev) (firmware : bytes)
  (len : Z) (z : @zephyr_data Dev) :
  acknowledges T -> len <= 2147483647 ->
  let chunks := aspeed_chunks (Z.to_nat len) 1073741824 0 len in
  result (loadASpeedFirmware firmware len z) = true
  /\ trace (loadASpeedFirmware firmware len z)
     = flat_map
         (fun c => [EvTx NORMAL_SPEED (chunk_packet firmware c);
                    EvUdelay 300;
                    EvTxRx NORMAL_SPEED (sub_bytes (of_list [5; 0; 0; 6]) 0 4)])
         chunks
       ++ [EvTxRx NORMAL_SPEED (sub_bytes (of_list [196; 0; 0; 196]) 0 4)]
  /\ Forall (fun '(a, d, n) =>
               0 < n <= 1016
               /\ packet_address (chunk_packet firmware (a, d, n)) = a
               /\ forall k : nat,
                    Z.of_nat k < n ->
                    nth (6 + k) (chunk_packet firmware (a, d, n)) 0
                    = load8 firmware (d + Z.of_nat k))
       chunks
  /\ (forall a d n post,
        chunks = (a, d, n) :: post -> a = 1073741824 /\ d = 0)
  /\ (forall pre a d n a' d' n' post,
        chunks = pre ++ (a, d, n) :: (a', d', n') :: post ->
        a' = a + n /\ d' = d + n)
  /\ (len = 3058 ->
      chunks = [ (1073741824, 0, 1016); (1073742840, 1016, 1016);
                 (1073743856, 2032, 1016); (1073744872, 3048, 10) ]).
Proof.
  intros Hack Hlen chunks.
  destruct (loadASpeedFirmware_loop_ack Hack (Z.to_nat len) firmware
              1073741824 0 len z (Nat.le_refl _)) as [Hr Ht].
  destruct (aspeed_chunks_shape (Z.to_nat len) 0 len ltac:(lia) ltac:(lia))
    as [Hall Hnext].
  change (1073741824 + 0) with 1073741824 in Hall, Hnext. fold chunks in Hall, Hnext.
  split; [exact Hr|]. split; [exact Ht|]. split; [|split; [|split]].
  - eapply Forall_impl; [|exact Hall].
    intros [[a d] n] [Ha [Hn [Hd Hdn]]].
    destruct (chunk_packet_contents firmware a d n ltac:(lia) ltac:(lia))
      as [_ [Haddr Hpay]].
    split; [exact Hn|]. split; [exact Haddr | exact Hpay].
  - intros a d n post E. apply aspeed_chunks_head in E. exact E.
  - exact Hnext.
  - intros ->. vm_compute. reflexivity.
Qed.

Lemma aspeed_chunking_witness :
  result (loadASpeedFirmware (T:=acking_bootloader) image3058 3058
            (probed (0, 0))) = true
  /\ count_tx (trace (loadASpeedFirmware (T:=acking_bootloader) image3058 3058
                        (probed (0, 0)))) = 4%nat
  /\ aspeed_chunks (Z.to_nat 3058) 1073741824 0 3058
     = [ (1073741824, 0, 1016); (1073742840, 1016, 1016);
         (1073743856, 2032, 1016); (1073744872, 3048, 10) ].
Proof.
  assert (Hack : acknowledges acking_bootloader).
  { intros d packet out. cbn [spi_txrx spi_tx acking_bootloader fst snd].
    unfold load8, of_list. cbn [Z.ltb Z.compare Z.to_nat Pos.to_nat
      Pos.iter_op Nat.add nth]. repeat split; try reflexivity;
      symmetry; apply Z.mod_mod; lia. }
  destruct (aspeed_chunking acking_bootloader image3058 3058 (probed (0, 0))
              Hack ltac:(lia)) as [Hr [Ht [_ [_ [_ H4]]]]].
  split; [exact Hr|]. split; [|exact (H4 eq_refl)].
  rewrite Ht, (H4 eq_refl). reflexivity.
Defined.

(** ** One frame with one finger *)

(** The decoder on a frame whose header announces one record at offset
    12 with a raw minor force of 150, under a pressure floor of 100. *)
Lemma newPacket_buf_single (H : Z) (ip : bytes) (data len : Z) :
  let finger := data + 12 in
  load8 ip (data + MTFrameHeader.headerLen) = 12 ->
  load8 ip (data + MTFrameHeader.numFingers) = 1 ->
  load16 ip (finger + FingerData.force_minor) = 150 ->
  snd (newPacket_buf 100 H ip data len)
  = [ EvAbs ABS_MT_TOUCH_MAJOR
        (floored 100 (load16 ip (finger + FingerData.force_major)));
      EvAbs ABS_MT_TOUCH_MINOR 50;
      EvAbs ABS_MT_WIDTH_MAJOR (load16 ip (finger + FingerData.size_major));
      EvAbs ABS_MT_WIDTH_MINOR (load16 ip (finger + FingerData.size_minor));
      EvAbs ABS_MT_ORIENTATION
        (16384 - load16 ip (finger + FingerData.orientation));
      EvAbs ABS_MT_TRACKING_ID (load8 ip (finger + FingerData.id));
      EvAbs ABS_MT_POSITION_X (load16s ip (finger + FingerData.x));
      EvAbs ABS_MT_POSITION_Y (s32 (H - load16s ip (finger + FingerData.y)));
      EvMtSync;
      EvAbs ABS_X (load16s ip (finger + FingerData.x));
      EvAbs ABS_Y (s32 (H - load16s ip (finger + FingerData.y)));
      EvKeyTouch (if load16 ip (finger + FingerData.size_minor) >? 0
                  then 1 else 0);
      EvSync ].
Proof.
  intros finger Hhdr Hn Hminor.
  rewrite newPacket_buf_separated by (rewrite ?Hn; lia).
  rewrite Hn, Hhdr. fold finger. rewrite Hminor.
  change (Z.to_nat 1) with 1%nat. cbn [seq map concat].
  rewrite app_nil_r.
  assert (Hfirst : loop_state 100 H data ip 0 = (finger, ip)).
  { cbn [loop_state]. rewrite Hhdr. reflexivity. }
  assert (Hlive : finger_group 100 H data ip 0 <> [EvMtSync]).
  { rewrite finger_group_eq, finger_body_events, Hfirst. cbn [fst snd].
    rewrite Hminor. change (floored 100 150 >? 0) with true.
    rewrite orb_true_r. discriminate. }
  rewrite (finger_group_live 100 H data ip 0 Hlive).
  rewrite Hfirst. cbn [fst snd]. rewrite Hminor. reflexivity.
Qed.

Section ScenarioFacts.
Context {Dev : Type} {T : Transport Dev}.

(** A frame-length query whose first response is accepted. *)
Lemma readFrameLength_first (z : @zephyr_data Dev) (l : Z) :
  let tx := sub_bytes (memset uninit 0 (CurNOP z) 8) 0 8 in
  let r1 := spi_txrx (spi_dev z) NORMAL_SPEED tx in
  readFrameLength_check (MaxPacketSize z) (memcpy uninit 0 (snd r1) 0 8)
  = Some l ->
  readFrameLength z = (Some l, set_spi_dev (fst r1) z, [EvTxRx NORMAL_SPEED tx]).
Proof.
  intros tx r1 Hcheck.
  unfold readFrameLength. rewrite bind_run.
  change (result (get z)) with z. change (final (get z)) with z.
  change (trace (get z)) with (@nil io_event).
  cbn [readFrameLength_from]. rewrite bind_run.
  assert (Hrun : mt_txrx NORMAL_SPEED (memset uninit 0 (CurNOP z) 8) 8 uninit 8 z
                 = (memcpy uninit 0 (snd r1) 0 8, set_spi_dev (fst r1) z,
                    [EvTxRx NORMAL_SPEED tx])).
  { unfold mt_txrx. change (if 8 >? 8 then 8 else 8) with 8.
    fold tx. fold r1. destruct r1; reflexivity. }
  rewrite Hrun. cbn [result final trace fst snd].
  rewrite bind_run. cbn [get result final trace fst snd MaxPacketSize set_spi_dev].
  rewrite Hcheck. reflexivity.
Qed.

(** A frame-data query whose first response is accepted. *)
Lemma readResultData_first (z : @zephyr_data Dev) (len : Z) :
  let query := sub_bytes (GetResultPacket z) 0 len in
  let r := spi_txrx (spi_dev z) NORMAL_SPEED query in
  let ip := memcpy (InputPacket z) 0 (snd r) 0 len in
  readResultData_check len ip = true ->
  result (readResultData len z) = true
  /\ trace (readResultData len z)
     = EvTxRx NORMAL_SPEED query
       :: snd (newPacket_buf (min_pressure z) (SensorHeight z) ip 1 (len - 3)).
Proof.
  intros query r ip Hcheck.
  unfold readResultData. cbn [readResultData_from].
  rewrite !bind_result, !bind_trace.
  assert (Hrun : mt_txrx NORMAL_SPEED (GetResultPacket z) len (InputPacket z)
                   len z
                 = (ip, set_spi_dev (fst r) z, [EvTxRx NORMAL_SPEED query])).
  { unfold mt_txrx.
    replace (if len >? len then len else len) with len
      by (destruct (len >? len); reflexivity).
    fold query. fold r. fold ip. destruct r; reflexivity. }
  change (final (get z)) with z.
  change (result (get z)) with z.
  change (trace (get z)) with (@nil io_event).
  rewrite Hrun. cbn [result final trace fst snd].
  rewrite Hcheck. cbn [negb].
  rewrite !bind_result, !bind_trace.
  split; [reflexivity|].
  cbn [modify trace snd app final fst]. rewrite app_nil_r.
  unfold newPacket. cbn [InputPacket set_InputPacket min_pressure
    SensorHeight set_spi_dev].
  destruct (newPacket_buf _ _ _ _ _). reflexivity.
Qed.

End ScenarioFacts.

(** C8 (as amended).  The transport answers the frame-length query with
    a response that decodes to length 16 and the frame-data query with a
    response that is accepted; in the input buffer after that transfer
    the header announces one finger, at offset 12, whose record has a
    minor force of 150 and a positive minor size; the pressure floor is
    100.  Then [readFrame] returns 1 after these two transfers and emits
    exactly: one group of positional reports with a minor force of 50,
    one end-of-contact marker, the legacy position with contact-active =
    true, and one sync marker. *)
Theorem single_touch_scenario {Dev : Type} (T : Transport Dev)
  (z : @zephyr_data Dev) :
  let tx := sub_bytes (memset uninit 0 (CurNOP z) 8) 0 8 in
  let r1 := spi_txrx (spi_dev z) NORMAL_SPEED tx in
  let query := sub_bytes (GetResultPacket z) 0 17 in
  let r2 := spi_txrx (fst r1) NORMAL_SPEED query in
  let ip := memcpy (InputPacket z) 0 (snd r2) 0 17 in
  let finger := 1 + 12 in
  let H := SensorHeight z in
  let observation :=
    [ EvAbs ABS_MT_TOUCH_MAJOR
        (floored 100 (load16 ip (finger + FingerData.force_major)));
      EvAbs ABS_MT_TOUCH_MINOR 50;
      EvAbs ABS_MT_WIDTH_MAJOR (load16 ip (finger + FingerData.size_major));
      EvAbs ABS_MT_WIDTH_MINOR (load16 ip (finger + FingerData.size_minor));
      EvAbs ABS_MT_ORIENTATION
        (16384 - load16 ip (finger + FingerData.orientation));
      EvAbs ABS_MT_TRACKING_ID (load8 ip (finger + FingerData.id));
      EvAbs ABS_MT_POSITION_X (load16s ip (finger + FingerData.x));
      EvAbs ABS_MT_POSITION_Y (s32 (H - load16s ip (finger + FingerData.y))) ] in
  let legacy :=
    [ EvAbs ABS_X (load16s ip (finger + FingerData.x));
      EvAbs ABS_Y (s32 (H - load16s ip (finger + FingerData.y)));
      EvKeyTouch 1 ] in
  min_pressure z = 100 ->
  readFrameLength_check (MaxPacketSize z) (memcpy uninit 0 (snd r1) 0 8)
  = Some 16 ->
  readResultData_check 17 ip = true ->
  load8 ip (1 + MTFrameHeader.headerLen) = 12 ->
  load8 ip (1 + MTFrameHeader.numFingers) = 1 ->
  load16 ip (finger + FingerData.force_minor) = 150 ->
  0 < load16 ip (finger + FingerData.size_minor) ->
  result (readFrame z) = 1
  /\ trace (readFrame z)
     = [EvTxRx NORMAL_SPEED tx; EvTxRx NORMAL_SPEED query]
       ++ observation ++ [EvMtSync] ++ legacy ++ [EvSync]
  /\ input_events (trace (readFrame z))
     = observation ++ [EvMtSync] ++ legacy ++ [EvSync].
Proof.
  intros tx r1 query r2 ip finger H observation legacy
    Hfloor Hlen Hdata Hhdr Hn Hminor Hsize.
  assert (Hrun : result (readFrame z) = 1
                 /\ trace (readFrame z)
                    = [EvTxRx NORMAL_SPEED tx; EvTxRx NORMAL_SPEED query]
                      ++ observation ++ [EvMtSync] ++ legacy ++ [EvSync]).
  { unfold readFrame. cbn [readFrame_from].
    rewrite bind_result, bind_trace.
    rewrite (readFrameLength_first z 16 Hlen).
    cbn [result final trace fst snd]. change (negb (16 =? 0)) with true.
    cbv iota. rewrite bind_result, bind_trace. change (16 + 1) with 17.
    fold tx. fold r1.
    destruct (readResultData_first (set_spi_dev (fst r1) z) 17 Hdata)
      as [Hr Ht].
    rewrite Hr, Ht. cbn [negb].
    split.
    - rewrite !bind_result. destruct (CurNOP _ =? 100); reflexivity.
    - rewrite !bind_trace.
      cbn [min_pressure SensorHeight set_spi_dev GetResultPacket InputPacket
        spi_dev].
      fold query. fold r2. fold ip. rewrite Hfloor.
      rewrite (newPacket_buf_single (SensorHeight z) ip 1 (17 - 3) Hhdr Hn Hminor).
      fold finger H.
      replace (load16 ip (finger + FingerData.size_minor) >? 0) with true
        by (symmetry; apply Z.gtb_lt; exact Hsize).
      cbn [get result final trace fst snd app].
      destruct (CurNOP _ =? 100); reflexivity. }
  destruct Hrun as [Hr Ht]. split; [exact Hr|]. split; [exact Ht|].
  rewrite Ht. reflexivity.
Qed.

Lemma single_touch_scenario_witness :
  result (readFrame (T:=scripted) (touching 10)) = 1
  /\ input_events (trace (readFrame (T:=scripted) (touching 10)))
     = [ EvAbs ABS_MT_TOUCH_MAJOR 0; EvAbs ABS_MT_TOUCH_MINOR 50;
         EvAbs ABS_MT_WIDTH_MAJOR 20; EvAbs ABS_MT_WIDTH_MINOR 10;
         EvAbs ABS_MT_ORIENTATION 12384; EvAbs ABS_MT_TRACKING_ID 3;
         EvAbs ABS_MT_POSITION_X 7169; EvAbs ABS_MT_POSITION_Y 10806;
         EvMtSync;
         EvAbs ABS_X 7169; EvAbs ABS_Y 10806; EvKeyTouch 1;
         EvSync ].
Proof.
  destruct (single_touch_scenario scripted (touching 10)) as [Hr [_ Hi]].
  - reflexivity.
  - vm_compute. reflexivity.
  - vm_compute. reflexivity.
  - vm_compute. reflexivity.
  - vm_compute. reflexivity.
  - vm_compute. reflexivity.
  - vm_compute. reflexivity.
  - split; [exact Hr|]. rewrite Hi. vm_compute. reflexivity.
Defined.

(** C8 as stated fails when the record has a minor size of zero: every
    condition of the scenario holds (a length of 16, one finger at
    offset 12, a minor force of 150, a floor of 100), the positional
    reports, the marker and the sync are emitted, but the legacy report
    is contact-active = false. *)
Lemma single_touch_counterexample :
  min_pressure (touching 0) = 100
  /\ readFrameLength_check 1000 (of_list length16_response) = Some 16
  /\ readResultData_check 17 (short_frame_buffer 0) = true
  /\ load8 (short_frame_buffer 0) (1 + MTFrameHeader.headerLen) = 12
  /\ load8 (short_frame_buffer 0) (1 + MTFrameHeader.numFingers) = 1
  /\ load16 (short_frame_buffer 0) (1 + 12 + FingerData.force_minor) = 150
  /\ result (readFrame (T:=scripted) (touching 0)) = 1
  /\ input_events (trace (readFrame (T:=scripted) (touching 0)))
     = [ EvAbs ABS_MT_TOUCH_MAJOR 0; EvAbs ABS_MT_TOUCH_MINOR 50;
         EvAbs ABS_MT_WIDTH_MAJOR 20; EvAbs ABS_MT_WIDTH_MINOR 0;
         EvAbs ABS_MT_ORIENTATION 12384; EvAbs ABS_MT_TRACKING_ID 3;
         EvAbs ABS_MT_POSITION_X 7169; EvAbs ABS_MT_POSITION_Y 10806;
         EvMtSync;
         EvAbs ABS_X 7169; EvAbs ABS_Y 10806; EvKeyTouch 0;
         EvSync ].
Proof.
  repeat split; vm_compute; reflexivity.
Qed.

(** * Further properties of the driver *)

(** ** The decoder on arbitrary frames *)

Section DecoderMore.
Variables (F H : Z).

Lemma finger_reports_inputs (b : bytes) (finger : Z) :
  forallb is_input (finger_reports H b finger) = true
  /\ count_mt_sync (finger_reports H b finger) = 0%nat
  /\ count_sync (finger_reports H b finger) = 0%nat.
Proof. repeat split. Qed.

Lemma finger_group_counts (data : Z) (b0 : bytes) (k : nat) :
  forallb is_input (finger_group F H data b0 k) = true
  /\ count_mt_sync (finger_group F H data b0 k) = 1%nat
  /\ count_sync (finger_group F H data b0 k) = 0%nat.
Proof.
  rewrite finger_group_eq, finger_body_events.
  destruct (_ || _); repeat split.
Qed.

Lemma legacy_report_counts (b : bytes) (data : Z) :
  forallb is_input (legacy_report H b data) = true
  /\ count_mt_sync (legacy_report H b data) = 0%nat
  /\ count_sync (legacy_report H b data) = 0%nat.
Proof.
  unfold legacy_report.
  destruct (_ >? 0); [destruct (_ >? 0)|]; repeat split.
Qed.

Lemma count_mt_sync_app (t u : list io_event) :
  count_mt_sync (t ++ u) = (count_mt_sync t + count_mt_sync u)%nat.
Proof. unfold count_mt_sync. rewrite filter_app, length_app. reflexivity. Qed.

Lemma count_sync_app (t u : list io_event) :
  count_sync (t ++ u) = (count_sync t + count_sync u)%nat.
Proof. unfold count_sync. rewrite filter_app, length_app. reflexivity. Qed.

Lemma groups_counts (data : Z) (b0 : bytes) (ks : list nat) :
  forallb is_input (concat (map (finger_group F H data b0) ks)) = true
  /\ count_mt_sync (concat (map (finger_group F H data b0) ks)) = length ks
  /\ count_sync (concat (map (finger_group F H data b0) ks)) = 0%nat.
Proof.
  induction ks as [|k ks [IHi [IHm IHs]]]; [repeat split|].
  cbn [map concat length].
  destruct (finger_group_counts data b0 k) as [Hi [Hm Hs]].
  rewrite forallb_app, count_mt_sync_app, count_sync_app.
  rewrite Hi, Hm, Hs, IHi, IHm, IHs. repeat split.
Qed.

(** X1. Whatever the frame, the decoder emits exactly one end-of-contact
    marker per record the header announces and exactly one sync marker,
    which is its last call; it makes no other kind of call than reports
    into the input core. *)
Theorem newPacket_markers (b0 : bytes) (data len : Z) :
  let t := snd (newPacket_buf F H b0 data len) in
  count_mt_sync t
  = Z.to_nat (load8 b0 (data + MTFrameHeader.numFingers))
  /\ count_sync t = 1%nat
  /\ (exists t', t = t' ++ [EvSync])
  /\ forallb is_input t = true.
Proof.
  intros t. subst t. rewrite newPacket_buf_groups. cbn [snd].
  set (n := Z.to_nat (load8 b0 (data + MTFrameHeader.numFingers))).
  destruct (groups_counts data b0 (seq 0 n)) as [Hi [Hm Hs]].
  destruct (legacy_report_counts (snd (loop_state F H data b0 n)) data)
    as [Li [Lm Ls]].
  rewrite !count_mt_sync_app, !count_sync_app, !forallb_app.
  rewrite Hi, Hm, Hs, Li, Lm, Ls, length_seq.
  split; [cbn; lia|]. split; [reflexivity|]. split; [|reflexivity].
  eexists. rewrite app_assoc. reflexivity.
Qed.

(** The decoder writes nowhere but into the force fields of the records
    it has passed. *)
Lemma loop_state_footprint (data : Z) (b0 : bytes) (k : nat) (a : Z) :
  in_force_fields (data + load8 b0 (data + MTFrameHeader.headerLen))
    (load8 b0 (data + MTFrameHeader.fingerDataLen)) k a = false ->
  load8 (snd (loop_state F H data b0 k)) a = load8 b0 a.
Proof.
  unfold in_force_fields.
  induction k as [|k IH]; intros Hout; [reflexivity|].
  rewrite seq_S, existsb_app in Hout. cbn [existsb Nat.add] in Hout.
  apply orb_false_iff in Hout as [Hbefore Hk].
  rewrite orb_false_r in Hk. apply andb_false_iff in Hk.
  rewrite loop_state_succ, finger_body_other8; [apply IH, Hbefore|].
  rewrite loop_state_cursor_closed.
  destruct Hk as [Hk|Hk]; [apply Z.leb_gt in Hk | apply Z.leb_gt in Hk]; lia.
Qed.

(** X2. The decoder changes the frame only inside the force fields
    (bytes 18 to 21) of the records the header announces: every other
    byte of the buffer, the header included, is after the call what it
    was before. *)
Theorem newPacket_footprint (b0 : bytes) (data len a : Z) :
  in_force_fields (data + load8 b0 (data + MTFrameHeader.headerLen))
    (load8 b0 (data + MTFrameHeader.fingerDataLen))
    (Z.to_nat (load8 b0 (data + MTFrameHeader.numFingers))) a = false ->
  load8 (fst (newPacket_buf F H b0 data len)) a = load8 b0 a.
Proof.
  intros Hout. rewrite newPacket_buf_groups. cbn [fst].
  apply loop_state_footprint, Hout.
Qed.

(** X3. A record is reported exactly when one of its two forces, as the
    loop finds them, exceeds the pressure floor.  The group of a reported
    record is nine calls: the two forces, each lowered by the floor and
    not below 0, at least one of them positive, then six further reports,
    then the end-of-contact marker. *)
Theorem finger_group_live_iff (data : Z) (b0 : bytes) (k : nat) :
  let finger := fst (loop_state F H data b0 k) in
  let b := snd (loop_state F H data b0 k) in
  let major := load16 b (finger + FingerData.force_major) in
  let minor := load16 b (finger + FingerData.force_minor) in
  0 <= F ->
  (finger_group F H data b0 k <> [EvMtSync] <-> F < major \/ F < minor)
  /\ (F < major \/ F < minor ->
      exists rest,
        finger_group F H data b0 k
        = EvAbs ABS_MT_TOUCH_MAJOR (Z.max 0 (major - F))
          :: EvAbs ABS_MT_TOUCH_MINOR (Z.max 0 (minor - F))
          :: rest ++ [EvMtSync]
        /\ length rest = 6%nat
        /\ Forall (fun e => match e with EvAbs _ _ => True | _ => False end)
             rest
        /\ 0 < Z.max 0 (major - F) + Z.max 0 (minor - F) <= 131070).
Proof.
  intros finger b major minor HF.
  assert (Hfl : forall v, 0 <= v < 65536 -> floored F v = Z.max 0 (v - F)).
  { intros v Hv. unfold floored. destruct (v >? F) eqn:E.
    - rewrite Z.gtb_ltb in E. apply Z.ltb_lt in E.
      rewrite Z.mod_small; lia.
    - rewrite Z.gtb_ltb in E. apply Z.ltb_ge in E. lia. }
  pose proof (load16_range b (finger + FingerData.force_major)) as HM.
  pose proof (load16_range b (finger + FingerData.force_minor)) as Hm.
  fold major in HM. fold minor in Hm.
  assert (Hiff : finger_group F H data b0 k <> [EvMtSync]
                 <-> F < major \/ F < minor).
  { rewrite finger_group_eq, finger_body_events. fold finger b major minor.
    rewrite !Hfl by assumption.
    destruct (Z.max 0 (major - F) >? 0) eqn:E1;
      destruct (Z.max 0 (minor - F) >? 0) eqn:E2; cbn [orb];
      rewrite Z.gtb_ltb in E1, E2;
      try apply Z.ltb_lt in E1; try apply Z.ltb_lt in E2;
      try apply Z.ltb_ge in E1; try apply Z.ltb_ge in E2;
      (split; [intros Hne; first [lia | exfalso; apply Hne; reflexivity]
              | intros Hov; first [discriminate | exfalso; lia]]). }
  split; [exact Hiff|].
  intros Hover. apply Hiff in Hover.
  rewrite (finger_group_live F H data b0 k Hover).
  fold finger b major minor. rewrite !Hfl by assumption.
  eexists [_; _; _; _; _; _].
  split; [reflexivity|]. split; [reflexivity|].
  split; [repeat constructor|].
  apply Hiff in Hover. lia.
Qed.

End DecoderMore.

Lemma newPacket_footprint_witness :
  load8 (fst (newPacket_buf 100 1000 frame_two_fingers 0 80)) 28
  = load8 frame_two_fingers 28.
Proof.
  apply (newPacket_footprint 100 1000 frame_two_fingers 0 80 28).
  vm_compute. reflexivity.
Defined.

Lemma finger_group_live_iff_witness :
  finger_group 100 1000 0 frame_above_floor 0 <> [EvMtSync].
Proof.
  destruct (finger_group_live_iff 100 1000 0 frame_above_floor 0) as [Hiff _].
  - lia.
  - apply Hiff. left. vm_compute. reflexivity.
Defined.

(** ** Frame reads on an arbitrary transport *)

Section FrameReadMore.
Context {Dev : Type} {T : Transport Dev}.

Lemma token_bytes (c : Z) :
  sub_bytes (memset uninit 0 c 8) 0 8 = repeat (c mod 256) 8.
Proof.
  unfold sub_bytes. change (Z.to_nat 8) with 8%nat.
  cbn [seq map repeat]. rewrite !load8_memset.
  cbn [Z.of_nat Pos.of_succ_nat Pos.succ Z.add Z.leb Z.ltb Z.compare
         Pos.compare Pos.compare_cont andb Pos.add].
  reflexivity.
Qed.

Lemma set_spi_dev_eta (z : @zephyr_data Dev) : set_spi_dev (spi_dev z) z = z.
Proof. destruct z. reflexivity. Qed.

(** The exact shape of a frame-length query. *)
Lemma readFrameLength_from_shape (tries : nat) (tx : bytes)
  (z : @zephyr_data Dev) :
  let A := EvTxRx NORMAL_SPEED (sub_bytes tx 0 8) in
  let r := readFrameLength_from tries tx z in
  (exists d, final r = set_spi_dev d z)
  /\ match result r with
     | None => trace r = concat (repeat [A; EvMsleep 1] tries)
     | Some l =>
         0 <= l <= MaxPacketSize z /\ l <= 65535
         /\ exists m, (m < tries)%nat
                      /\ trace r = concat (repeat [A; EvMsleep 1] m) ++ [A]
     end.
Proof.
  intros A r. subst r. revert z.
  induction tries as [|tries IH]; intros z.
  - split; [exists (spi_dev z); symmetry; apply set_spi_dev_eta | reflexivity].
  - cbn [readFrameLength_from].
    rewrite !bind_result, !bind_final, !bind_trace, mt_txrx_trace.
    change (if 8 >? 8 then 8 else 8) with 8. fold A.
    set (z1 := final (mt_txrx NORMAL_SPEED tx 8 uninit 8 z)).
    assert (Hz1 : exists d, z1 = set_spi_dev d z).
    { unfold z1, mt_txrx, final. destruct (spi_txrx _ _ _) as [d rx].
      exists d. reflexivity. }
    change (result (get z1)) with z1. change (final (get z1)) with z1.
    change (trace (get z1)) with (@nil io_event).
    destruct Hz1 as [d1 Hz1].
    assert (Hmax : MaxPacketSize z1 = MaxPacketSize z)
      by (rewrite Hz1; reflexivity).
    destruct (readFrameLength_check (MaxPacketSize z1) _) as [l|] eqn:Echeck.
    + split; [exists d1; exact Hz1|].
      unfold readFrameLength_check in Echeck.
      destruct (negb (_ =? 170)); [discriminate|].
      destruct (negb (_ =? _)); [discriminate|].
      destruct (_ >? MaxPacketSize z1) eqn:Emax; [discriminate|].
      injection Echeck as <-.
      rewrite Z.gtb_ltb in Emax. apply Z.ltb_ge in Emax.
      rewrite be16_load8 in *.
      match goal with
      | |- context [256 * load8 ?m 4 + load8 ?m 5] =>
          pose proof (load8_range m 4); pose proof (load8_range m 5)
      end.
      split; [lia|]. split; [lia|].
      exists 0%nat. split; [lia | reflexivity].
    + rewrite !bind_result, !bind_final, !bind_trace.
      change (final (msleep 1 z1)) with z1.
      specialize (IH z1). cbv zeta in IH. destruct IH as [[d Hd] IH].
      split; [exists d; rewrite Hd, Hz1; reflexivity|].
      destruct (result (readFrameLength_from tries tx z1)) as [l|].
      * destruct IH as [Hl [Hl' [m [Hm Ht]]]].
        split; [lia|]. split; [exact Hl'|].
        exists (S m). split; [lia|]. rewrite Ht. reflexivity.
      * rewrite IH. reflexivity.
Qed.

(** X4. On any transport a frame-length query clocks out eight copies
    of the poll token at each transfer, makes at most four transfers,
    pauses 1 ms after each rejected response and fails only after exactly
    four; a length it returns lies between 0 and the negotiated maximum
    packet size; it changes nothing in the driver structure but the
    device behind it. *)
Theorem readFrameLength_shape (z : @zephyr_data Dev) :
  let A := EvTxRx NORMAL_SPEED (repeat (CurNOP z mod 256) 8) in
  let r := readFrameLength z in
  (exists d, final r = set_spi_dev d z)
  /\ match result r with
     | None => trace r = concat (repeat [A; EvMsleep 1] 4)
     | Some l =>
         0 <= l <= MaxPacketSize z /\ l <= 65535
         /\ exists m, (m < 4)%nat
                      /\ trace r = concat (repeat [A; EvMsleep 1] m) ++ [A]
     end.
Proof.
  intros A r. subst A r. unfold readFrameLength.
  rewrite bind_result, bind_final, bind_trace.
  change (result (get z)) with z. change (final (get z)) with z.
  change (trace (get z)) with (@nil io_event). cbn [app].
  rewrite <- token_bytes.
  apply (readFrameLength_from_shape 4 (memset uninit 0 (CurNOP z) 8) z).
Qed.

Lemma set_input_spi_eta (z : @zephyr_data Dev) :
  set_InputPacket (InputPacket z) (set_spi_dev (spi_dev z) z) = z.
Proof. destruct z. reflexivity. Qed.

(** The exact shape of a frame-data query. *)
Lemma readResultData_from_shape (tries : nat) (len : Z) (z : @zephyr_data Dev) :
  let A := EvTxRx NORMAL_SPEED (sub_bytes (GetResultPacket z) 0 len) in
  let r := readResultData_from tries len z in
  (exists d b, final r = set_InputPacket b (set_spi_dev d z))
  /\ if result r then
       exists m ip,
         (m < tries)%nat /\ readResultData_check len ip = true
         /\ trace r
            = concat (repeat [A; EvMsleep 1] m)
              ++ A :: snd (newPacket_buf (min_pressure z) (SensorHeight z)
                             ip 1 (len - 3))
         /\ InputPacket (final r)
            = fst (newPacket_buf (min_pressure z) (SensorHeight z)
                     ip 1 (len - 3))
     else trace r = concat (repeat [A; EvMsleep 1] tries).
Proof.
  intros A r. subst r. revert z A.
  induction tries as [|tries IH]; intros z A.
  - split; [|reflexivity].
    exists (spi_dev z), (InputPacket z). symmetry. apply set_input_spi_eta.
  - cbn [readResultData_from].
    rewrite !bind_result, !bind_final, !bind_trace.
    change (result (get z)) with z. change (final (get z)) with z.
    change (trace (get z)) with (@nil io_event).
    rewrite mt_txrx_trace.
    replace (if len >? len then len else len) with len
      by (destruct (len >? len); reflexivity).
    fold A. cbn [app].
    set (ip := result (mt_txrx NORMAL_SPEED (GetResultPacket z) len
                         (InputPacket z) len z)).
    set (z1 := final (modify (set_InputPacket ip)
                        (final (mt_txrx NORMAL_SPEED (GetResultPacket z) len
                                  (InputPacket z) len z)))).
    assert (Hz1 : exists d, z1 = set_InputPacket ip (set_spi_dev d z)).
    { unfold z1, mt_txrx, final. destruct (spi_txrx _ _ _) as [d rx].
      exists d. reflexivity. }
    destruct Hz1 as [d1 Hz1].
    change (trace (modify (set_InputPacket ip) ?w)) with (@nil io_event).
    cbn [app].
    destruct (readResultData_check len ip) eqn:Echeck; cbn [negb].
    + rewrite !bind_result, !bind_final, !bind_trace.
      assert (Hnp : newPacket 1 (len - 3) z1
                    = (tt,
                       set_InputPacket
                         (fst (newPacket_buf (min_pressure z) (SensorHeight z)
                                 ip 1 (len - 3))) z1,
                       snd (newPacket_buf (min_pressure z) (SensorHeight z)
                              ip 1 (len - 3)))).
      { unfold newPacket. rewrite Hz1.
        cbn [min_pressure SensorHeight InputPacket set_InputPacket set_spi_dev].
        destruct (newPacket_buf _ _ _ _ _). reflexivity. }
      rewrite Hnp. cbn [result final trace fst snd ret].
      split.
      * eexists d1, _. rewrite Hz1. reflexivity.
      * exists 0%nat, ip. split; [lia|]. split; [exact Echeck|].
        split; [cbn [repeat concat app]; rewrite app_nil_r; reflexivity|].
        reflexivity.
    + rewrite !bind_result, !bind_final, !bind_trace.
      change (final (msleep 1 z1)) with z1.
      specialize (IH z1). cbv zeta in IH. destruct IH as [[d [b Hd]] IH].
      assert (Hg : GetResultPacket z1 = GetResultPacket z)
        by (rewrite Hz1; reflexivity).
      assert (HF : min_pressure z1 = min_pressure z)
        by (rewrite Hz1; reflexivity).
      assert (HH : SensorHeight z1 = SensorHeight z)
        by (rewrite Hz1; reflexivity).
      rewrite Hg, HF, HH in IH. fold A in IH.
      split; [exists d, b; rewrite Hd, Hz1; reflexivity|].
      destruct (result (readResultData_from tries len z1)).
      * destruct IH as [m [ip' [Hm [Hc [Ht Hb]]]]].
        exists (S m), ip'. split; [lia|]. split; [exact Hc|].
        split; [rewrite Ht; reflexivity | exact Hb].
      * rewrite IH. reflexivity.
Qed.

Lemma count_txrx_app (t u : list io_event) :
  count_txrx (t ++ u) = (count_txrx t + count_txrx u)%nat.
Proof. unfold count_txrx. rewrite filter_app, length_app. reflexivity. Qed.

Lemma input_events_app (t u : list io_event) :
  input_events (t ++ u) = input_events t ++ input_events u.
Proof. apply filter_app. Qed.

Lemma attempts_counts (s : MTSPISetting) (o : list Z) (p : Z) (m : nat) :
  count_txrx (concat (repeat [EvTxRx s o; EvMsleep p] m)) = m
  /\ input_events (concat (repeat [EvTxRx s o; EvMsleep p] m)) = [].
Proof.
  induction m as [|m [IHc IHi]]; [split; reflexivity|].
  cbn [repeat concat]. rewrite count_txrx_app, input_events_app, IHc, IHi.
  split; reflexivity.
Qed.

Lemma inputs_only (t : list io_event) :
  forallb is_input t = true -> input_events t = t /\ count_txrx t = 0%nat.
Proof.
  induction t as [|e t IH]; [split; reflexivity|].
  cbn [forallb]. intros Hall. apply andb_true_iff in Hall as [He Ht].
  destruct (IH Ht) as [IHi IHc].
  destruct e; try discriminate He;
    (split; [cbn [input_events filter]; fold (input_events t); rewrite IHi;
             reflexivity
            | exact IHc]).
Qed.

Lemma count_txrx_cons (s : MTSPISetting) (o : list Z) (t : list io_event) :
  count_txrx (EvTxRx s o :: t) = S (count_txrx t).
Proof. reflexivity. Qed.

Lemma input_events_cons (s : MTSPISetting) (o : list Z) (t : list io_event) :
  input_events (EvTxRx s o :: t) = input_events t.
Proof. reflexivity. Qed.

Lemma newPacket_buf_inputs (F H : Z) (b0 : bytes) (data len : Z) :
  forallb is_input (snd (newPacket_buf F H b0 data len)) = true.
Proof.
  rewrite newPacket_buf_groups. cbn [snd].
  destruct (groups_counts F H data b0
              (seq 0 (Z.to_nat (load8 b0 (data + MTFrameHeader.numFingers)))))
    as [Hi _].
  destruct (legacy_report_counts H
              (snd (loop_state F H data b0
                      (Z.to_nat (load8 b0 (data + MTFrameHeader.numFingers)))))
              data) as [Li _].
  rewrite !forallb_app, Hi, Li. reflexivity.
Qed.

Lemma readFrameLength_summary (z : @zephyr_data Dev) :
  let r := readFrameLength z in
  (exists d, final r = set_spi_dev d z)
  /\ (1 <= count_txrx (trace r) <= 4)%nat
  /\ input_events (trace r) = []
  /\ forall l, result r = Some l -> 0 <= l <= MaxPacketSize z.
Proof.
  intros r. subst r. unfold readFrameLength.
  rewrite bind_result, bind_final, bind_trace.
  change (result (get z)) with z. change (final (get z)) with z.
  change (trace (get z)) with (@nil io_event). cbn [app].
  destruct (readFrameLength_from_shape 4 (memset uninit 0 (CurNOP z) 8) z)
    as [Hd Hshape].
  split; [exact Hd|].
  destruct (result (readFrameLength_from 4 _ z)) as [l|].
  - destruct Hshape as [Hl [_ [m [Hm Ht]]]]. rewrite Ht.
    rewrite count_txrx_app, input_events_app.
    destruct (attempts_counts NORMAL_SPEED
                (sub_bytes (memset uninit 0 (CurNOP z) 8) 0 8) 1 m) as [Hc Hi].
    rewrite Hc, Hi. cbn [count_txrx filter length input_events app].
    split; [lia|]. split; [reflexivity|].
    intros l' E. injection E as <-. exact Hl.
  - rewrite Hshape.
    destruct (attempts_counts NORMAL_SPEED
                (sub_bytes (memset uninit 0 (CurNOP z) 8) 0 8) 1 4) as [Hc Hi].
    rewrite Hc, Hi. split; [lia|]. split; [reflexivity|]. discriminate.
Qed.

Lemma readResultData_summary (len : Z) (z : @zephyr_data Dev) :
  let r := readResultData len z in
  (exists d b, final r = set_InputPacket b (set_spi_dev d z))
  /\ (1 <= count_txrx (trace r) <= 4)%nat
  /\ if result r then
       exists ip,
         readResultData_check len ip = true
         /\ input_events (trace r)
            = snd (newPacket_buf (min_pressure z) (SensorHeight z) ip 1
                     (len - 3))
         /\ InputPacket (final r)
            = fst (newPacket_buf (min_pressure z) (SensorHeight z) ip 1
                     (len - 3))
     else input_events (trace r) = [].
Proof.
  intros r. subst r. unfold readResultData.
  destruct (readResultData_from_shape 4 len z) as [Hd Hshape].
  split; [exact Hd|].
  destruct (result (readResultData_from 4 len z)).
  - destruct Hshape as [m [ip [Hm [Hc [Ht Hb]]]]]. rewrite Ht.
    destruct (attempts_counts NORMAL_SPEED
                (sub_bytes (GetResultPacket z) 0 len) 1 m) as [Ac Ai].
    destruct (inputs_only _ (newPacket_buf_inputs (min_pressure z)
                               (SensorHeight z) ip 1 (len - 3))) as [Di Dc].
    rewrite count_txrx_app, input_events_app, Ac, Ai.
    rewrite count_txrx_cons, input_events_cons, Di, Dc.
    split; [lia|]. exists ip. repeat split; assumption.
  - rewrite Hshape.
    destruct (attempts_counts NORMAL_SPEED
                (sub_bytes (GetResultPacket z) 0 len) 1 4) as [Ac Ai].
    rewrite Ac, Ai. split; [lia | reflexivity].
Qed.

Lemma readFrame_from_outcomes (F Hh Mx : Z) (tries : nat) :
  forall z : @zephyr_data Dev,
    min_pressure z = F -> SensorHeight z = Hh -> MaxPacketSize z = Mx ->
    let r := readFrame_from tries z in
    (count_txrx (trace r) <= 8 * tries)%nat
    /\ (0 < tries -> 1 <= count_txrx (trace r))%nat
    /\ ((result r = -1 \/ result r = 0) /\ input_events (trace r) = []
        \/ result r = 1
           /\ exists l ip,
                0 < l <= Mx
                /\ readResultData_check (l + 1) ip = true
                /\ input_events (trace r)
                   = snd (newPacket_buf F Hh ip 1 (l + 1 - 3))
                /\ InputPacket (final r)
                   = fst (newPacket_buf F Hh ip 1 (l + 1 - 3))).
Proof.
  induction tries as [|tries IH]; intros z HF HH HM; cbv zeta.
  - cbn. split; [lia|]. split; [lia|]. left. split; [left|]; reflexivity.
  - cbn [readFrame_from]. rewrite bind_result, bind_final, bind_trace.
    pose proof (readFrameLength_summary z) as S1. cbv zeta in S1.
    destruct S1 as [[d Hd] [Hc [Hi Hl]]].
    set (z1 := final (readFrameLength z)) in *.
    assert (HF1 : min_pressure z1 = F) by (rewrite Hd; exact HF).
    assert (HH1 : SensorHeight z1 = Hh) by (rewrite Hd; exact HH).
    assert (HM1 : MaxPacketSize z1 = Mx) by (rewrite Hd; exact HM).
    rewrite count_txrx_app, input_events_app, Hi. cbn [app].
    destruct (result (readFrameLength z)) as [len|].
    + specialize (Hl len eq_refl). rewrite HM in Hl.
      destruct (len =? 0) eqn:E0; cbn [negb].
      * cbn [ret result trace final fst snd count_txrx input_events filter
             length].
        split; [lia|]. split; [lia|]. left. split; [right|]; reflexivity.
      * apply Z.eqb_neq in E0.
        rewrite bind_result, bind_final, bind_trace.
        pose proof (readResultData_summary (len + 1) z1) as S2.
        cbv zeta in S2. destruct S2 as [[d2 [b2 Hd2]] [Hc2 Hok]].
        set (z2 := final (readResultData (len + 1) z1)) in *.
        rewrite count_txrx_app, input_events_app.
        destruct (result (readResultData (len + 1) z1)); cbn [negb].
        -- destruct Hok as [ip [Hck [Hev Hbuf]]].
           rewrite HF1, HH1 in Hev, Hbuf.
           match goal with
           | |- context [trace (?m z2)] =>
               replace (trace (m z2)) with (@nil io_event)
                 by (unfold bind, get, modify, ret, trace;
                     destruct (CurNOP z2 =? 100); reflexivity);
               replace (result (m z2)) with 1
                 by (unfold bind, get, modify, ret, result;
                     destruct (CurNOP z2 =? 100); reflexivity);
               replace (InputPacket (final (m z2))) with (InputPacket z2)
                 by (unfold bind, get, modify, ret, final;
                     destruct (CurNOP z2 =? 100); reflexivity)
           end.
           rewrite app_nil_r.
           cbn [count_txrx filter length].
           split; [lia|]. split; [lia|]. right. split; [reflexivity|].
           exists len, ip. split; [lia|]. repeat split; assumption.
        -- rewrite Hok. cbn [app].
           rewrite bind_result, bind_final, bind_trace.
           change (final (msleep 1 z2)) with z2.
           change (trace (msleep 1 z2)) with [EvMsleep 1].
           assert (HF2 : min_pressure z2 = F) by (rewrite Hd2; exact HF1).
           assert (HH2 : SensorHeight z2 = Hh) by (rewrite Hd2; exact HH1).
           assert (HM2 : MaxPacketSize z2 = Mx) by (rewrite Hd2; exact HM1).
           specialize (IH z2 HF2 HH2 HM2). cbv zeta in IH.
           destruct IH as [IHc [_ IHo]].
           rewrite count_txrx_app.
           change (count_txrx [EvMsleep 1]) with 0%nat.
           change (input_events ([EvMsleep 1] ++ ?t)) with (input_events t).
           split; [lia|]. split; [lia|]. exact IHo.
    + rewrite bind_result, bind_final, bind_trace.
      change (final (msleep 1 z1)) with z1.
      change (trace (msleep 1 z1)) with [EvMsleep 1].
      specialize (IH z1 HF1 HH1 HM1). cbv zeta in IH.
      destruct IH as [IHc [_ IHo]].
      rewrite count_txrx_app.
      change (count_txrx [EvMsleep 1]) with 0%nat.
      change (input_events ([EvMsleep 1] ++ ?t)) with (input_events t).
      split; [lia|]. split; [lia|]. exact IHo.
Qed.


Lemma readFrame_from_state (tries : nat) :
  forall z : @zephyr_data Dev,
    exists d b,
      final (readFrame_from tries z)
      = set_CurNOP
          (if result (readFrame_from tries z) =? 1
           then (if CurNOP z =? 100 then 101 else 100)
           else CurNOP z)
          (set_InputPacket b (set_spi_dev d z)).
Proof.
  induction tries as [|tries IH]; intros z.
  - exists (spi_dev z), (InputPacket z). destruct z. reflexivity.
  - cbn [readFrame_from]. rewrite bind_result, bind_final.
    pose proof (readFrameLength_summary z) as S1. cbv zeta in S1.
    destruct S1 as [[d Hd] _].
    set (z1 := final (readFrameLength z)) in *.
    destruct (result (readFrameLength z)) as [len|].
    + destruct (len =? 0); cbn [negb].
      * exists d, (InputPacket z). cbn [ret result final fst snd Z.eqb].
        rewrite Hd. destruct z. reflexivity.
      * rewrite bind_result, bind_final.
        pose proof (readResultData_summary (len + 1) z1) as S2.
        cbv zeta in S2. destruct S2 as [[d2 [b2 Hd2]] _].
        set (z2 := final (readResultData (len + 1) z1)) in *.
        destruct (result (readResultData (len + 1) z1)); cbn [negb].
        -- exists d2, b2.
           unfold bind, get, modify, ret, result, final.
           rewrite Hd2, Hd.
           cbn [CurNOP set_InputPacket set_spi_dev].
           destruct (CurNOP z =? 100); reflexivity.
        -- rewrite bind_result, bind_final.
           change (final (msleep 1 z2)) with z2.
           destruct (IH z2) as [d3 [b3 E3]]. exists d3, b3.
           rewrite E3, Hd2, Hd. reflexivity.
    + rewrite bind_result, bind_final.
      change (final (msleep 1 z1)) with z1.
      destruct (IH z1) as [d3 [b3 E3]]. exists d3, b3.
      rewrite E3, Hd. reflexivity.
Qed.

(** X6. One call of [readFrame] leaves every scalar field of the driver
    structure as it was, except the poll token, which goes to the other
    sentinel exactly when the call returns 1: the pressure floor, the
    sensor geometry, the negotiated packet size, the interface version,
    the ready mark and the interrupt count are what they were. *)
Theorem readFrame_state (z : @zephyr_data Dev) :
  let r := readFrame z in
  CurNOP (final r)
  = (if result r =? 1 then (if CurNOP z =? 100 then 101 else 100)
     else CurNOP z)
  /\ min_pressure (final r) = min_pressure z
  /\ SensorWidth (final r) = SensorWidth z
  /\ SensorHeight (final r) = SensorHeight z
  /\ SensorColumns (final r) = SensorColumns z
  /\ SensorRows (final r) = SensorRows z
  /\ MaxPacketSize (final r) = MaxPacketSize z
  /\ InterfaceVersion (final r) = InterfaceVersion z
  /\ FamilyID (final r) = FamilyID z
  /\ BCDVersion (final r) = BCDVersion z
  /\ Endianness (final r) = Endianness z
  /\ SensorRegionDescriptorLen (final r) = SensorRegionDescriptorLen z
  /\ SensorRegionParamLen (final r) = SensorRegionParamLen z
  /\ firmware_loaded (final r) = firmware_loaded z
  /\ input_dev (final r) = input_dev z
  /\ irq_count (final r) = irq_count z.
Proof.
  intros r. subst r. unfold readFrame.
  destruct (readFrame_from_state 4 z) as [d [b E]].
  rewrite E. repeat split.
Qed.

End FrameReadMore.

Section QueriesMore.
Context {Dev : Type} {T : Transport Dev}.

Lemma lor_shift_bytes (m : bytes) (a b : Z) :
  Z.lor (Z.shiftl (load8 m a) 8) (load8 m b) = 256 * load8 m a + load8 m b.
Proof.
  rewrite <- be16_load8. unfold be16. rewrite !land_255, !load8_idem.
  reflexivity.
Qed.

Lemma determineInterfaceVersion_from_outcome (tries : nat) :
  forall z : @zephyr_data Dev,
    let r := determineInterfaceVersion_from tries z in
    (exists d v m,
        final r = set_MaxPacketSize m (set_InterfaceVersion v (set_spi_dev d z)))
    /\ if result r then
         0 <= InterfaceVersion (final r) <= 255
         /\ 0 <= MaxPacketSize (final r) <= 65535
         /\ (1 <= count_txrx (trace r) <= tries)%nat
       else
         count_txrx (trace r) = tries
         /\ ((0 < tries)%nat ->
             InterfaceVersion (final r) = 0 /\ MaxPacketSize (final r) = 1000).
Proof.
  induction tries as [|tries IH]; intros z; cbv zeta.
  - split; [|split; [reflexivity | lia]].
    exists (spi_dev z), (InterfaceVersion z), (MaxPacketSize z).
    destruct z. reflexivity.
  - cbn [determineInterfaceVersion_from].
    rewrite !bind_result, !bind_final, !bind_trace, mt_txrx_trace.
    set (rx := result (mt_txrx NORMAL_SPEED (memset uninit 0 208 4) 4 uninit 4
                         z)).
    set (z1 := final (mt_txrx NORMAL_SPEED (memset uninit 0 208 4) 4 uninit 4
                        z)).
    assert (Hz1 : exists d, z1 = set_spi_dev d z).
    { unfold z1, mt_txrx, final. destruct (spi_txrx _ _ _) as [d r].
      exists d. reflexivity. }
    destruct Hz1 as [d Hz1].
    destruct (load8 rx 0 =? 170).
    + cbn [bind modify ret result final trace fst snd app count_txrx filter
           length InterfaceVersion MaxPacketSize set_MaxPacketSize
           set_InterfaceVersion].
      split; [eexists d, _, _; rewrite Hz1; reflexivity|].
      rewrite lor_shift_bytes.
      pose proof (load8_range rx 1). pose proof (load8_range rx 2).
      pose proof (load8_range rx 3). lia.
    + rewrite !bind_result, !bind_final, !bind_trace.
      match goal with
      | |- context [determineInterfaceVersion_from tries ?w] =>
          set (z2 := w);
          assert (Hz2 : z2 = set_MaxPacketSize 1000
                               (set_InterfaceVersion 0 z1)) by reflexivity
      end.
      specialize (IH z2). cbv zeta in IH. destruct IH as [[d3 [v3 [m3 E3]]] IH].
      split; [exists d3, v3, m3; rewrite E3, Hz2, Hz1; reflexivity|].
      change (trace (modify ?f ?w)) with (@nil io_event).
      change (trace (msleep 3 ?w)) with [EvMsleep 3].
      cbn [app].
      rewrite count_txrx_cons.
      change (count_txrx (EvMsleep 3 :: ?t)) with (count_txrx t).
      destruct (result (determineInterfaceVersion_from tries z2)).
      * destruct IH as [Hv [Hm Hc]]. split; [exact Hv|]. split; [exact Hm | lia].
      * destruct IH as [Hc Hf]. split; [lia|]. intros _.
        destruct tries as [|tries]; [|apply Hf; lia].
        cbn [determineInterfaceVersion_from ret final fst snd].
        rewrite Hz2. split; reflexivity.
Qed.

(** X7. On any transport the interface-version query makes at most four
    transfers and touches only the version, the maximum packet size and
    the device.  When it fails it has made exactly four transfers and
    leaves version 0 and the fallback packet size 1000; when it succeeds
    the version is a byte and the packet size a 16-bit value taken from
    the response. *)
Theorem determineInterfaceVersion_outcome (z : @zephyr_data Dev) :
  let r := determineInterfaceVersion z in
  (exists d v m,
      final r = set_MaxPacketSize m (set_InterfaceVersion v (set_spi_dev d z)))
  /\ if result r then
       0 <= InterfaceVersion (final r) <= 255
       /\ 0 <= MaxPacketSize (final r) <= 65535
       /\ (1 <= count_txrx (trace r) <= 4)%nat
     else
       count_txrx (trace r) = 4%nat
       /\ InterfaceVersion (final r) = 0
       /\ MaxPacketSize (final r) = 1000.
Proof.
  intros r. subst r. unfold determineInterfaceVersion.
  destruct (determineInterfaceVersion_from_outcome 4 z) as [Hd Ho].
  split; [exact Hd|].
  destruct (result (determineInterfaceVersion_from 4 z)); [exact Ho|].
  destruct Ho as [Hc Hf]. split; [exact Hc|]. apply Hf. lia.
Qed.

Lemma some_inv {A : Type} (a b : A) : Some a = Some b -> a = b.
Proof. intros E. injection E as E. exact E. Qed.

Lemma getReportInfo_check_value (id : Z) (rx : bytes) (e l : Z) :
  getReportInfo_check id rx = Some (e, l) ->
  e = load8 rx 4 / 16 /\ l = 256 * (load8 rx 4 mod 16) + load8 rx 5
  /\ 0 <= e <= 15 /\ 0 <= l <= 4095.
Proof.
  unfold getReportInfo_check.
  destruct (negb (load8 rx 0 =? 170)); [discriminate|].
  cbv zeta. destruct (negb (_ =? _)); [discriminate|].
  intros E. apply some_inv, pair_equal_spec in E as [<- <-].
  pose proof (load8_range rx 4) as H4. pose proof (load8_range rx 5) as H5.
  assert (He : Z.land (Z.shiftr (load8 rx 4) 4) 15 = load8 rx 4 / 16).
  { change 15 with (Z.ones 4). rewrite Z.land_ones, Z.shiftr_div_pow2 by lia.
    change (2 ^ 4) with 16. apply Z.mod_small.
    split; [apply Z.div_pos; lia | apply Z.div_lt_upper_bound; lia]. }
  assert (Hn : Z.land (load8 rx 4) 15 = load8 rx 4 mod 16).
  { change 15 with (Z.ones 4). rewrite Z.land_ones by lia. reflexivity. }
  assert (Hl : Z.lor (Z.shiftl (Z.land (load8 rx 4) 15) 8)
                 (Z.land (load8 rx 5) 255)
               = 256 * (load8 rx 4 mod 16) + load8 rx 5).
  { rewrite Hn.
    pose proof (Z.mod_pos_bound (load8 rx 4) 16 ltac:(lia)) as Hb.
    pose proof (be16_eq (load8 rx 4 mod 16) (load8 rx 5)) as B.
    unfold be16 in B.
    rewrite (land_255 (load8 rx 4 mod 16)) in B.
    rewrite (Z.mod_small (load8 rx 4 mod 16) 256) in B by lia.
    rewrite B, load8_idem. reflexivity. }
  rewrite He, Hl.
  pose proof (Z.mod_pos_bound (load8 rx 4) 16 ltac:(lia)) as Hb.
  assert (0 <= load8 rx 4 / 16 <= 15)
    by (split; [apply Z.div_pos; lia
               | apply Z.lt_succ_r, Z.div_lt_upper_bound; lia]).
  repeat split; lia.
Qed.

Lemma getReportInfo_from_outcome (tries : nat) (id : Z) :
  forall z : @zephyr_data Dev,
    let r := getReportInfo_from tries id z in
    match result r with
    | Some (e, l) =>
        0 <= e <= 15 /\ 0 <= l <= 4095
        /\ (1 <= count_txrx (trace r) <= tries)%nat
    | None => count_txrx (trace r) = tries
    end.
Proof.
  induction tries as [|tries IH]; intros z; cbv zeta; [reflexivity|].
  cbn [getReportInfo_from].
  rewrite !bind_result, !bind_trace, mt_txrx_trace.
  cbn [app]. rewrite count_txrx_cons.
  destruct (getReportInfo_check id _) as [[e l]|] eqn:Ec.
  - apply getReportInfo_check_value in Ec as [_ [_ [He Hl]]].
    cbn [ret result trace fst snd count_txrx filter length].
    split; [exact He|]. split; [exact Hl | lia].
  - rewrite !bind_result, !bind_trace.
    change (trace (msleep 1 ?w)) with [EvMsleep 1]. cbn [app].
    change (count_txrx (EvMsleep 1 :: ?t)) with (count_txrx t).
    match goal with
    | |- context [getReportInfo_from tries id ?w] => specialize (IH w)
    end.
    cbv zeta in IH.
    destruct (result (getReportInfo_from tries id _)) as [[e l]|];
      [destruct IH as [He [Hl Hc]]; repeat split; lia | lia].
Qed.

(** X8. On any transport a report-info query makes at most four transfers
    and fails only after exactly four; the error code it delivers is a
    nibble (0 to 15) and the report length a 12-bit value (0 to 4095),
    whatever the device answered. *)
Theorem getReportInfo_outcome (id : Z) (z : @zephyr_data Dev) :
  let r := getReportInfo id z in
  match result r with
  | Some (e, l) =>
      0 <= e <= 15 /\ 0 <= l <= 4095 /\ (1 <= count_txrx (trace r) <= 4)%nat
  | None => count_txrx (trace r) = 4%nat
  end.
Proof. apply getReportInfo_from_outcome. Qed.

Lemma getReport_from_outcome (tries : nat) (id len : Z) (buffer : bytes) :
  forall z : @zephyr_data Dev,
    let r := getReport_from tries id len buffer z in
    match result r with
    | Some (buf, n) =>
        n = len
        /\ buf = memcpy buffer 0 (InputPacket (final r)) 4 len
        /\ getReport_check id len (InputPacket (final r)) = true
        /\ (1 <= count_txrx (trace r) <= tries)%nat
    | None => count_txrx (trace r) = tries
    end.
Proof.
  induction tries as [|tries IH]; intros z; cbv zeta; [reflexivity|].
  cbn [getReport_from].
  rewrite !bind_result, !bind_final, !bind_trace.
  change (trace (modify ?f ?w)) with (@nil io_event).
  change (final (modify ?f ?w)) with (f w).
  change (trace (get ?w)) with (@nil io_event).
  change (result (get ?w)) with w.
  change (final (get ?w)) with w.
  cbv beta. rewrite mt_txrx_trace. cbn [app].
  rewrite count_txrx_cons.
  match goal with
  | |- context [getReport_check id len ?b] => set (ip := b)
  end.
  destruct (getReport_check id len ip) eqn:Ec; cbn [negb].
  - cbn [ret result final trace fst snd count_txrx filter length
         InputPacket set_InputPacket].
    split; [reflexivity|]. split; [reflexivity|]. split; [exact Ec | lia].
  - rewrite !bind_result, !bind_final, !bind_trace.
    change (trace (msleep 1 ?w)) with [EvMsleep 1]. cbn [app].
    change (count_txrx (EvMsleep 1 :: ?t)) with (count_txrx t).
    change (final (msleep 1 ?w)) with w.
    match goal with
    | |- context [getReport_from tries id len buffer ?w] => specialize (IH w)
    end.
    cbv zeta in IH.
    destruct (result (getReport_from tries id len buffer _)) as [[buf n]|];
      [|lia].
    destruct IH as [Hn [Hb [Hc Ht]]]. repeat split; try assumption; lia.
Qed.

(** What [getReport] delivers, with the receive buffer taken as long as
    the transfer. *)
Lemma getReport_summary (id : Z) (buffer : bytes) (z : @zephyr_data Dev) :
  let r := getReport id buffer z in
  match result r with
  | Some (buf, n) =>
      0 <= n <= 4095
      /\ getReport_check id n (InputPacket (final r)) = true
      /\ (forall a,
            load8 buf a
            = if (0 <=? a) && (a <? n)
              then load8 (InputPacket (final r)) (4 + a)
              else load8 buffer a)
      /\ (2 <= count_txrx (trace r) <= 8)%nat
  | None => (1 <= count_txrx (trace r) <= 8)%nat
  end.
Proof.
  intros r. subst r. unfold getReport.
  rewrite bind_result, bind_final, bind_trace, count_txrx_app.
  pose proof (getReportInfo_from_outcome 4 id z) as Hinfo. cbv zeta in Hinfo.
  fold (getReportInfo id) in Hinfo.
  destruct (result (getReportInfo id z)) as [[e l]|].
  - destruct Hinfo as [He [Hl Hc]].
    destruct (e =? 0); cbn [negb].
    + pose proof (getReport_from_outcome 4 id l buffer
                    (final (getReportInfo id z))) as Hrep.
      cbv zeta in Hrep.
      destruct (result (getReport_from 4 id l buffer _)) as [[buf n]|];
        [|lia].
      destruct Hrep as [-> [-> [Hck Ht]]].
      split; [exact Hl|]. split; [exact Hck|]. split; [|lia].
      intros a. rewrite load8_memcpy, Z.sub_0_r, Z.add_0_l. reflexivity.
    + cbn [ret result trace fst snd count_txrx filter length]. lia.
  - cbn [ret result trace fst snd count_txrx filter length]. lia.
Qed.

(** X9. On any transport [getReport] makes at most eight transfers, and
    a length it reports is at most 4095.  When it succeeds with a length
    of at most 1018, so that the [len + 6] bytes of the transfer fit the
    1024 bytes of the receive buffer, that buffer passed the sync-byte
    and checksum test for the length, and the caller's buffer holds bytes
    4 onwards of the receive buffer in its first [outLen] bytes and is
    unchanged beyond them. *)
Theorem getReport_outcome (id : Z) (buffer : bytes) (z : @zephyr_data Dev) :
  let r := getReport id buffer z in
  match result r with
  | Some (buf, n) =>
      0 <= n <= 4095
      /\ (2 <= count_txrx (trace r) <= 8)%nat
      /\ (n <= 1018 ->
          getReport_check id n (InputPacket (final r)) = true
          /\ forall a,
               load8 buf a
               = if (0 <=? a) && (a <? n)
                 then load8 (InputPacket (final r)) (4 + a)
                 else load8 buffer a)
  | None => (1 <= count_txrx (trace r) <= 8)%nat
  end.
Proof.
  intros r. subst r.
  pose proof (getReport_summary id buffer z) as Hs. cbv zeta in Hs.
  destruct (result (getReport id buffer z)) as [[buf n]|]; [|exact Hs].
  destruct Hs as [Hn [Hck [Hcopy Hc]]].
  split; [exact Hn|]. split; [exact Hc|].
  intros _. split; [exact Hck | exact Hcopy].
Qed.

End QueriesMore.

Lemma getReport_outcome_witness :
  match
    result (getReport (T:=scripted) MT_INFO_SENSORDIM uninit
              (probed [report_info_response MT_INFO_SENSORDIM 8;
                       report_response MT_INFO_SENSORDIM
                         (le32_bytes 4000 ++ le32_bytes 3850)]))
  with
  | Some (buf, n) => n = 8 /\ load8 buf 0 = 160 /\ load8 buf 8 = 0
  | None => False
  end.
Proof.
  pose proof (getReport_outcome (T:=scripted) MT_INFO_SENSORDIM uninit
                (probed [report_info_response MT_INFO_SENSORDIM 8;
                         report_response MT_INFO_SENSORDIM
                           (le32_bytes 4000 ++ le32_bytes 3850)])) as Hx.
  cbv zeta in Hx.
  destruct (result (getReport (T:=scripted) MT_INFO_SENSORDIM uninit _))
    as [[buf n]|] eqn:E; [|vm_compute in E; discriminate E].
  assert (Hn : n = 8).
  { apply (f_equal (fun o : option (bytes * Z) =>
                      match o with Some (_, m) => m | None => 0 end)) in E.
    vm_compute in E. symmetry. exact E. }
  destruct Hx as [_ [_ Hcopy]].
  destruct (Hcopy ltac:(lia)) as [_ Hbytes].
  split; [exact Hn|].
  rewrite !Hbytes. subst n. split; vm_compute; reflexivity.
Defined.

Section UploadMore.
Context {Dev : Type} {T : Transport Dev}.

Lemma low16_split (c : Z) :
  c mod 65536 = 256 * Z.land (Z.shiftr c 8) 255 + Z.land c 255
  /\ 0 <= Z.land (Z.shiftr c 8) 255 < 256
  /\ 0 <= Z.land c 255 < 256.
Proof.
  rewrite !land_255, Z.shiftr_div_pow2 by lia. change (2 ^ 8) with 256.
  change 65536 with (256 * 256).
  rewrite Z.rem_mul_r by lia.
  pose proof (Z.mod_pos_bound c 256 ltac:(lia)).
  pose proof (Z.mod_pos_bound (c / 256) 256 ltac:(lia)).
  lia.
Qed.

(** X10. The verification of an upload makes one transfer, of the bytes
    5 0 0 6, and accepts exactly when the answer starts with D0 00 and its
    next two bytes are, big-endian, the low 16 bits of the checksum: the
    bits of the checksum above the sixteenth play no part. *)
Theorem verifyUpload_accepts (checksum : Z) (z : @zephyr_data Dev) :
  let rx := snd (spi_txrx (spi_dev z) NORMAL_SPEED [5; 0; 0; 6]) in
  let r := verifyUpload checksum z in
  result r
  = (load8 rx 0 =? 208) && (load8 rx 1 =? 0)
    && (256 * load8 rx 2 + load8 rx 3 =? checksum mod 65536)
  /\ trace r = [EvTxRx NORMAL_SPEED [5; 0; 0; 6]]
  /\ final r = set_spi_dev (fst (spi_txrx (spi_dev z) NORMAL_SPEED [5; 0; 0; 6])) z.
Proof.
  cbv zeta. unfold verifyUpload.
  rewrite bind_result, bind_trace, bind_final.
  unfold mt_txrx. change (if 4 >? 4 then 4 else 4) with 4.
  change (sub_bytes (of_list [5; 0; 0; 6]) 0 4) with [5; 0; 0; 6].
  destruct (spi_txrx (spi_dev z) NORMAL_SPEED [5; 0; 0; 6]) as [d rx].
  cbn [result final trace fst snd].
  rewrite !load8_memcpy.
  cbn [Z.leb Z.ltb Z.compare Pos.compare Pos.compare_cont andb Z.add Z.sub
       Z.opp Pos.add Z.pos_sub].
  destruct (low16_split checksum) as [Hc [Hhi Hlo]].
  pose proof (load8_range rx 2) as H2. pose proof (load8_range rx 3) as H3.
  rewrite Hc.
  set (hi := Z.land (Z.shiftr checksum 8) 255) in *.
  set (lo := Z.land checksum 255) in *.
  destruct (load8 rx 0 =? 208); cbn [negb orb andb];
    [|repeat split].
  destruct (load8 rx 1 =? 0); cbn [negb orb andb]; [|repeat split].
  destruct (Z.eqb_spec (load8 rx 2) hi) as [E2|E2];
    destruct (Z.eqb_spec (load8 rx 3) lo) as [E3|E3];
    destruct (Z.eqb_spec (256 * load8 rx 2 + load8 rx 3) (256 * hi + lo))
      as [E|E];
    cbn [negb]; repeat split; try reflexivity; exfalso; lia.
Qed.

End UploadMore.

(** ** The bootloader data packet *)

Lemma sum_list_zero (f : nat -> Z) (l : list nat) :
  (forall k, In k l -> f k = 0) -> fold_left Z.add (map f l) 0 = 0.
Proof.
  induction l as [|k l IH]; intros Hz; [reflexivity|].
  cbn [map fold_left]. rewrite (Hz k (or_introl eq_refl)).
  apply IH. intros j Hj. apply Hz. right. exact Hj.
Qed.

Lemma sum_bytes_zero (m : bytes) (lo hi : Z) :
  (forall a, lo <= a < hi -> load8 m a = 0) -> sum_bytes m lo hi = 0.
Proof.
  intros Hz. unfold sum_bytes, sub_bytes. apply sum_list_zero.
  intros k Hk. apply in_seq in Hk. apply Hz. lia.
Qed.

Lemma sum_bytes_shift (m m' : bytes) (a b n : Z) :
  (forall k, 0 <= k < n -> load8 m (a + k) = load8 m' (b + k)) ->
  sum_bytes m a (a + n) = sum_bytes m' b (b + n).
Proof.
  intros Hsame. unfold sum_bytes, sub_bytes.
  replace (a + n - a) with n by lia. replace (b + n - b) with n by lia.
  f_equal. apply map_ext_in. intros k Hk. apply in_seq in Hk.
  apply Hsame. lia.
Qed.

Lemma map_seq_from {A : Type} (n : nat) :
  forall (f : nat -> A) (s : nat),
    map f (seq s n) = map (fun k => f (s + k)%nat) (seq 0 n).
Proof.
  induction n as [|n IH]; intros f s; [reflexivity|].
  cbn [seq map]. rewrite Nat.add_0_r. f_equal.
  rewrite (IH f (S s)), (IH (fun k => f (s + k)%nat) 1%nat).
  apply map_ext. intros k. f_equal. lia.
Qed.

Lemma sum_bytes_split (m : bytes) (lo mid hi : Z) :
  lo <= mid <= hi ->
  sum_bytes m lo hi = sum_bytes m lo mid + sum_bytes m mid hi.
Proof.
  intros Hord. unfold sum_bytes, sub_bytes.
  replace (Z.to_nat (hi - lo))
    with (Z.to_nat (mid - lo) + Z.to_nat (hi - mid))%nat by lia.
  rewrite seq_app, map_app, fold_left_app.
  rewrite (fold_add_acc _ (fold_left _ _ _)). f_equal.
  rewrite map_seq_from. f_equal.
  apply map_ext. intros k. f_equal. lia.
Qed.

Lemma packet_layout (output : bytes) (destAddress : Z) (firmware : bytes)
  (data n : Z) :
  0 <= n <= 1016 ->
  let p := makeBootloaderDataPacket output destAddress firmware data n in
  snd p = n
  /\ (forall k, 0 <= k < n ->
        load8 (fst (fst p)) (6 + k) = load8 firmware (data + k))
  /\ (forall a, 6 + n <= a < 1022 -> load8 (fst (fst p)) a = 0)
  /\ snd (fst p) = sum_bytes (fst (fst p)) 0 1022
  /\ (forall a, a < 0 \/ 1024 <= a -> load8 (fst (fst p)) a = load8 output a).
Proof.
  intros Hn. unfold makeBootloaderDataPacket.
  replace (n >? 1016) with false
    by (symmetry; rewrite Z.gtb_ltb; apply Z.ltb_ge; lia).
  cbn [fst snd].
  match goal with
  | |- context [sum_bytes firmware data (data + n) + sum_bytes ?b 0 6] =>
      set (body := b)
  end.
  set (checksum := sum_bytes firmware data (data + n) + sum_bytes body 0 6).
  set (pad := memset body (n + 6) 0 (1016 - n)).
  assert (Hbody : forall k, 0 <= k < n ->
                            load8 pad (6 + k) = load8 firmware (data + k)).
  { intros k Hk. unfold pad, body. rewrite load8_memset, load8_memcpy.
    replace ((n + 6 <=? 6 + k) && (6 + k <? n + 6 + (1016 - n))) with false
      by (symmetry; apply andb_false_iff; left; apply Z.leb_gt; lia).
    replace ((6 <=? 6 + k) && (6 + k <? 6 + n)) with true
      by (symmetry; apply andb_true_iff; split;
          [apply Z.leb_le | apply Z.ltb_lt]; lia).
    f_equal. lia. }
  assert (Hpad : forall a, 6 + n <= a < 1022 -> load8 pad a = 0).
  { intros a Ha. unfold pad. rewrite load8_memset.
    replace ((n + 6 <=? a) && (a <? n + 6 + (1016 - n))) with true
      by (symmetry; apply andb_true_iff; split;
          [apply Z.leb_le | apply Z.ltb_lt]; lia).
    reflexivity. }
  assert (Hlow : forall a, a < 1022 ->
                   load8 (store8 (store8 pad 1022
                                    (Z.land (Z.shiftr checksum 8) 255))
                            1023 (Z.land checksum 255)) a
                   = load8 pad a).
  { intros a Ha. rewrite !load8_store8.
    replace (a =? 1023) with false by (symmetry; apply Z.eqb_neq; lia).
    replace (a =? 1022) with false by (symmetry; apply Z.eqb_neq; lia).
    reflexivity. }
  split; [reflexivity|].
  split; [intros k Hk; rewrite Hlow by lia; apply Hbody, Hk|].
  split; [intros a Ha; rewrite Hlow by lia; apply Hpad, Ha|].
  split.
  - rewrite (sum_bytes_ext _ pad 0 1022) by (intros a Ha; apply Hlow; lia).
    rewrite (sum_bytes_split pad 0 6 1022) by lia.
    rewrite (sum_bytes_split pad 6 (6 + n) 1022) by lia.
    rewrite (sum_bytes_zero pad (6 + n) 1022) by exact Hpad.
    rewrite (sum_bytes_shift pad firmware 6 data n) by exact Hbody.
    rewrite (sum_bytes_ext pad body 0 6).
    + unfold checksum. lia.
    + intros a Ha. unfold pad. rewrite load8_memset.
      replace (n + 6 <=? a) with false by (symmetry; apply Z.leb_gt; lia).
      reflexivity.
  - intros a Ha. rewrite !load8_store8.
    replace (a =? 1023) with false by (symmetry; apply Z.eqb_neq; lia).
    replace (a =? 1022) with false by (symmetry; apply Z.eqb_neq; lia).
    unfold pad, body.
    rewrite load8_memset, load8_memcpy, !load8_store8.
    replace ((n + 6 <=? a) && (a <? n + 6 + (1016 - n))) with false
      by (symmetry; apply andb_false_iff;
          destruct Ha; [left; apply Z.leb_gt | right; apply Z.ltb_ge]; lia).
    replace ((6 <=? a) && (a <? 6 + n)) with false
      by (symmetry; apply andb_false_iff;
          destruct Ha; [left; apply Z.leb_gt | right; apply Z.ltb_ge]; lia).
    repeat match goal with
           | |- context [a =? ?c] =>
               replace (a =? c) with false
                 by (symmetry; apply Z.eqb_neq; lia)
           end.
    reflexivity.
Qed.

Lemma packet_clamp (output : bytes) (destAddress : Z) (firmware : bytes)
  (data dataLen : Z) :
  makeBootloaderDataPacket output destAddress firmware data dataLen
  = makeBootloaderDataPacket output destAddress firmware data
      (Z.min dataLen 1016).
Proof.
  unfold makeBootloaderDataPacket.
  replace (Z.min dataLen 1016 >? 1016) with false
    by (symmetry; rewrite Z.gtb_ltb; apply Z.ltb_ge; lia).
  destruct (dataLen >? 1016) eqn:E; rewrite Z.gtb_ltb in E.
  - apply Z.ltb_lt in E. rewrite Z.min_r by lia. reflexivity.
  - apply Z.ltb_ge in E. rewrite Z.min_l by lia. reflexivity.
Qed.

(** X11. For a non-negative length [makeBootloaderDataPacket] returns the
    length clamped to 1016 and builds a packet that is consistent with
    itself: that many bytes of the image from byte 6 on, zeros up to byte
    1021, a checksum that is the sum of bytes 0 to 1021 of the packet, and
    the low 16 bits of the checksum, big-endian, in bytes 1022 and 1023.
    It writes nothing outside the 1024 bytes of the packet. *)
Theorem makeBootloaderDataPacket_packet (output : bytes) (destAddress : Z)
  (firmware : bytes) (data dataLen : Z) :
  0 <= dataLen ->
  let p := makeBootloaderDataPacket output destAddress firmware data dataLen in
  snd p = Z.min dataLen 1016
  /\ (forall k, 0 <= k < snd p ->
        load8 (fst (fst p)) (6 + k) = load8 firmware (data + k))
  /\ (forall a, 6 + snd p <= a < 1022 -> load8 (fst (fst p)) a = 0)
  /\ snd (fst p) = sum_bytes (fst (fst p)) 0 1022
  /\ 256 * load8 (fst (fst p)) 1022 + load8 (fst (fst p)) 1023
     = snd (fst p) mod 65536
  /\ (forall a, a < 0 \/ 1024 <= a -> load8 (fst (fst p)) a = load8 output a).
Proof.
  intros Hlen p. subst p. rewrite packet_clamp.
  destruct (packet_layout output destAddress firmware data
              (Z.min dataLen 1016) ltac:(lia))
    as [Hn [Hbody [Hpad [Hsum Hout]]]].
  destruct (packet_checksum_bytes output destAddress firmware data
              (Z.min dataLen 1016)) as [Hhi Hlo].
  rewrite Hn in *.
  split; [reflexivity|]. split; [exact Hbody|]. split; [exact Hpad|].
  split; [exact Hsum|]. split; [|exact Hout].
  rewrite Hhi, Hlo.
  destruct (low16_split
              (snd (fst (makeBootloaderDataPacket output destAddress firmware
                           data (Z.min dataLen 1016))))) as [Hc _].
  symmetry. exact Hc.
Qed.

Lemma makeBootloaderDataPacket_packet_witness :
  snd (makeBootloaderDataPacket uninit 1073741824 (of_list [7; 8; 9]) 0 3)
  = Z.min 3 1016.
Proof.
  destruct (makeBootloaderDataPacket_packet uninit 1073741824
              (of_list [7; 8; 9]) 0 3) as [Hn _].
  - lia.
  - exact Hn.
Defined.

(** ** The chunk plan in closed form *)

Lemma aspeed_chunks_closed (fuel : nat) :
  forall data left : Z,
    (Z.to_nat left <= fuel)%nat ->
    0 <= data -> data + left <= 2147483647 ->
    aspeed_chunks fuel (1073741824 + data) data left
    = map (fun k => (1073741824 + data + 1016 * Z.of_nat k,
                     data + 1016 * Z.of_nat k,
                     Z.min 1016 (left - 1016 * Z.of_nat k)))
        (seq 0 (Z.to_nat ((left + 1015) / 1016))).
Proof.
  induction fuel as [|fuel IH]; intros data left Hfuel Hd Hbound;
    cbn [aspeed_chunks].
  - destruct (left >? 0) eqn:E; rewrite Z.gtb_ltb in E;
      [apply Z.ltb_lt in E; lia|].
    apply Z.ltb_ge in E.
    replace (Z.to_nat ((left + 1015) / 1016)) with 0%nat; [reflexivity|].
    assert ((left + 1015) / 1016 < 1) by (apply Z.div_lt_upper_bound; lia).
    lia.
  - destruct (left >? 0) eqn:E; rewrite Z.gtb_ltb in E.
    2: { apply Z.ltb_ge in E.
         replace (Z.to_nat ((left + 1015) / 1016)) with 0%nat; [reflexivity|].
         assert ((left + 1015) / 1016 < 1)
           by (apply Z.div_lt_upper_bound; lia).
         lia. }
    apply Z.ltb_lt in E.
    set (toUpload := if left >? 1016 then 1016 else left).
    assert (Hup : toUpload = Z.min 1016 left /\ 0 < toUpload <= 1016).
    { unfold toUpload. destruct (left >? 1016) eqn:E'; rewrite Z.gtb_ltb in E';
        [apply Z.ltb_lt in E' | apply Z.ltb_ge in E']; lia. }
    destruct Hup as [Hmin Hup].
    replace (u32 (1073741824 + data + toUpload))
      with (1073741824 + (data + toUpload))
      by (unfold u32; rewrite Z.mod_small; lia).
    rewrite (IH (data + toUpload) (left - toUpload)) by lia.
    assert (Hq : (left + 1015) / 1016
                 = 1 + (left - toUpload + 1015) / 1016).
    { destruct (Z_lt_le_dec 1016 left) as [Hbig|Hsmall].
      - replace toUpload with 1016 by lia.
        replace (left + 1015) with (1 * 1016 + (left - 1016 + 1015)) by lia.
        rewrite Z.div_add_l by lia. reflexivity.
      - replace toUpload with left by lia.
        replace (left - left + 1015) with 1015 by lia.
        change (1015 / 1016) with 0.
        symmetry. apply Z.div_unique with (r := left - 1); lia. }
    rewrite Hq.
    assert (Hnn : 0 <= (left - toUpload + 1015) / 1016)
      by (apply Z.div_pos; lia).
    replace (Z.to_nat (1 + (left - toUpload + 1015) / 1016))
      with (S (Z.to_nat ((left - toUpload + 1015) / 1016))) by lia.
    cbn [seq map]. f_equal.
    + f_equal; [f_equal; lia | lia].
    + rewrite (map_seq_from _ _ 1%nat). apply map_ext_in. intros k Hk.
      apply in_seq in Hk.
      destruct (Z_lt_le_dec 1016 left) as [Hbig|Hsmall].
      * replace toUpload with 1016 by lia.
        f_equal; [f_equal; lia | f_equal; lia].
      * exfalso. replace toUpload with left in Hk by lia.
        replace (left - left + 1015) with 1015 in Hk by lia.
        change (Z.to_nat (1015 / 1016)) with 0%nat in Hk. lia.
Qed.

Lemma aspeed_chunks_total (fuel : nat) :
  forall address data left : Z,
    (Z.to_nat left <= fuel)%nat ->
    fold_right Z.add 0 (map snd (aspeed_chunks fuel address data left))
    = Z.max 0 left.
Proof.
  induction fuel as [|fuel IH]; intros address data left Hfuel;
    cbn [aspeed_chunks].
  - destruct (left >? 0) eqn:E; rewrite Z.gtb_ltb in E;
      [apply Z.ltb_lt in E | apply Z.ltb_ge in E]; cbn [map fold_right]; lia.
  - destruct (left >? 0) eqn:E; rewrite Z.gtb_ltb in E;
      [apply Z.ltb_lt in E | apply Z.ltb_ge in E; cbn [map fold_right]; lia].
    cbn [map fold_right snd]. rewrite IH.
    + destruct (left >? 1016) eqn:E'; rewrite Z.gtb_ltb in E';
        [apply Z.ltb_lt in E' | apply Z.ltb_ge in E']; lia.
    + destruct (left >? 1016); lia.
Qed.

(** X12. The first-stage loader's chunk plan in closed form, for an image
    length that fits an [int]: chunk number k goes to address
    [0x40000000 + 1016 k], starts at offset [1016 k] of the image and is
    [min(1016, len - 1016 k)] bytes long; there are [(len + 1015) / 1016]
    chunks, none for an empty image, and their lengths add up to the
    length of the image, so that every byte of it is sent exactly once. *)
Theorem aspeed_chunks_cover (len : Z) :
  len <= 2147483647 ->
  let chunks := aspeed_chunks (Z.to_nat len) 1073741824 0 len in
  chunks
  = map (fun k => (1073741824 + 1016 * Z.of_nat k,
                   1016 * Z.of_nat k,
                   Z.min 1016 (len - 1016 * Z.of_nat k)))
      (seq 0 (Z.to_nat ((len + 1015) / 1016)))
  /\ fold_right Z.add 0 (map snd chunks) = Z.max 0 len.
Proof.
  intros Hlen chunks. subst chunks. split.
  - change 1073741824 with (1073741824 + 0) at 1.
    rewrite aspeed_chunks_closed by lia.
    apply map_ext. intros k. reflexivity.
  - apply aspeed_chunks_total. lia.
Qed.

Lemma aspeed_chunks_cover_witness :
  fold_right Z.add 0
    (map snd (aspeed_chunks (Z.to_nat 3058) 1073741824 0 3058))
  = Z.max 0 3058.
Proof.
  destruct (aspeed_chunks_cover 3058) as [_ Htotal].
  - lia.
  - exact Htotal.
Defined.

(** ** The loaders on an arbitrary transport *)

Section LoadersMore.
Context {Dev : Type} {T : Transport Dev}.

Lemma count_execute_app (t u : list io_event) :
  count_execute (t ++ u) = (count_execute t + count_execute u)%nat.
Proof. unfold count_execute. rewrite filter_app, length_app. reflexivity. Qed.

Lemma count_tx_app (t u : list io_event) :
  count_tx (t ++ u) = (count_tx t + count_tx u)%nat.
Proof. unfold count_tx. rewrite filter_app, length_app. reflexivity. Qed.

Lemma verifyUpload_trace (checksum : Z) (z : @zephyr_data Dev) :
  trace (verifyUpload checksum z) = [EvTxRx NORMAL_SPEED [5; 0; 0; 6]].
Proof.
  unfold verifyUpload. rewrite bind_trace, mt_txrx_trace.
  change (sub_bytes (of_list [5; 0; 0; 6]) 0 (if 4 >? 4 then 4 else 4))
    with [5; 0; 0; 6].
  match goal with
  | |- context [if ?c then _ else _] => destruct c; [reflexivity|]
  end.
  match goal with
  | |- context [if ?c then _ else _] => destruct c; [reflexivity|]
  end.
  match goal with
  | |- context [if ?c then _ else _] => destruct c; reflexivity
  end.
Qed.

Lemma uploadChunk_from_quiet (tries : nat) (checksum : Z) :
  forall z : @zephyr_data Dev,
    let r := uploadChunk_from tries checksum z in
    count_execute (trace r) = 0%nat
    /\ (count_tx (trace r) <= tries)%nat
    /\ (result r = false -> count_tx (trace r) = tries).
Proof.
  induction tries as [|tries IH]; intros z; cbv zeta.
  - repeat split. cbn. lia.
  - cbn [uploadChunk_from].
    repeat first [rewrite bind_result | rewrite bind_final | rewrite bind_trace].
    change (trace (get ?w)) with (@nil io_event).
    change (result (get ?w)) with w.
    change (final (get ?w)) with w.
    change (trace (mt_tx ?s ?b ?n ?w)) with [EvTx s (sub_bytes b 0 n)].
    change (trace (udelay ?n ?w)) with [EvUdelay n].
    rewrite verifyUpload_trace. cbn [app].
    match goal with
    | |- context [verifyUpload checksum ?w] => set (z1 := w)
    end.
    destruct (result (verifyUpload checksum z1)).
    + cbn. repeat split; [lia | discriminate].
    + specialize (IH (final (verifyUpload checksum z1))). cbv zeta in IH.
      destruct IH as [He [Hc Hf]].
      change (?a :: ?b :: ?c :: ?t) with ([a; b; c] ++ t).
      rewrite count_execute_app, count_tx_app, He.
      change (count_tx [_; _; _]) with 1%nat.
      split; [reflexivity|]. split; [lia|]. intros Hr. rewrite (Hf Hr).
      reflexivity.
Qed.

Lemma sendExecutePacket_trace (z : @zephyr_data Dev) :
  trace (sendExecutePacket z) = [EvTxRx NORMAL_SPEED [196; 0; 0; 196]].
Proof. apply sendExecutePacket_run. Qed.

Lemma loadASpeedFirmware_loop_execute (fuel : nat) (firmware : bytes) :
  forall (address data left : Z) (z : @zephyr_data Dev),
    let r := loadASpeedFirmware_loop fuel firmware address data left z in
    (if result r then
       exists t', trace r = t' ++ [EvTxRx NORMAL_SPEED [196; 0; 0; 196]]
                  /\ count_execute t' = 0%nat
     else count_execute (trace r) = 0%nat)
    /\ (count_tx (trace r)
        <= 5 * length (aspeed_chunks fuel address data left))%nat.
Proof.
  induction fuel as [|fuel IH]; intros address data left z; cbv zeta;
    cbn [loadASpeedFirmware_loop aspeed_chunks].
  - destruct (left >? 0); [split; [reflexivity | cbn; lia]|].
    rewrite bind_result, bind_trace, sendExecutePacket_trace.
    cbn [ret result trace fst snd app]. split; [|cbn; lia].
    exists []. split; reflexivity.
  - destruct (left >? 0).
    2: { rewrite bind_result, bind_trace, sendExecutePacket_trace.
         cbn [ret result trace fst snd app]. split; [|cbn; lia].
         exists []. split; reflexivity. }
    set (toUpload := if left >? 1016 then 1016 else left).
    rewrite bind_result, bind_trace.
    change (trace (get z)) with (@nil io_event).
    change (result (get z)) with z. change (final (get z)) with z.
    destruct (makeBootloaderDataPacket (OutputPacket z) address firmware data
                toUpload) as [[o checksum] n].
    repeat first [rewrite bind_result | rewrite bind_final | rewrite bind_trace].
    change (trace (modify ?f ?w)) with (@nil io_event).
    change (final (modify ?f ?w)) with (f w).
    cbn [app].
    pose proof (uploadChunk_from_quiet 5 checksum (set_OutputPacket o z))
      as Hup. cbv zeta in Hup. destruct Hup as [He [Hc _]].
    set (r1 := uploadChunk_from 5 checksum (set_OutputPacket o z)) in *.
    rewrite count_tx_app. cbn [length].
    destruct (result r1); cbn [negb].
    + specialize (IH (u32 (address + toUpload)) (data + toUpload)
                    (left - toUpload) (final r1)).
      cbv zeta in IH. destruct IH as [IHe IHc].
      split; [|lia].
      destruct (result (loadASpeedFirmware_loop fuel firmware _ _ _ _)).
      * destruct IHe as [t' [Ht He']]. exists (trace r1 ++ t').
        rewrite Ht, app_assoc, count_execute_app, He, He'.
        split; reflexivity.
      * rewrite count_execute_app, He, IHe. reflexivity.
    + cbn [ret result trace fst snd]. rewrite app_nil_r. split; [exact He|].
      change (count_tx []) with 0%nat. lia.
Qed.

(** X13. On any transport the first-stage loader sends the execute
    command exactly when it reports success, then exactly once and as its
    last transfer; a load that is given up never starts the firmware.  It
    transmits at most five packets per chunk of the plan. *)
Theorem loadASpeedFirmware_execute (firmware : bytes) (len : Z)
  (z : @zephyr_data Dev) :
  let r := loadASpeedFirmware firmware len z in
  (if result r then
     exists t', trace r = t' ++ [EvTxRx NORMAL_SPEED [196; 0; 0; 196]]
                /\ count_execute t' = 0%nat
   else count_execute (trace r) = 0%nat)
  /\ (count_tx (trace r)
      <= 5 * length (aspeed_chunks (Z.to_nat len) 1073741824 0 len))%nat.
Proof. apply loadASpeedFirmware_loop_execute. Qed.

Lemma uploadMain_from_quiet (tries : nat) (firmware : bytes)
  (len checksum : Z) :
  forall z : @zephyr_data Dev,
    let r := uploadMain_from tries firmware len checksum z in
    count_execute (trace r) = 0%nat
    /\ (count_tx (trace r) <= tries)%nat
    /\ (result r = false -> count_tx (trace r) = tries)
    /\ (result r = true -> (1 <= count_tx (trace r))%nat).
Proof.
  induction tries as [|tries IH]; intros z; cbv zeta.
  - repeat split; [cbn; lia | discriminate].
  - cbn [uploadMain_from].
    repeat first [rewrite bind_result | rewrite bind_final | rewrite bind_trace].
    change (trace (mt_tx ?s ?b ?n ?w)) with [EvTx s (sub_bytes b 0 n)].
    rewrite verifyUpload_trace.
    assert (Hblank : forall w : @zephyr_data Dev,
               trace (sendBlankDataPacket w)
               = [EvTxRx NORMAL_SPEED [194; 0; 0; 0]]).
    { intros w. unfold sendBlankDataPacket.
      rewrite bind_trace, mt_txrx_trace. reflexivity. }
    rewrite Hblank. cbn [app].
    match goal with
    | |- context [verifyUpload checksum ?w] => set (z1 := w)
    end.
    destruct (result (verifyUpload checksum z1)).
    + cbn. repeat split; [lia | discriminate | lia].
    + specialize (IH (final (verifyUpload checksum z1))). cbv zeta in IH.
      destruct IH as [He [Hc [Hf _]]].
      change (?a :: ?b :: ?c :: ?t) with ([a; b; c] ++ t).
      rewrite count_execute_app, count_tx_app, He.
      change (count_tx [_; _; _]) with 1%nat.
      split; [reflexivity|]. split; [lia|].
      split; [intros Hr; rewrite (Hf Hr); reflexivity | lia].
Qed.

(** X14. On any transport the main loader sends the execute command
    exactly when it reports success, then exactly once and as its last
    transfer.  It transmits the image at most five times, and exactly
    five times before it gives up. *)
Theorem loadMainFirmware_execute (firmware : bytes) (len : Z)
  (z : @zephyr_data Dev) :
  let r := loadMainFirmware firmware len z in
  if result r then
    exists t', trace r = t' ++ [EvTxRx NORMAL_SPEED [196; 0; 0; 196]]
               /\ count_execute t' = 0%nat
               /\ (1 <= count_tx t' <= 5)%nat
  else count_execute (trace r) = 0%nat /\ count_tx (trace r) = 5%nat.
Proof.
  cbv zeta. unfold loadMainFirmware.
  rewrite bind_result, bind_trace.
  pose proof (uploadMain_from_quiet 5 firmware len (sum_bytes firmware 0 len) z)
    as Hup. cbv zeta in Hup. destruct Hup as [He [Hc [Hf Hpos]]].
  set (r1 := uploadMain_from 5 firmware len (sum_bytes firmware 0 len) z) in *.
  destruct (result r1) eqn:Er; cbn [negb].
  - rewrite bind_result, bind_trace, sendExecutePacket_trace.
    cbn [ret result trace fst snd app].
    exists (trace r1). split; [reflexivity|]. split; [exact He|].
    split; [apply Hpos; reflexivity | exact Hc].
  - cbn [ret result trace fst snd]. rewrite app_nil_r.
    split; [exact He | apply Hf; reflexivity].
Qed.

End LoadersMore.

(** ** Bring-up on an arbitrary transport *)

Ltac keeps :=
  repeat first
    [ apply preserves_ret
    | apply preserves_get
    | apply preserves_emit
    | apply preserves_modify; intros; reflexivity
    | apply preserves_mt_txrx; intros; reflexivity
    | apply preserves_mt_tx; intros; reflexivity
    | assumption
    | apply preserves_bind; [|intros ?]
    | match goal with
      | |- preserves _ (if ?c then _ else _) => destruct c
      | |- preserves _ (match ?r with Some _ => _ | None => _ end) =>
          destruct r as [[? ?]|]
      end ].

Section SetupMore.
Context {Dev : Type} {T : Transport Dev}.

Lemma verifyUpload_status (checksum : Z) :
  preserves (@status Dev) (verifyUpload checksum).
Proof. unfold verifyUpload. keeps. Qed.

Lemma uploadChunk_from_status (tries : nat) (checksum : Z) :
  preserves (@status Dev) (uploadChunk_from tries checksum).
Proof.
  induction tries as [|tries IH]; cbn [uploadChunk_from]; [keeps|].
  pose proof (verifyUpload_status checksum). unfold udelay. keeps.
Qed.

Lemma loadASpeedFirmware_loop_status (fuel : nat) (firmware : bytes) :
  forall address data left,
    preserves (@status Dev)
      (loadASpeedFirmware_loop fuel firmware address data left).
Proof.
  induction fuel as [|fuel IH]; intros address data left;
    cbn [loadASpeedFirmware_loop].
  - unfold sendExecutePacket. keeps.
  - destruct (left >? 0); [|unfold sendExecutePacket; keeps].
    apply preserves_bind; [keeps | intros z].
    destruct (makeBootloaderDataPacket _ _ _ _ _) as [[o checksum] n].
    pose proof (uploadChunk_from_status 5 checksum).
    apply preserves_bind; [keeps | intros _].
    apply preserves_bind; [assumption | intros ok].
    destruct (negb ok); [keeps | apply IH].
Qed.

Lemma uploadMain_from_status (tries : nat) (firmware : bytes)
  (len checksum : Z) :
  preserves (@status Dev) (uploadMain_from tries firmware len checksum).
Proof.
  induction tries as [|tries IH]; cbn [uploadMain_from]; [keeps|].
  pose proof (verifyUpload_status checksum).
  unfold sendBlankDataPacket. keeps.
Qed.

Lemma loadMainFirmware_status (firmware : bytes) (len : Z) :
  preserves (@status Dev) (loadMainFirmware firmware len).
Proof.
  unfold loadMainFirmware. cbv zeta.
  pose proof (uploadMain_from_status 5 firmware len (sum_bytes firmware 0 len)).
  unfold sendExecutePacket. keeps.
Qed.

Lemma determineInterfaceVersion_from_status (tries : nat) :
  preserves (@status Dev) (determineInterfaceVersion_from tries).
Proof.
  induction tries as [|tries IH]; cbn [determineInterfaceVersion_from];
    unfold msleep; keeps.
Qed.

Lemma getReportInfo_from_status (tries : nat) (id : Z) :
  preserves (@status Dev) (getReportInfo_from tries id).
Proof.
  induction tries as [|tries IH]; cbn [getReportInfo_from]; [keeps|].
  cbv zeta. apply preserves_bind; [keeps | intros rx].
  destruct (getReportInfo_check id rx); unfold msleep; keeps.
Qed.

Lemma getReport_from_status (tries : nat) (id len : Z) (buffer : bytes) :
  preserves (@status Dev) (getReport_from tries id len buffer).
Proof.
  induction tries as [|tries IH]; cbn [getReport_from]; unfold msleep; keeps.
Qed.

Lemma getReport_status (id : Z) (buffer : bytes) :
  preserves (@status Dev) (getReport id buffer).
Proof.
  unfold getReport, getReportInfo.
  apply preserves_bind; [apply getReportInfo_from_status | intros [[e l]|]];
    [|keeps].
  destruct (negb (e =? 0)); [keeps | apply getReport_from_status].
Qed.

Lemma status_fields (z z' : @zephyr_data Dev) :
  status z' = status z ->
  firmware_loaded z' = firmware_loaded z /\ irq_count z' = irq_count z
  /\ CurNOP z' = CurNOP z /\ min_pressure z' = min_pressure z.
Proof.
  unfold status. intros E.
  apply pair_equal_spec in E as [E Hp].
  apply pair_equal_spec in E as [E Hn].
  apply pair_equal_spec in E as [Hf Hi].
  repeat split; assumption.
Qed.

Lemma setup_outcome_bind {A} (m : @M Dev A) (k : A -> M Z) :
  preserves status m ->
  (forall a z, setup_outcome z (k a z)) ->
  forall z, setup_outcome z (bind m k z).
Proof.
  intros Hm Hk z. unfold setup_outcome.
  rewrite bind_result, bind_final.
  destruct (status_fields _ _ (Hm z)) as [Hf [Hi [Hn Hp]]].
  destruct (Hk (result (m z)) (final (m z))) as [Hmin Hcase].
  split; [rewrite Hmin; exact Hp|].
  destruct Hcase as [Hok | [Hr [Hf' [Hi' Hn']]]]; [left; exact Hok|].
  right. split; [exact Hr|].
  rewrite Hf', Hi', Hn'. repeat split; assumption.
Qed.

Lemma setup_outcome_fail (z : @zephyr_data Dev) :
  setup_outcome z (ret (-1) z).
Proof. split; [reflexivity|]. right. repeat split. Qed.

Lemma setup_input_outcome (p : platform) (z : @zephyr_data Dev) :
  setup_outcome z (setup_input p z).
Proof.
  unfold setup_input, setup_outcome.
  rewrite bind_result, bind_final.
  change (final (modify ?g z)) with (g z).
  destruct (input_allocate_device_ok p); cbn [negb].
  2: { change (final (ret ?a ?w)) with w. change (result (ret ?a ?w)) with a.
       split; [reflexivity|]. right. repeat split. }
  rewrite bind_result, bind_final.
  set (z1 := final (register_axes (set_input_dev true z))).
  assert (Hz1 : z1 = set_input_dev true z) by reflexivity.
  destruct (input_register_device_ret p =? 0); cbn [negb].
  2: { change (final (ret ?a ?w)) with w. change (result (ret ?a ?w)) with a.
       split; [reflexivity|]. right. rewrite Hz1. repeat split. }
  repeat first [rewrite bind_result | rewrite bind_final].
  repeat change (final (modify ?g ?w)) with (g w).
  set (z2 := set_firmware_loaded true (set_irq_count 0 (set_CurNOP 100 z1))).
  destruct (readFrame_from_state 4 z2) as [d [b E]].
  fold readFrame in E.
  change (final (ret ?a ?w)) with w.
  change (result (ret ?a ?w)) with a.
  split; [rewrite E; reflexivity|].
  left. split; [reflexivity|]. rewrite E.
  split; [reflexivity|]. split; [reflexivity|]. split; [reflexivity|].
  cbn [CurNOP set_CurNOP].
  destruct (result (readFrame z2) =? 1); [right | left]; reflexivity.
Qed.

Lemma setup_reports_outcome (p : platform) (z : @zephyr_data Dev) :
  setup_outcome z (setup_reports p z).
Proof.
  revert z. unfold setup_reports.
  repeat first
    [ apply setup_input_outcome
    | apply setup_outcome_fail
    | apply setup_outcome_bind;
      [first [apply getReport_status | keeps] | intros ? ?]
    | match goal with
      | |- setup_outcome _ (match ?r with Some _ => _ | None => _ end _) =>
          destruct r as [[? ?]|]
      | z : zephyr_data |- _ => revert z
      end ].
Qed.

Lemma zephyr_setup_outcome (p : platform) (fwA : bytes) (lenA : Z)
  (fwM : bytes) (lenM : Z) (z : @zephyr_data Dev) :
  setup_outcome z (zephyr_setup p fwA lenA fwM lenM z).
Proof.
  revert z. unfold zephyr_setup.
  repeat first
    [ apply setup_reports_outcome
    | apply setup_outcome_bind;
      [first [ apply loadASpeedFirmware_loop_status
             | apply loadMainFirmware_status
             | apply determineInterfaceVersion_from_status
             | unfold msleep; keeps ]
      | intros ? ?;
        match goal with
        | z : zephyr_data |- setup_outcome _ ((if negb ?b then _ else _) _) =>
            destruct b; cbn [negb];
            [revert z | apply setup_outcome_fail]
        | z : zephyr_data |- _ => revert z
        end ] ].
Qed.

(** X15. On any transport and platform bring-up returns 0 or -1, begins
    by switching the controller off for 200 ms and on again, and never
    changes the pressure floor.  When it returns 0 the driver is marked
    ready (firmware loaded, interrupt count 0, input device allocated,
    poll token one of the two sentinels) and both sensor dimensions lie
    between 0 and 58835168; when it returns -1 the ready mark, the
    interrupt count and the poll token are what they were before. *)
Theorem zephyr_setup_ready (p : platform) (fwA : bytes) (lenA : Z)
  (fwM : bytes) (lenM : Z) (z : @zephyr_data Dev) :
  let r := zephyr_setup p fwA lenA fwM lenM z in
  min_pressure (final r) = min_pressure z
  /\ (exists t,
        trace r = [EvGpio MT_GPIO_POWER 0; EvMsleep 200;
                   EvGpio MT_GPIO_POWER 1; EvMsleep 15] ++ t)
  /\ (result r = 0
      /\ firmware_loaded (final r) = true
      /\ irq_count (final r) = 0
      /\ input_dev (final r) = true
      /\ (CurNOP (final r) = 100 \/ CurNOP (final r) = 101)
      /\ 0 <= SensorWidth (final r) <= 58835168
      /\ 0 <= SensorHeight (final r) <= 58835168
      \/ result r = -1
         /\ firmware_loaded (final r) = firmware_loaded z
         /\ irq_count (final r) = irq_count z
         /\ CurNOP (final r) = CurNOP z).
Proof.
  intros r. subst r.
  destruct (zephyr_setup_outcome p fwA lenA fwM lenM z) as [Hmin Hcase].
  split; [exact Hmin|]. split.
  - unfold zephyr_setup. do 8 rewrite bind_trace.
    eexists. reflexivity.
  - destruct Hcase as [[Hr [Hf [Hi [Hd Hn]]]] | Hfail]; [left | right; exact Hfail].
    destruct (zephyr_setup_geometry p fwA lenA fwM lenM z Hr)
      as [rb [Hw Hh]].
    rewrite Hw, Hh.
    repeat split; try assumption; apply sensor_dim_range.
Qed.

End SetupMore.

(** ** The frame-data query on an arbitrary transport *)

Section FrameDataMore.
Context {Dev : Type} {T : Transport Dev}.


End FrameDataMore.


(** ** The poll token after bring-up *)

Section QuietFacts.
Context {Dev : Type} {T : Transport Dev}.

Lemma quiet_ret {A} (a : A) : quiet (@ret Dev A a).
Proof. intros z. reflexivity. Qed.

Lemma quiet_bind {A B} (m : @M Dev A) (k : A -> M B) :
  quiet m -> (forall a, quiet (k a)) -> quiet (bind m k).
Proof.
  intros Hm Hk z. rewrite bind_trace, count_sync_app, Hm, Hk. reflexivity.
Qed.

Lemma quiet_get : quiet (@get Dev).
Proof. intros z. reflexivity. Qed.

Lemma quiet_modify (g : @zephyr_data Dev -> zephyr_data) : quiet (modify g).
Proof. intros z. reflexivity. Qed.

Lemma quiet_emit (e : io_event) :
  count_sync [e] = 0%nat -> quiet (@emit Dev e).
Proof. intros He z. exact He. Qed.

Lemma quiet_mt_txrx s o ol i il : quiet (@mt_txrx Dev T s o ol i il).
Proof. intros z. rewrite mt_txrx_trace. reflexivity. Qed.

Lemma quiet_mt_tx s o ol : quiet (@mt_tx Dev T s o ol).
Proof. intros z. reflexivity. Qed.

End QuietFacts.

Ltac hush :=
  repeat first
    [ apply quiet_ret
    | apply quiet_get
    | apply quiet_modify
    | apply quiet_emit; reflexivity
    | apply quiet_mt_txrx
    | apply quiet_mt_tx
    | assumption
    | apply quiet_bind; [|intros ?]
    | match goal with
      | |- quiet (if ?c then _ else _) => destruct c
      | |- quiet (match ?r with Some _ => _ | None => _ end) =>
          destruct r as [[? ?]|]
      end ].

Section TokenMore.
Context {Dev : Type} {T : Transport Dev}.

Lemma verifyUpload_quiet (checksum : Z) : quiet (@verifyUpload Dev T checksum).
Proof. unfold verifyUpload. hush. Qed.

Lemma uploadChunk_from_sync (tries : nat) (checksum : Z) :
  quiet (@uploadChunk_from Dev T tries checksum).
Proof.
  induction tries as [|tries IH]; cbn [uploadChunk_from]; [hush|].
  pose proof (verifyUpload_quiet checksum). unfold udelay. hush.
Qed.

Lemma loadASpeedFirmware_loop_quiet (fuel : nat) (firmware : bytes) :
  forall address data left,
    quiet (@loadASpeedFirmware_loop Dev T fuel firmware address data left).
Proof.
  induction fuel as [|fuel IH]; intros address data left;
    cbn [loadASpeedFirmware_loop].
  - unfold sendExecutePacket. hush.
  - destruct (left >? 0); [|unfold sendExecutePacket; hush].
    apply quiet_bind; [hush | intros z].
    destruct (makeBootloaderDataPacket _ _ _ _ _) as [[o checksum] n].
    pose proof (uploadChunk_from_sync 5 checksum).
    apply quiet_bind; [hush | intros _].
    apply quiet_bind; [assumption | intros ok].
    destruct (negb ok); [hush | apply IH].
Qed.

Lemma uploadMain_from_sync (tries : nat) (firmware : bytes)
  (len checksum : Z) :
  quiet (@uploadMain_from Dev T tries firmware len checksum).
Proof.
  induction tries as [|tries IH]; cbn [uploadMain_from]; [hush|].
  pose proof (verifyUpload_quiet checksum).
  unfold sendBlankDataPacket. hush.
Qed.

Lemma loadMainFirmware_quiet (firmware : bytes) (len : Z) :
  quiet (@loadMainFirmware Dev T firmware len).
Proof.
  unfold loadMainFirmware. cbv zeta.
  pose proof (uploadMain_from_sync 5 firmware len (sum_bytes firmware 0 len)).
  unfold sendExecutePacket. hush.
Qed.

Lemma determineInterfaceVersion_from_quiet (tries : nat) :
  quiet (@determineInterfaceVersion_from Dev T tries).
Proof.
  induction tries as [|tries IH]; cbn [determineInterfaceVersion_from];
    unfold msleep; hush.
Qed.

Lemma getReportInfo_from_quiet (tries : nat) (id : Z) :
  quiet (@getReportInfo_from Dev T tries id).
Proof.
  induction tries as [|tries IH]; cbn [getReportInfo_from]; [hush|].
  cbv zeta. apply quiet_bind; [hush | intros rx].
  destruct (getReportInfo_check id rx); unfold msleep; hush.
Qed.

Lemma getReport_from_quiet (tries : nat) (id len : Z) (buffer : bytes) :
  quiet (@getReport_from Dev T tries id len buffer).
Proof.
  induction tries as [|tries IH]; cbn [getReport_from]; unfold msleep; hush.
Qed.

Lemma getReport_quiet (id : Z) (buffer : bytes) :
  quiet (@getReport Dev T id buffer).
Proof.
  unfold getReport, getReportInfo.
  apply quiet_bind; [apply getReportInfo_from_quiet | intros [[e l]|]];
    [|hush].
  destruct (negb (e =? 0)); [hush | apply getReport_from_quiet].
Qed.

Lemma register_axes_quiet : quiet (@register_axes Dev).
Proof. unfold register_axes. hush. Qed.

Lemma count_sync_inputs (t : list io_event) :
  count_sync (input_events t) = count_sync t.
Proof.
  induction t as [|e t IH]; [reflexivity|].
  destruct e; cbn [input_events filter]; fold (input_events t);
    unfold count_sync in *; cbn [filter length]; rewrite ?IH; reflexivity.
Qed.

Lemma newPacket_buf_sync (F H : Z) (b0 : bytes) (data len : Z) :
  count_sync (snd (newPacket_buf F H b0 data len)) = 1%nat.
Proof.
  rewrite newPacket_buf_groups. cbn [snd].
  destruct (groups_counts F H data b0
              (seq 0 (Z.to_nat (load8 b0 (data + MTFrameHeader.numFingers)))))
    as [_ [_ Hs]].
  destruct (legacy_report_counts H
              (snd (loop_state F H data b0
                      (Z.to_nat (load8 b0 (data + MTFrameHeader.numFingers)))))
              data) as [_ [_ Ls]].
  rewrite !count_sync_app, Hs, Ls. reflexivity.
Qed.

(** A call of [readFrame] calls [input_sync] once when it delivers a
    frame and not at all otherwise. *)
Lemma readFrame_sync (z : @zephyr_data Dev) :
  count_sync (trace (readFrame z))
  = if result (readFrame z) =? 1 then 1%nat else 0%nat.
Proof.
  unfold readFrame.
  destruct (readFrame_from_outcomes (min_pressure z) (SensorHeight z)
              (MaxPacketSize z) 4 z eq_refl eq_refl eq_refl)
    as [_ [_ Ho]].
  rewrite <- count_sync_inputs.
  destruct Ho as [[Hr Hi] | [Hr [l [ip [_ [_ [Hi _]]]]]]].
  - rewrite Hi. destruct Hr as [Hr|Hr]; rewrite Hr; reflexivity.
  - rewrite Hi, Hr. apply newPacket_buf_sync.
Qed.

Lemma setup_token_bind {A} (m : @M Dev A) (k : A -> M Z) :
  quiet m -> (forall a z, setup_token (k a z)) ->
  forall z, setup_token (bind m k z).
Proof.
  intros Hm Hk z. unfold setup_token.
  rewrite bind_result, bind_final, bind_trace, count_sync_app, Hm.
  apply Hk.
Qed.

Lemma setup_token_fail (z : @zephyr_data Dev) : setup_token (ret (-1) z).
Proof. intros Hr. discriminate Hr. Qed.

Lemma setup_input_token (p : platform) (z : @zephyr_data Dev) :
  setup_token (setup_input p z).
Proof.
  revert z. unfold setup_input.
  apply setup_token_bind; [hush | intros _ z].
  destruct (input_allocate_device_ok p); cbn [negb];
    [|apply setup_token_fail].
  revert z. apply setup_token_bind; [apply register_axes_quiet | intros _ z].
  destruct (input_register_device_ret p =? 0); cbn [negb];
    [|apply setup_token_fail].
  intros _.
  repeat first [rewrite bind_final | rewrite bind_trace].
  repeat change (final (modify ?g ?w)) with (g w).
  repeat change (trace (modify ?g ?w)) with (@nil io_event).
  change (final (ret ?a ?w)) with w.
  change (trace (ret ?a ?w)) with (@nil io_event).
  cbn [app]. rewrite app_nil_r.
  set (z2 := set_firmware_loaded true (set_irq_count 0 (set_CurNOP 100 z))).
  assert (Htok : CurNOP (final (readFrame z2))
                 = if result (readFrame z2) =? 1
                   then (if CurNOP z2 =? 100 then 101 else 100)
                   else CurNOP z2)
    by apply (readFrame_from_token 4 z2).
  rewrite readFrame_sync, Htok.
  destruct (result (readFrame z2) =? 1); [right | left];
    split; reflexivity.
Qed.

Lemma setup_reports_token (p : platform) (z : @zephyr_data Dev) :
  setup_token (setup_reports p z).
Proof.
  revert z. unfold setup_reports.
  repeat first
    [ apply setup_input_token
    | apply setup_token_fail
    | apply setup_token_bind;
      [first [apply getReport_quiet | hush] | intros ? ?]
    | match goal with
      | |- setup_token (match ?r with Some _ => _ | None => _ end _) =>
          destruct r as [[? ?]|]
      | z : zephyr_data |- _ => revert z
      end ].
Qed.

Lemma zephyr_setup_token (p : platform) (fwA : bytes) (lenA : Z)
  (fwM : bytes) (lenM : Z) (z : @zephyr_data Dev) :
  setup_token (zephyr_setup p fwA lenA fwM lenM z).
Proof.
  revert z. unfold zephyr_setup.
  repeat first
    [ apply setup_reports_token
    | apply setup_token_bind;
      [first [ apply loadASpeedFirmware_loop_quiet
             | apply loadMainFirmware_quiet
             | apply determineInterfaceVersion_from_quiet
             | unfold msleep; hush ]
      | intros ? ?;
        match goal with
        | z : zephyr_data |- setup_token ((if negb ?b then _ else _) _) =>
            destruct b; cbn [negb];
            [revert z | apply setup_token_fail]
        | z : zephyr_data |- _ => revert z
        end ] ].
Qed.

(** C3 (as amended).  Bring-up sets the poll token to A = 0x64 and then
    makes its own first frame read: after a bring-up that succeeds the
    token is A when that read delivered no frame (the run made no call of
    [input_sync]) and B = 0x65 when it delivered one.  From a token of A,
    [N] consecutive calls of [readFrame] that each deliver a frame (return
    1) leave the token at A when [N] is even and at B when [N] is odd; a
    call that finds no frame (returns 0) or fails (returns -1) leaves the
    token as it was; and the token stays one of the two sentinels over any
    sequence of calls. *)
Theorem poll_token_alternates :
  (forall p fwA lenA fwM lenM (z : @zephyr_data Dev),
      let r := zephyr_setup p fwA lenA fwM lenM z in
      result r = 0 ->
      count_sync (trace r) = 0%nat /\ CurNOP (final r) = 100
      \/ count_sync (trace r) = 1%nat /\ CurNOP (final r) = 101)
  /\ (forall (N : nat) (z : @zephyr_data Dev),
        CurNOP z = 100 ->
        Forall (fun r => r = 1) (result (read_cycles N z)) ->
        CurNOP (final (read_cycles N z)) = if Nat.even N then 100 else 101)
  /\ (forall z : @zephyr_data Dev,
        result (readFrame z) <> 1 ->
        CurNOP (final (readFrame z)) = CurNOP z)
  /\ (forall (N : nat) (z : @zephyr_data Dev),
        CurNOP z = 100 \/ CurNOP z = 101 ->
        CurNOP (final (read_cycles N z)) = 100
        \/ CurNOP (final (read_cycles N z)) = 101).
Proof.
  split; [|split; [|split]].
  - intros p fwA lenA fwM lenM z r. subst r. apply zephyr_setup_token.
  - assert (Hgen : forall (N : nat) (z : @zephyr_data Dev),
              CurNOP z = 100 \/ CurNOP z = 101 ->
              Forall (fun r => r = 1) (result (read_cycles N z)) ->
              CurNOP (final (read_cycles N z))
              = if Nat.even N then CurNOP z
                else (if CurNOP z =? 100 then 101 else 100)).
    { induction N as [|N IH]; intros z Hz Hall; [reflexivity|].
      destruct (read_cycles_S N z) as [Hr Hf].
      rewrite Hr in Hall. inversion Hall as [|r rs H1 Hrest]; subst.
      rewrite Hf, IH; [|apply token_stays_sentinel; exact Hz|exact Hrest].
      unfold readFrame in *. rewrite readFrame_from_token, H1.
      cbn [Z.eqb Pos.eqb]. rewrite Nat.even_succ, <- Nat.negb_even.
      destruct (Nat.even N); cbn [negb]; [reflexivity|].
      destruct Hz as [Hz|Hz]; rewrite Hz; reflexivity. }
    intros N z Hz Hall. rewrite Hgen by (auto). rewrite Hz.
    destruct (Nat.even N); reflexivity.
  - intros z Hr. unfold readFrame in *. rewrite readFrame_from_token.
    destruct (result (readFrame_from 4 z) =? 1) eqn:E; [|reflexivity].
    apply Z.eqb_eq in E. contradiction.
  - induction N as [|N IH]; intros z Hz; [exact Hz|].
    destruct (read_cycles_S N z) as [_ Hf]. rewrite Hf.
    apply IH, token_stays_sentinel, Hz.
Qed.

End TokenMore.

Lemma poll_token_alternates_witness :
  CurNOP (final (zephyr_setup (T:=scripted) willing_kernel uninit 0 uninit 0
                   (probed (bringup_script 4000 3850)))) = 100
  /\ CurNOP (final (read_cycles (T:=scripted) 2
                      (polling [length16_response; data16_response;
                                length16_response; data16_response]))) = 100
  /\ CurNOP (final (read_cycles (T:=scripted) 1
                      (polling [length16_response; data16_response]))) = 101
  /\ CurNOP (final (readFrame (T:=scripted) (polling [length0_response])))
     = 100.
Proof.
  destruct (@poll_token_alternates _ scripted) as [Hsetup [Hpar [Hkeep _]]].
  split; [|split; [|split]].
  - destruct (Hsetup willing_kernel uninit 0 uninit 0
                (probed (bringup_script 4000 3850)))
      as [[_ Htok] | [Hsync _]].
    + vm_compute. reflexivity.
    + exact Htok.
    + vm_compute in Hsync. discriminate Hsync.
  - apply (Hpar 2%nat); [reflexivity | vm_compute; repeat constructor].
  - apply (Hpar 1%nat); [reflexivity | vm_compute; repeat constructor].
  - rewrite Hkeep; [reflexivity | vm_compute; discriminate].
Defined.

(** C3 as stated fails in its first part: bring-up does not return with
    the token at A when its own first read delivers a frame.  In front of
    a controller that has a frame pending, bring-up succeeds and leaves
    the token at B = 0x65. *)
Lemma poll_token_setup_counterexample :
  result (zephyr_setup (T:=scripted) willing_kernel uninit 0 uninit 0
            (probed (bringup_script_pending 4000 3850))) = 0
  /\ CurNOP (final (zephyr_setup (T:=scripted) willing_kernel uninit 0
                      uninit 0 (probed (bringup_script_pending 4000 3850))))
     = 101
  /\ CurNOP (final (zephyr_setup (T:=scripted) willing_kernel uninit 0
                      uninit 0 (probed (bringup_script_pending 4000 3850))))
     <> 100.
Proof.
  repeat split; vm_compute; first [reflexivity | discriminate].
Qed.

(** ** The sensor geometry and the dimension report *)

Section GeometryMore.
Context {Dev : Type} {T : Transport Dev}.

Lemma bind_assoc {A B C} (m : @M Dev A) (f : A -> M B) (g : B -> M C)
  (z : @zephyr_data Dev) :
  bind (bind m f) g z = bind m (fun a => bind (f a) g) z.
Proof.
  unfold bind. destruct (m z) as [[a z1] t1].
  destruct (f a z1) as [[b z2] t2]. destruct (g b z2) as [[c z3] t3].
  rewrite app_assoc. reflexivity.
Qed.

Lemma bind_ext {A B} (m : @M Dev A) (f g : A -> M B) (z : @zephyr_data Dev) :
  (forall a z', f a z' = g a z') -> bind m f z = bind m g z.
Proof.
  intros Hfg. unfold bind. destruct (m z) as [[a z1] t1].
  rewrite Hfg. reflexivity.
Qed.

Lemma bind_ret_l {A B} (a : A) (k : A -> @M Dev B) (z : @zephyr_data Dev) :
  bind (ret a) k z = k a z.
Proof. unfold bind, ret. destruct (k a z) as [[b z1] t1]. reflexivity. Qed.

(** [zephyr_setup] is [dimension_report] followed by
    [store_dimensions]. *)
Lemma setup_reports_split (p : platform) (z : @zephyr_data Dev) :
  setup_reports p z
  = bind (dimension_report_query p) (store_dimensions p) z.
Proof.
  revert z. unfold setup_reports, dimension_report_query. cbv zeta.
  intros z.
  repeat first
    [ reflexivity
    | rewrite bind_ret_l; reflexivity
    | rewrite bind_assoc; apply bind_ext; intros ? ?
    | match goal with
      | |- (match ?r with Some _ => _ | None => _ end) _ = _ =>
          destruct r as [[? ?]|]
      end ].
Qed.

Lemma zephyr_setup_split (p : platform) (fwA : bytes) (lenA : Z)
  (fwM : bytes) (lenM : Z) (z : @zephyr_data Dev) :
  zephyr_setup p fwA lenA fwM lenM z
  = bind (dimension_report p fwA lenA fwM lenM) (store_dimensions p) z.
Proof.
  revert z. unfold zephyr_setup, dimension_report. intros z.
  repeat first
    [ apply setup_reports_split
    | rewrite bind_ret_l; reflexivity
    | rewrite bind_assoc; apply bind_ext; intros ? ?
    | match goal with
      | |- (if negb ?b then _ else _) _ = _ => destruct b; cbn [negb]
      end ].
Qed.

Lemma report_on_wire_bind {A} (m : @M Dev A)
  (k : A -> M (option (bytes * Z))) :
  (forall a z, report_on_wire (k a z)) ->
  forall z, report_on_wire (bind m k z).
Proof.
  intros Hk z. unfold report_on_wire.
  rewrite bind_result, bind_final. apply Hk.
Qed.

Lemma report_on_wire_fail (z : @zephyr_data Dev) :
  report_on_wire (ret None z).
Proof. intros rb len E. discriminate E. Qed.

Lemma getReport_on_wire (id : Z) (buffer : bytes) (z : @zephyr_data Dev) :
  report_on_wire (getReport id buffer z).
Proof.
  intros rb len E a Ha.
  pose proof (getReport_summary id buffer z) as Hs. cbv zeta in Hs.
  rewrite E in Hs. destruct Hs as [_ [_ [Hcopy _]]].
  rewrite Hcopy.
  replace ((0 <=? a) && (a <? len)) with true; [reflexivity|].
  symmetry. apply andb_true_iff. split; [apply Z.leb_le | apply Z.ltb_lt]; lia.
Qed.

Lemma dimension_report_query_on_wire (p : platform) (z : @zephyr_data Dev) :
  report_on_wire (dimension_report_query p z).
Proof.
  revert z. unfold dimension_report_query. cbv zeta.
  repeat first
    [ apply getReport_on_wire
    | apply report_on_wire_fail
    | apply report_on_wire_bind; intros ? ?
    | match goal with
      | |- report_on_wire (match ?r with Some _ => _ | None => _ end _) =>
          destruct r as [[? ?]|]
      | z : zephyr_data |- _ => revert z
      end ].
Qed.

Lemma dimension_report_on_wire (p : platform) (fwA : bytes) (lenA : Z)
  (fwM : bytes) (lenM : Z) (z : @zephyr_data Dev) :
  report_on_wire (dimension_report p fwA lenA fwM lenM z).
Proof.
  revert z. unfold dimension_report.
  repeat first
    [ apply dimension_report_query_on_wire
    | apply report_on_wire_bind; intros ? ?;
      match goal with
      | z : zephyr_data |- report_on_wire ((if negb ?b then _ else _) _) =>
          destruct b; cbn [negb];
          [revert z | apply report_on_wire_fail]
      | z : zephyr_data |- _ => revert z
      end ].
Qed.

(** C6 (as amended).  Bring-up computes the sensor geometry from the
    buffer the dimension report query delivers: whenever that query
    delivers a buffer, [SensorWidth] and [SensorHeight] end as
    [sensor_dim 9000 raw_x] and [sensor_dim 13850 raw_y], with [raw_x]
    and [raw_y] the two [u32] fields at the start of that buffer; for a
    report of at least 8 bytes that fits the receive buffer these are
    bytes 4 to 11 of the response; and when the query delivers nothing,
    bring-up returns -1.  [sensor_dim] is evaluated in unsigned 32-bit
    arithmetic; for [raw_x <= 9000] and [raw_y <= 13850] it is the exact
    integer value of [(9000 - raw_x) * 84 / 73] and
    [(13850 - raw_y) * 84 / 73] with truncating division; in particular
    9000 and 13850 give 0 and a raw width of 0 gives 10356. *)
Theorem sensor_geometry :
  (forall p fwA lenA fwM lenM (z : @zephyr_data Dev) rb len,
      let q := dimension_report p fwA lenA fwM lenM z in
      let r := zephyr_setup p fwA lenA fwM lenM z in
      result q = Some (rb, len) ->
      SensorWidth (final r) = sensor_dim 9000 (load32 rb 0)
      /\ SensorHeight (final r) = sensor_dim 13850 (load32 rb 4)
      /\ (8 <= len <= 1018 ->
          load32 rb 0 = load32 (InputPacket (final q)) 4
          /\ load32 rb 4 = load32 (InputPacket (final q)) 8))
  /\ (forall p fwA lenA fwM lenM (z : @zephyr_data Dev),
        result (dimension_report p fwA lenA fwM lenM z) = None ->
        result (zephyr_setup p fwA lenA fwM lenM z) = -1)
  /\ (forall raw_x, 0 <= raw_x <= 9000 ->
        sensor_dim 9000 raw_x = Z.quot ((9000 - raw_x) * 84) 73)
  /\ (forall raw_y, 0 <= raw_y <= 13850 ->
        sensor_dim 13850 raw_y = Z.quot ((13850 - raw_y) * 84) 73)
  /\ sensor_dim 9000 9000 = 0
  /\ sensor_dim 13850 13850 = 0
  /\ sensor_dim 9000 0 = 10356.
Proof.
  split; [|split].
  - intros p fwA lenA fwM lenM z rb len q r E. subst q r.
    rewrite zephyr_setup_split, bind_final, E.
    cbn [store_dimensions]. rewrite !bind_final.
    rewrite (setup_input_preserves SensorWidth) by reflexivity.
    rewrite (setup_input_preserves SensorHeight) by reflexivity.
    split; [reflexivity|]. split; [reflexivity|].
    intros Hlen.
    pose proof (dimension_report_on_wire p fwA lenA fwM lenM z rb len E)
      as Hwire.
    unfold load32, load16.
    rewrite !Hwire by lia. split; reflexivity.
  - intros p fwA lenA fwM lenM z E.
    rewrite zephyr_setup_split, bind_result, E. reflexivity.
  - split; [intros; apply sensor_dim_exact; lia|].
    split; [intros; apply sensor_dim_exact; lia|].
    repeat split; reflexivity.
Qed.

End GeometryMore.

Lemma sensor_geometry_witness :
  SensorWidth
    (final (zephyr_setup (T:=scripted) willing_kernel uninit 0 uninit 0
              (probed (bringup_script 4000 3850))))
  = sensor_dim 9000 4000
  /\ SensorHeight
       (final (zephyr_setup (T:=scripted) willing_kernel uninit 0 uninit 0
                 (probed (bringup_script 4000 3850))))
     = sensor_dim 13850 3850
  /\ sensor_dim 9000 4000 = Z.quot ((9000 - 4000) * 84) 73
  /\ sensor_dim 13850 3850 = Z.quot ((13850 - 3850) * 84) 73.
Proof.
  destruct (@sensor_geometry _ scripted) as [Hsetup [_ [Hx [Hy _]]]].
  destruct (result (dimension_report (T:=scripted) willing_kernel uninit 0
                      uninit 0 (probed (bringup_script 4000 3850))))
    as [[rb len]|] eqn:E; [|vm_compute in E; discriminate E].
  destruct (Hsetup willing_kernel uninit 0 uninit 0
              (probed (bringup_script 4000 3850)) rb len E)
    as [Hw [Hh _]].
  assert (Hrx : load32 rb 0 = 4000).
  { apply (f_equal (fun o : option (bytes * Z) =>
                      match o with Some (b, _) => load32 b 0 | None => 0 end))
      in E.
    vm_compute in E. symmetry. exact E. }
  assert (Hry : load32 rb 4 = 3850).
  { apply (f_equal (fun o : option (bytes * Z) =>
                      match o with Some (b, _) => load32 b 4 | None => 0 end))
      in E.
    vm_compute in E. symmetry. exact E. }
  rewrite Hw, Hh, Hrx, Hry.
  split; [reflexivity|]. split; [reflexivity|].
  split; [apply Hx; lia | apply Hy; lia].
Defined.
